(** * The DCT NFT create built-in function

    A shallow embedding of [dctNFTCreate.ProcessBuiltinFunction] and of the
    helpers it is built from ([checkDCTNFTCreateBurnAddInput], [getAccount],
    [getLatestNonce], [saveLatestNonce], [getNonceKey]), followed by the
    properties of the handler.

    Conventions.
    - A Go [uint64] is a [Z] in [0, 2^64); every operation that can leave the
      range is followed by [wrap64].  [uint32] likewise with [wrap32].
    - A [*big.Int] is a [Z]; [SetBytes] and [Bytes] are the big-endian
      conversions of [math/big].
    - A [[]byte] is a [list byte]; the nil slice and the empty slice are both
      [[]].
    - The handler runs in the monad [M]: a state monad over [World] with
      errors.  [World] holds what the call can observe or change: the state
      behind the external collaborators, the two account objects the call
      can reach, and a log of the mutating collaborator calls. *)

From Stdlib Require Import ZArith List Bool Lia String.
From Stdlib Require Import Strings.Byte.
Import ListNotations.
Local Open Scope Z_scope.

Set Implicit Arguments.

(** ** Bytes and integers *)

Definition bytes := list byte.

Definition byte_val (b : byte) : Z := Z.of_N (Byte.to_N b).

Definition byte_of_Z (z : Z) : byte :=
  match Byte.of_N (Z.to_N (z mod 256)) with
  | Some b => b
  | None => x00
  end.

Definition bytes_eq_dec : forall (a b : bytes), {a = b} + {a <> b} :=
  list_eq_dec Byte.byte_eq_dec.

(** [bytes.Equal] *)
Definition bytes_Equal (a b : bytes) : bool :=
  if bytes_eq_dec a b then true else false.

(** [len(s)] as an integer *)
Definition len {A : Type} (l : list A) : Z := Z.of_nat (List.length l).

Definition wrap64 (z : Z) : Z := z mod 2 ^ 64.
Definition wrap32 (z : Z) : Z := z mod 2 ^ 32.

Module big.

(** [big.NewInt(0).SetBytes(buf)]: [buf] read as a big-endian unsigned
    integer. *)
Definition SetBytes (buf : bytes) : Z :=
  fold_left (fun acc b => acc * 256 + byte_val b) buf 0.

(** [x.Uint64()]: the low 64 bits of a non-negative [x]. *)
Definition Uint64 (x : Z) : Z := wrap64 x.

(** [big.NewInt(0).SetUint64(n)] *)
Definition SetUint64 (n : Z) : Z := n.

Fixpoint Bytes_go (fuel : nat) (x : Z) (acc : bytes) : bytes :=
  match fuel with
  | O => acc
  | S fuel' =>
      if x =? 0 then acc
      else Bytes_go fuel' (x / 256) (byte_of_Z (x mod 256) :: acc)
  end.

(** [x.Bytes()]: the absolute value of [x] as a big-endian byte slice
    without leading zero bytes; empty for 0.  A number below [2^k] has at
    most [k] digits, so the fuel never runs out. *)
Definition Bytes (x : Z) : bytes :=
  Bytes_go (S (Z.to_nat (Z.log2 (Z.abs x)))) (Z.abs x) [].

End big.

(** ** Errors *)

Inductive Error : Type :=
| ErrInvalidArguments
| ErrInvalidAddressLength
| ErrInvalidRcvAddr
| ErrNotEnoughGas
| ErrNilUserAccount
| ErrWrongTypeAssertion
  (** [fmt.Errorf("%w...", base)]: an error wrapping [base] *)
| Errorf (format : string) (base : Error)
  (** an error value produced by an external collaborator *)
| ErrExternal (what : string)
  (** a run-time panic (index out of range, nil dereference) *)
| Panic (what : string).

Definition Error_eq_dec : forall (a b : Error), {a = b} + {a <> b}.
Proof. decide equality; apply string_dec. Defined.

(** [errors.Is(err, target)] *)
Fixpoint errors_Is (err target : Error) : bool :=
  if Error_eq_dec err target then true
  else match err with
       | Errorf _ base => errors_Is base target
       | _ => false
       end.

(** ** Data model *)

(** Modelled from the spec: the declaration of [vm.CallType] is not part of
    the sources at hand; the call record's mode is Direct or Resolved-Target,
    and the handler only ever compares it with [vm.ExecOnDestByCaller]. *)
Module vm.

Inductive CallType : Type := DirectCall | ExecOnDestByCaller.

Definition eqb (a b : CallType) : bool :=
  match a, b with
  | DirectCall, DirectCall | ExecOnDestByCaller, ExecOnDestByCaller => true
  | _, _ => false
  end.

End vm.

(** [vmcommon.ContractCallInput], the fields the handler reads *)
Record ContractCallInput : Type := {
  CallerAddr : bytes;
  RecipientAddr : bytes;
  CallType : vm.CallType;
  Arguments : list bytes;
  GasProvided : Z;
  ReturnCallAfterError : bool
}.

(** [dct.MetaData] *)
Record MetaData : Type := {
  Nonce : Z;
  Name : bytes;
  Creator : bytes;
  Royalties : Z;
  Hash : bytes;
  Attributes : bytes;
  URIs : list bytes
}.

(** [dct.DCToken] *)
Record DCToken : Type := {
  Type_ : Z;
  Value : Z;
  TokenMetaData : option MetaData
}.

(** Modelled from the spec: [addDCTEntryInVMOutput] and the log entry it
    builds are not part of the sources at hand.  An event records the
    operation name, the token identifier, the new nonce, the quantity, the
    caller address and the (possibly absent) serialized unit. *)
Record LogEntry : Type := {
  Identifier : bytes;
  LogTokenID : bytes;
  LogNonce : Z;
  LogQuantity : Z;
  Address : bytes;
  Payload : bytes
}.

Module vmcommon.

(** The status code of an output record; the handler only ever produces
    [Ok]. *)
Inductive ReturnCode : Type := Ok | UserError.

End vmcommon.

(** [vmcommon.VMOutput] *)
Record VMOutput : Type := {
  ReturnCode : vmcommon.ReturnCode;
  GasRemaining : Z;
  ReturnData : list bytes;
  Logs : list LogEntry
}.

(** Modelled from the spec: [addDCTEntryInVMOutput] appends one structured
    event to the output record and leaves its other fields alone. *)
Definition addDCTEntryInVMOutput (vmOutput : VMOutput)
    (identifier tokenID : bytes) (nonce value : Z) (caller data : bytes)
  : VMOutput :=
  {| ReturnCode := ReturnCode vmOutput;
     GasRemaining := GasRemaining vmOutput;
     ReturnData := ReturnData vmOutput;
     Logs := Logs vmOutput ++
             [ {| Identifier := identifier; LogTokenID := tokenID;
                  LogNonce := nonce; LogQuantity := value;
                  Address := caller; Payload := data |} ] |}.

(** Modelled from the spec: [core.MaxRoyalty] is not part of the sources at
    hand; the maximum royalty value is 10000 (also the handler's own comment:
    "arg3 - Royalties - max 10000"). *)
Definition MaxRoyalty : Z := 10000.

(** The package variable [zero], [big.NewInt(0)]. *)
Definition zero : Z := 0.

(** Constants of package [core] and of this package that the handler uses
    and whose declarations are not part of the sources at hand. *)
Record Constants : Type := {
  (** [core.ProtectedKeyPrefix + core.DCTNFTLatestNonceIdentifier] *)
  noncePrefix : bytes;
  baseDCTKeyPrefix : bytes;
  DCTRoleNFTCreate : bytes;
  DCTRoleNFTAddQuantity : bytes;
  BuiltInFunctionDCTNFTCreate : bytes;
  NonFungible : Z;
  maxLenForAddNFTQuantity : Z
}.

(** ** The external collaborators

    Modelled from the spec: the declarations of the interfaces of package
    [vmcommon] are not part of the sources at hand.  The methods and their
    results are those of the external interfaces of the spec: the account
    adapter loads an account or fails and saves an account; the account data
    store gets the bytes under a key or fails and puts bytes under a key; the
    role authority allows or refuses; the token storage handler saves a unit
    and adds to the global supply; the serializer gives bytes or fails; the
    feature flags answer whether the length check is enabled.

    Each Go interface is a record of functions.  A method that can change
    state takes the state and returns the error together with the new state:
    Go undoes nothing when a method returns an error.  Loading an account,
    checking a role and reading a value change nothing. *)

(** [vmcommon.UserAccountHandler] together with its [AccountDataHandler()]:
    the two operations on the data are the calls through the data handler
    as a whole.  [throughDataHandler] below sets the data handler apart, for
    the case where it is nil. *)
Class UserAccountHandler (Acct : Type) : Type := {
  AddressBytes : Acct -> bytes;
  (** [AccountDataHandler().RetrieveValue(key)], without the trie depth *)
  RetrieveValue : bytes -> Acct -> Error + bytes;
  (** [AccountDataHandler().SaveKeyValue(key, value)] *)
  SaveKeyValue : bytes -> bytes -> Acct -> option Error * Acct
}.

(** What [AccountsAdapter.LoadAccount] hands back: a user account, or an
    account handler that is not one (the type assertion fails on it). *)
Inductive AccountHandler (Acct : Type) : Type :=
| UserAccount (a : Acct)
| OtherAccount.
Arguments OtherAccount {Acct}.

(** [vmcommon.AccountsAdapter] *)
Record AccountsAdapter (Acct Store : Type) : Type := {
  LoadAccount : bytes -> Store -> Error + AccountHandler Acct;
  SaveAccount : Acct -> Store -> option Error * Store
}.

(** [vmcommon.Marshalizer] *)
Record Marshalizer : Type := {
  Marshal : DCToken -> Error + bytes
}.

(** [vmcommon.DCTRoleHandler] *)
Record DCTRoleHandler (Acct : Type) : Type := {
  CheckAllowedToExecute : Acct -> bytes -> bytes -> option Error
}.

(** [vmcommon.DCTNFTStorageHandler] *)
Record DCTNFTStorageHandler (Acct Store : Type) : Type := {
  SaveDCTNFTToken :
    bytes -> Acct -> bytes -> Z -> DCToken -> bool -> bool -> Store ->
    option Error * (Acct * Store);
  AddToLiquiditySystemAcc : bytes -> Z -> Z -> Store -> option Error * Store
}.

(** [vmcommon.EnableEpochsHandler] *)
Record EnableEpochsHandler : Type := {
  IsValueLengthCheckFlagEnabled : bool
}.

(** [vmcommon.BaseOperationCost] *)
Record BaseOperationCost : Type := {
  StorePerByte : Z
}.

(** The handler.  [globalSettingsHandler] is stored by the constructor and
    never used by the call; [mutExecution] is the lock around the cost
    table. *)
Record dctNFTCreate (Acct Store : Type) : Type := {
  keyPrefix : bytes;
  accounts : AccountsAdapter Acct Store;
  marshaller : Marshalizer;
  rolesHandler : DCTRoleHandler Acct;
  funcGasCost : Z;
  gasConfig : BaseOperationCost;
  dctStorageHandler : DCTNFTStorageHandler Acct Store;
  enableEpochsHandler : EnableEpochsHandler
}.

(** ** The world of one call *)

(** The two account objects a call can reach. *)
Inductive AcctRef : Type :=
| RefSnd      (** the object passed as [acntSnd] *)
| RefLoaded.  (** the object [LoadAccount] returned to this call *)

(** A mutating call on a collaborator, as the handler issued it. *)
Inductive Call : Type :=
| CallSaveDCTNFTToken (acnt : AcctRef) (owner key : bytes) (nonce : Z)
    (data : DCToken) (isCreation returnOnError : bool)
| CallAddToLiquiditySystemAcc (key : bytes) (nonce quantity : Z)
| CallSaveKeyValue (acnt : AcctRef) (key value : bytes)
| CallSaveAccount (acnt : AcctRef).

Record World (Acct Store : Type) : Type := mkWorld {
  store : Store;
  sndObj : option Acct;      (** [None] is the nil interface *)
  loadedObj : option Acct;
  calls : list Call          (** oldest first *)
}.

Arguments mkWorld {Acct Store}.

(** ** The monad of the handler *)

Section Monad.

Context {W : Type}.

Definition M (A : Type) : Type := W -> (Error + A) * W.

Definition ret {A : Type} (a : A) : M A := fun w => (inr a, w).

Definition fail {A : Type} (err : Error) : M A := fun w => (inl err, w).

Definition bind {A B : Type} (c : M A) (k : A -> M B) : M B :=
  fun w =>
    match c w with
    | (inr a, w') => k a w'
    | (inl err, w') => (inl err, w')
    end.

(** [if err != nil { return nil, err }] on a call that returns only an
    error *)
Definition check (r : option Error) : M unit :=
  match r with
  | Some err => fail err
  | None => ret tt
  end.

(** the same on a call that returns a value and an error *)
Definition try {A : Type} (r : Error + A) : M A :=
  match r with
  | inl err => fail err
  | inr a => ret a
  end.

(** [s[i]], which panics out of range *)
Definition index {A : Type} (s : list A) (i : nat) : M A :=
  match nth_error s i with
  | Some a => ret a
  | None => fail (Panic "index out of range")
  end.

(** A computation that leaves the world as it found it. *)
Definition readonly {A : Type} (c : M A) : Prop :=
  forall w r w', c w = (r, w') -> w' = w.

End Monad.

Declare Scope handler_scope.
Delimit Scope handler_scope with handler.
Notation "x <- c ;; k" := (bind c (fun x => k))
  (at level 61, c at next level, right associativity) : handler_scope.
Notation "c ;;; k" := (bind c (fun _ => k))
  (at level 61, right associativity) : handler_scope.
Local Open Scope handler_scope.

(** [s[lo:hi]] *)
Definition slice {A : Type} (s : list A) (lo hi : nat) : list A :=
  firstn (hi - lo) (skipn lo s).
Notation "' pat <- c ;; k" :=
  (bind c (fun x => match x with pat => k end))
  (at level 61, pat pattern, c at next level, right associativity)
  : handler_scope.

(** ** The handler *)

Section Handler.

Context {Acct Store : Type} {UAH : UserAccountHandler Acct}.

Variable core : Constants.

(** [checkBasicDCTArguments] is not part of the sources at hand. *)
Variable checkBasicDCTArguments : ContractCallInput -> option Error.

Local Notation "'Handler'" := (dctNFTCreate Acct Store) (only parsing).
Local Notation "'H'" := (@M (World Acct Store)) (only parsing).

(** *** Account objects and collaborator calls *)

Definition object (r : AcctRef) (w : World Acct Store) : option Acct :=
  match r with
  | RefSnd => sndObj w
  | RefLoaded => loadedObj w
  end.

Definition setObject (r : AcctRef) (a : Acct) (w : World Acct Store)
  : World Acct Store :=
  match r with
  | RefSnd => mkWorld (store w) (Some a) (loadedObj w) (calls w)
  | RefLoaded => mkWorld (store w) (sndObj w) (Some a) (calls w)
  end.

(** reading through an account reference; the nil reference panics *)
Definition deref (r : AcctRef) : H Acct :=
  fun w =>
    match object r w with
    | Some a => (inr a, w)
    | None => (inl (Panic "nil pointer dereference"), w)
    end.

(** A mutating call on a collaborator, with [acnt] the account object it is
    handed: the object and the store are updated in place, the call [c] is
    logged (with the object as it was handed over), and the collaborator's
    error, if any, is returned. *)
Definition invoke (c : Acct -> Call) (acnt : AcctRef)
    (f : Acct -> Store -> option Error * (Acct * Store)) : H unit :=
  fun w =>
    match object acnt w with
    | None => (inl (Panic "nil pointer dereference"), w)
    | Some a =>
        let '(err, (a', s')) := f a (store w) in
        let w' := setObject acnt a'
                    (mkWorld s' (sndObj w) (loadedObj w) (calls w ++ [c a])) in
        match err with
        | Some e => (inl e, w')
        | None => (inr tt, w')
        end
    end.

(** A mutating call on a collaborator that is handed no account object. *)
Definition invokeStore (c : Call) (f : Store -> option Error * Store)
  : H unit :=
  fun w =>
    let '(err, s') := f (store w) in
    let w' := mkWorld s' (sndObj w) (loadedObj w) (calls w ++ [c]) in
    match err with
    | Some e => (inl e, w')
    | None => (inr tt, w')
    end.

(** *** The helpers of the source *)

Definition getNonceKey (tokenID : bytes) : bytes :=
  noncePrefix core ++ tokenID.

Definition getLatestNonce (acnt : Acct) (tokenID : bytes) : Error + Z :=
  let nonceKey := getNonceKey tokenID in
  match RetrieveValue nonceKey acnt with
  | inl err => inl err
  | inr nonceData =>
      if len nonceData =? 0 then inr 0
      else inr (big.Uint64 (big.SetBytes nonceData))
  end.

Definition saveLatestNonce (acnt : Acct) (tokenID : bytes) (nonce : Z)
  : option Error * Acct :=
  let nonceKey := getNonceKey tokenID in
  SaveKeyValue nonceKey (big.Bytes (big.SetUint64 nonce)) acnt.

Definition checkDCTNFTCreateBurnAddInput (account : option Acct)
    (vmInput : ContractCallInput) (funcGasCost : Z) : option Error :=
  match checkBasicDCTArguments vmInput with
  | Some err => Some err
  | None =>
      if negb (bytes_Equal (CallerAddr vmInput) (RecipientAddr vmInput))
      then Some ErrInvalidRcvAddr
      else if match account with None => true | Some _ => false end
              && negb (vm.eqb (CallType vmInput) vm.ExecOnDestByCaller)
      then Some ErrNilUserAccount
      else if GasProvided vmInput <? funcGasCost
      then Some ErrNotEnoughGas
      else None
  end.

Definition getAccount (e : Handler) (address : bytes) : H AcctRef :=
  fun w =>
    match LoadAccount (accounts e) address (store w) with
    | inl err => (inl err, w)
    | inr OtherAccount => (inl ErrWrongTypeAssertion, w)
    | inr (UserAccount userAcc) =>
        (inr RefLoaded, mkWorld (store w) (sndObj w) (Some userAcc) (calls w))
    end.

(** *** [ProcessBuiltinFunction], block by block *)

(** lines 115-122: the number of arguments *)
Definition minNumOfArgs (vmInput : ContractCallInput) : nat :=
  if vm.eqb (CallType vmInput) vm.ExecOnDestByCaller then 8%nat else 7%nat.

Definition checkNumOfArgs (vmInput : ContractCallInput) : option Error :=
  let lenArgs := List.length (Arguments vmInput) in
  if (lenArgs <? minNumOfArgs vmInput)%nat
  then Some (Errorf "%w, wrong number of arguments" ErrInvalidArguments)
  else None.

(** lines 124-141: the account that holds the roles, and the URIs *)
Definition resolveAccountWithRoles (e : Handler) (vmInput : ContractCallInput)
  : H (AcctRef * list bytes) :=
  let lenArgs := List.length (Arguments vmInput) in
  if vm.eqb (CallType vmInput) vm.ExecOnDestByCaller then
    scAddressWithRoles <- index (Arguments vmInput) (lenArgs - 1) ;;
    let uris := slice (Arguments vmInput) 6 (lenArgs - 1) in
    if negb (len scAddressWithRoles =? len (CallerAddr vmInput))
    then fail ErrInvalidAddressLength
    else if bytes_Equal scAddressWithRoles (CallerAddr vmInput)
    then fail ErrInvalidRcvAddr
    else
      accountWithRoles <- getAccount e scAddressWithRoles ;;
      ret (accountWithRoles, uris)
  else
    ret (RefSnd, skipn 6 (Arguments vmInput)).

(** lines 110-152: input check, number of arguments, account resolution,
    creation role, latest nonce *)
Definition authorize (e : Handler) (vmInput : ContractCallInput)
  : H (AcctRef * list bytes * Z) :=
  fun w0 =>
  (check (checkDCTNFTCreateBurnAddInput (sndObj w0) vmInput (funcGasCost e)) ;;;
   check (checkNumOfArgs vmInput) ;;;
   ' (accountWithRoles, uris) <- resolveAccountWithRoles e vmInput ;;
   tokenID <- index (Arguments vmInput) 0 ;;
   acnt <- deref accountWithRoles ;;
   check (CheckAllowedToExecute (rolesHandler e) acnt tokenID
            (DCTRoleNFTCreate core)) ;;;
   nonce <- try (getLatestNonce acnt tokenID) ;;
   ret (accountWithRoles, uris, nonce)) w0.

(** lines 154-161: the gas *)
Definition totalLength (arguments : list bytes) : Z :=
  fold_left (fun total arg => wrap64 (total + len arg)) arguments 0.

Definition gasToUse (e : Handler) (vmInput : ContractCallInput) : Z :=
  wrap64 (wrap64 (totalLength (Arguments vmInput) * StorePerByte (gasConfig e))
          + funcGasCost e).

Definition checkGas (e : Handler) (vmInput : ContractCallInput)
  : option Error :=
  if GasProvided vmInput <? gasToUse e vmInput then Some ErrNotEnoughGas
  else None.

(** lines 163-166: the royalties *)
Definition parseRoyalties (vmInput : ContractCallInput) : H Z :=
  arg3 <- index (Arguments vmInput) 3 ;;
  let royalties := wrap32 (big.Uint64 (big.SetBytes arg3)) in
  if royalties >? MaxRoyalty
  then fail (Errorf "%w, invalid max royality value" ErrInvalidArguments)
  else ret royalties.

(** lines 169-178: the quantity and the role it may need *)
Definition parseQuantity (e : Handler) (vmInput : ContractCallInput)
    (accountWithRoles : AcctRef) : H Z :=
  arg1 <- index (Arguments vmInput) 1 ;;
  let quantity := big.SetBytes arg1 in
  if quantity <=? zero
  then fail (Errorf "%w, invalid quantity" ErrInvalidArguments)
  else
    (if quantity >? 1 then
       acnt <- deref accountWithRoles ;;
       arg0 <- index (Arguments vmInput) 0 ;;
       check (CheckAllowedToExecute (rolesHandler e) acnt arg0
                (DCTRoleNFTAddQuantity core))
     else ret tt) ;;;
    ret quantity.

(** lines 179-182: the length of the quantity *)
Definition checkQuantityLength (e : Handler) (vmInput : ContractCallInput)
  : H unit :=
  let isValueLengthCheckFlagEnabled :=
    IsValueLengthCheckFlagEnabled (enableEpochsHandler e) in
  arg1 <- index (Arguments vmInput) 1 ;;
  if isValueLengthCheckFlagEnabled && (len arg1 >? maxLenForAddNFTQuantity core)
  then fail (Errorf "%w max length for quantity in nft create is %d"
               ErrInvalidArguments)
  else ret tt.

(** lines 184-197: the token *)
Definition newDCToken (vmInput : ContractCallInput) (uris : list bytes)
    (nextNonce royalties quantity : Z) : H DCToken :=
  arg2 <- index (Arguments vmInput) 2 ;;
  arg4 <- index (Arguments vmInput) 4 ;;
  arg5 <- index (Arguments vmInput) 5 ;;
  ret {| Type_ := wrap32 (NonFungible core);
         Value := quantity;
         TokenMetaData := Some
           {| Nonce := nextNonce;
              Name := arg2;
              Creator := CallerAddr vmInput;
              Royalties := royalties;
              Hash := arg4;
              Attributes := arg5;
              URIs := uris |} |}.

(** lines 199-218: the token, the liquidity, the nonce and, when the account
    was loaded by the handler, the account *)
Definition persist (e : Handler) (vmInput : ContractCallInput)
    (accountWithRoles : AcctRef) (tokenID dctTokenKey : bytes)
    (nextNonce quantity : Z) (dctData : DCToken) : H unit :=
  invoke (fun acnt =>
            CallSaveDCTNFTToken accountWithRoles (AddressBytes acnt)
              dctTokenKey nextNonce dctData true
              (ReturnCallAfterError vmInput))
    accountWithRoles
    (fun acnt => SaveDCTNFTToken (dctStorageHandler e) (AddressBytes acnt)
                   acnt dctTokenKey nextNonce dctData true
                   (ReturnCallAfterError vmInput)) ;;;
  invokeStore (CallAddToLiquiditySystemAcc dctTokenKey nextNonce quantity)
    (AddToLiquiditySystemAcc (dctStorageHandler e) dctTokenKey nextNonce
       quantity) ;;;
  invoke (fun _ =>
            CallSaveKeyValue accountWithRoles (getNonceKey tokenID)
              (big.Bytes (big.SetUint64 nextNonce)))
    accountWithRoles
    (fun acnt s => let '(err, acnt') := saveLatestNonce acnt tokenID nextNonce
                   in (err, (acnt', s))) ;;;
  if vm.eqb (CallType vmInput) vm.ExecOnDestByCaller then
    invoke (fun _ => CallSaveAccount accountWithRoles) accountWithRoles
      (fun acnt s => let '(err, s') := SaveAccount (accounts e) acnt s
                     in (err, (acnt, s')))
  else ret tt.

(** lines 220-231: the output record and its log entry; a token that cannot
    be marshalled is only logged about, and [dctDataBytes] stays nil *)
Definition output (e : Handler) (vmInput : ContractCallInput)
    (tokenID : bytes) (nextNonce quantity : Z) (dctData : DCToken)
  : VMOutput :=
  let vmOutput :=
    {| ReturnCode := vmcommon.Ok;
       GasRemaining := wrap64 (GasProvided vmInput - gasToUse e vmInput);
       ReturnData := [big.Bytes (big.SetUint64 nextNonce)];
       Logs := [] |} in
  let dctDataBytes :=
    match Marshal (marshaller e) dctData with
    | inr data => data
    | inl _ => []
    end in
  addDCTEntryInVMOutput vmOutput (BuiltInFunctionDCTNFTCreate core) tokenID
    nextNonce quantity (CallerAddr vmInput) dctDataBytes.

(** [ProcessBuiltinFunction], with [acntSnd] the object [sndObj] of the
    world the call starts in *)
Definition ProcessBuiltinFunction (e : Handler) (vmInput : ContractCallInput)
  : H VMOutput :=
  ' (accountWithRoles, uris, nonce) <- authorize e vmInput ;;
  check (checkGas e vmInput) ;;;
  royalties <- parseRoyalties vmInput ;;
  tokenID <- index (Arguments vmInput) 0 ;;
  let dctTokenKey := keyPrefix e ++ tokenID in
  quantity <- parseQuantity e vmInput accountWithRoles ;;
  checkQuantityLength e vmInput ;;;
  let nextNonce := wrap64 (nonce + 1) in
  dctData <- newDCToken vmInput uris nextNonce royalties quantity ;;
  persist e vmInput accountWithRoles tokenID dctTokenKey nextNonce quantity
    dctData ;;;
  ret (output e vmInput tokenID nextNonce quantity dctData).

(** No collaborator was asked to change anything between [w] and [w']: the
    store, the sender's account object and the log are the same, and the
    account object the handler loaded, if any, is as the adapter returned it. *)
Definition unmutated (e : Handler) (w w' : World Acct Store) : Prop :=
  store w' = store w /\ sndObj w' = sndObj w /\ calls w' = calls w /\
  (loadedObj w' = loadedObj w \/
   exists addr a, LoadAccount (accounts e) addr (store w) = inr (UserAccount a)
                  /\ loadedObj w' = Some a).

(** *** Vocabulary of the properties *)

(** The steps of the call that come before the first mutating call on a
    collaborator (lines 110-197), with what they hand to the rest: the
    account, the token identifier, the next nonce, the quantity and the
    token. *)
Definition validate (e : Handler) (vmInput : ContractCallInput)
  : H (AcctRef * bytes * Z * Z * DCToken) :=
  ' (accountWithRoles, uris, nonce) <- authorize e vmInput ;;
  check (checkGas e vmInput) ;;;
  royalties <- parseRoyalties vmInput ;;
  tokenID <- index (Arguments vmInput) 0 ;;
  quantity <- parseQuantity e vmInput accountWithRoles ;;
  checkQuantityLength e vmInput ;;;
  let nextNonce := wrap64 (nonce + 1) in
  dctData <- newDCToken vmInput uris nextNonce royalties quantity ;;
  ret (accountWithRoles, tokenID, nextNonce, quantity, dctData).

(** The reference through which the call reaches the resolved account. *)
Definition resolvedRef (vmInput : ContractCallInput) : AcctRef :=
  if vm.eqb (CallType vmInput) vm.ExecOnDestByCaller then RefLoaded
  else RefSnd.

(** The resolved account as the call finds it: the sender's account object
    in a direct call, the account the adapter loads for the trailing argument
    in a resolved-target call. *)
Definition resolvedAccount (e : Handler) (vmInput : ContractCallInput)
    (w : World Acct Store) : option Acct :=
  if vm.eqb (CallType vmInput) vm.ExecOnDestByCaller then
    match nth_error (Arguments vmInput)
            (List.length (Arguments vmInput) - 1) with
    | Some target =>
        match LoadAccount (accounts e) target (store w) with
        | inr (UserAccount a) => Some a
        | _ => None
        end
    | None => None
    end
  else sndObj w.

(** The sum of the byte lengths of the arguments, as a number. *)
Definition sumLengths (arguments : list bytes) : Z :=
  fold_right (fun arg total => len arg + total) 0 arguments.

(** The tokens handed to [SaveDCTNFTToken] in a log of calls. *)
Definition savedTokens (log : list Call) : list DCToken :=
  flat_map (fun c => match c with
                     | CallSaveDCTNFTToken _ _ _ _ data _ _ => [data]
                     | _ => []
                     end) log.

(** The handler [e] with another marshaller. *)
Definition withMarshaller (e : Handler) (m : Marshalizer) : Handler :=
  {| keyPrefix := keyPrefix e;
     accounts := accounts e;
     marshaller := m;
     rolesHandler := rolesHandler e;
     funcGasCost := funcGasCost e;
     gasConfig := gasConfig e;
     dctStorageHandler := dctStorageHandler e;
     enableEpochsHandler := enableEpochsHandler e |}.

(** The call [vmInput] with another amount of gas. *)
Definition withGas (vmInput : ContractCallInput) (gas : Z)
  : ContractCallInput :=
  {| CallerAddr := CallerAddr vmInput;
     RecipientAddr := RecipientAddr vmInput;
     CallType := CallType vmInput;
     Arguments := Arguments vmInput;
     GasProvided := gas;
     ReturnCallAfterError := ReturnCallAfterError vmInput |}.

End Handler.

(** ** The rest of the handler: construction, gas configuration, token keys *)

(** [vmcommon.BuiltInCost], the field the handler reads *)
Record BuiltInCost : Type := {
  DCTNFTCreate : Z
}.

(** [vmcommon.GasCost], the fields the handler reads
    ([gasCost.BuiltInCost.DCTNFTCreate], [gasCost.BaseOperationCost]) *)
Module GasCost.

Record t : Type := {
  BaseOperationCost : BaseOperationCost;
  BuiltInCost : BuiltInCost
}.

End GasCost.


Section Lifecycle.

Context {Acct Store : Type}.

Variable core : Constants.


(** [SetNewGasConfig]: the handler after the call; a nil [gasCost] is
    [None]. *)
Definition SetNewGasConfig (e : dctNFTCreate Acct Store)
    (gasCost : option GasCost.t) : dctNFTCreate Acct Store :=
  match gasCost with
  | None => e
  | Some gasCost =>
      {| keyPrefix := keyPrefix e;
         accounts := accounts e;
         marshaller := marshaller e;
         rolesHandler := rolesHandler e;
         funcGasCost := DCTNFTCreate (GasCost.BuiltInCost gasCost);
         gasConfig := GasCost.BaseOperationCost gasCost;
         dctStorageHandler := dctStorageHandler e;
         enableEpochsHandler := enableEpochsHandler e |}
  end.

(** The mutating calls of a call that succeeds, in the order of lines
    199-218. *)
Definition mutationPlan (vmInput : ContractCallInput) (acnt : AcctRef)
    (owner tokenID dctTokenKey : bytes) (nextNonce quantity : Z)
    (dctData : DCToken) : list Call :=
  [CallSaveDCTNFTToken acnt owner dctTokenKey nextNonce dctData true
     (ReturnCallAfterError vmInput);
   CallAddToLiquiditySystemAcc dctTokenKey nextNonce quantity;
   CallSaveKeyValue acnt (getNonceKey core tokenID)
     (big.Bytes (big.SetUint64 nextNonce))] ++
  (if vm.eqb (CallType vmInput) vm.ExecOnDestByCaller
   then [CallSaveAccount acnt] else []).

(** The world [w] with another sender's account object. *)
Definition withSender (acntSnd : option Acct) (w : World Acct Store)
  : World Acct Store :=
  mkWorld (store w) acntSnd (loadedObj w) (calls w).

(** A computation that neither reads nor writes the sender's account
    object: it does the same whatever that object is, and leaves it as it
    is. *)
Definition senderBlind {A : Type} (c : @M (World Acct Store) A) : Prop :=
  forall w acntSnd r w',
    c w = (r, w') ->
    c (withSender acntSnd w) = (r, withSender acntSnd w') /\
    sndObj w' = sndObj w.

(** An error that is a run-time panic. *)
Definition isPanic (err : Error) : bool :=
  match err with
  | Panic _ => true
  | _ => false
  end.

End Lifecycle.

Definition computeDCTNFTTokenKey (dctTokenKey : bytes) (nonce : Z) : bytes :=
  dctTokenKey ++ big.Bytes (big.SetUint64 nonce).

(** The collaborators of [e] and the basic check return errors, not panics. *)
Definition collaboratorsReturn {Acct Store : Type} {UAH : UserAccountHandler Acct}
    (checkBasicDCTArguments : ContractCallInput -> option Error)
    (e : dctNFTCreate Acct Store) : Prop :=
  (forall vi err, checkBasicDCTArguments vi = Some err -> isPanic err = false)
  /\ (forall a t r err,
        CheckAllowedToExecute (rolesHandler e) a t r = Some err ->
        isPanic err = false)
  /\ (forall addr s err,
        LoadAccount (accounts e) addr s = inl err -> isPanic err = false)
  /\ (forall k (a : Acct) err,
        RetrieveValue k a = inl err -> isPanic err = false)
  /\ (forall k v (a : Acct) err a',
        SaveKeyValue k v a = (Some err, a') -> isPanic err = false)
  /\ (forall o a k n d c r s err res,
        SaveDCTNFTToken (dctStorageHandler e) o a k n d c r s
        = (Some err, res) -> isPanic err = false)
  /\ (forall k n q s err s',
        AddToLiquiditySystemAcc (dctStorageHandler e) k n q s = (Some err, s')
        -> isPanic err = false)
  /\ (forall a s err s',
        SaveAccount (accounts e) a s = (Some err, s') -> isPanic err = false).

(** ** The account and its data handler

    Modelled from the spec: the declarations of [vmcommon.UserAccountHandler]
    and [vmcommon.AccountDataHandler] are not part of the sources at hand.
    An account has an address and an associated key-value data store; the
    handler reaches that store through [acnt.AccountDataHandler()] (lines 252
    and 266), an interface value of its own, which can be nil: a method
    called on a nil interface panics.  The class [UserAccountHandler] above
    has the two calls through the data handler as operations of the account.
    Here the data handler is set apart, [None] being the nil interface, and
    [throughDataHandler] gives the operations of the class: the panic of
    the nil data handler where there is none, the method of the data handler
    where there is one.  A data handler is changed in place: [setData] is the account
    whose data handler has become the one given. *)

Module WithData.

Record UserAccountHandler (Acct Data : Type) : Type := {
  AddressBytes : Acct -> bytes;
  AccountDataHandler : Acct -> option Data;
  RetrieveValue : bytes -> Data -> Error + bytes;
  SaveKeyValue : bytes -> bytes -> Data -> option Error * Data;
  setData : Data -> Acct -> Acct
}.

End WithData.

Definition throughDataHandler {Acct Data : Type}
    (A : WithData.UserAccountHandler Acct Data) : UserAccountHandler Acct := {|
  AddressBytes := WithData.AddressBytes A;
  RetrieveValue := fun key acnt =>
    match WithData.AccountDataHandler A acnt with
    | None => inl (Panic "nil pointer dereference")
    | Some data => WithData.RetrieveValue A key data
    end;
  SaveKeyValue := fun key value acnt =>
    match WithData.AccountDataHandler A acnt with
    | None => (Some (Panic "nil pointer dereference"), acnt)
    | Some data =>
        let '(err, data') := WithData.SaveKeyValue A key value data in
        (err, WithData.setData A data' acnt)
    end
|}.

(** The data handlers return errors, not panics. *)
Definition dataHandlersReturn {Acct Data : Type}
    (A : WithData.UserAccountHandler Acct Data) : Prop :=
  (forall key data err,
     WithData.RetrieveValue A key data = inl err -> isPanic err = false) /\
  (forall key value data err data',
     WithData.SaveKeyValue A key value data = (Some err, data') ->
     isPanic err = false).

(** The basic check and the collaborators of [e] other than the accounts
    return errors, not panics. *)
Definition servicesReturn {Acct Store : Type}
    (checkBasicDCTArguments : ContractCallInput -> option Error)
    (e : dctNFTCreate Acct Store) : Prop :=
  (forall vi err, checkBasicDCTArguments vi = Some err -> isPanic err = false)
  /\ (forall a t r err,
        CheckAllowedToExecute (rolesHandler e) a t r = Some err ->
        isPanic err = false)
  /\ (forall addr s err,
        LoadAccount (accounts e) addr s = inl err -> isPanic err = false)
  /\ (forall o a k n d c r s err res,
        SaveDCTNFTToken (dctStorageHandler e) o a k n d c r s
        = (Some err, res) -> isPanic err = false)
  /\ (forall k n q s err s',
        AddToLiquiditySystemAcc (dctStorageHandler e) k n q s = (Some err, s')
        -> isPanic err = false)
  /\ (forall a s err s',
        SaveAccount (accounts e) a s = (Some err, s') -> isPanic err = false).

(** ** Test doubles

    Collaborators simple enough to run: an account is an address, a
    key-value list (newest first) and the roles it holds; the store keeps the
    persisted accounts, the saved tokens and the liquidity entries. *)

Module Mock.

Record Account : Type := {
  address : bytes;
  dataTrie : list (bytes * bytes);
  roles : list (bytes * bytes)
}.

Record Store : Type := {
  accountsDB : list Account;
  tokens : list (bytes * bytes * Z * DCToken);
  liquidity : list (bytes * Z * Z)
}.

Fixpoint lookup (key : bytes) (kvs : list (bytes * bytes)) : bytes :=
  match kvs with
  | [] => []
  | (k, v) :: rest => if bytes_Equal k key then v else lookup key rest
  end.

#[global] Instance userAccount : UserAccountHandler Account := {|
  AddressBytes := address;
  RetrieveValue := fun key a => inr (lookup key (dataTrie a));
  SaveKeyValue := fun key value a =>
    (None, {| address := address a;
              dataTrie := (key, value) :: dataTrie a;
              roles := roles a |})
|}.

Definition errNotAllowed : Error := ErrExternal "action is not allowed".
Definition errNotFound : Error := ErrExternal "account not found".
Definition errMarshal : Error := ErrExternal "cannot marshal".

Definition roleAuthority : DCTRoleHandler Account := {|
  CheckAllowedToExecute := fun a tokenID action =>
    if existsb (fun '(t, r) => bytes_Equal t tokenID && bytes_Equal r action)
         (roles a)
    then None else Some errNotAllowed
|}.

Definition adapter : AccountsAdapter Account Store := {|
  LoadAccount := fun addr s =>
    match find (fun a => bytes_Equal (address a) addr) (accountsDB s) with
    | Some a => inr (UserAccount a)
    | None => inl errNotFound
    end;
  SaveAccount := fun a s =>
    (None, {| accountsDB :=
                a :: filter (fun b => negb (bytes_Equal (address b) (address a)))
                       (accountsDB s);
              tokens := tokens s; liquidity := liquidity s |})
|}.

Definition storageHandler : DCTNFTStorageHandler Account Store := {|
  SaveDCTNFTToken := fun owner a key nonce data _ _ s =>
    (None, (a, {| accountsDB := accountsDB s;
                  tokens := (owner, key, nonce, data) :: tokens s;
                  liquidity := liquidity s |}));
  AddToLiquiditySystemAcc := fun key nonce quantity s =>
    (None, {| accountsDB := accountsDB s; tokens := tokens s;
              liquidity := (key, nonce, quantity) :: liquidity s |})
|}.

Definition marshalOk : Marshalizer := {| Marshal := fun _ => inr [x2a] |}.
Definition marshalFails : Marshalizer := {| Marshal := fun _ => inl errMarshal |}.

Definition str (s : string) : bytes := list_byte_of_string s.

Definition core : Constants := {|
  noncePrefix := str "PROTECTEDnonce";
  baseDCTKeyPrefix := str "PROTECTEDdct";
  DCTRoleNFTCreate := str "DCTRoleNFTCreate";
  DCTRoleNFTAddQuantity := str "DCTRoleNFTAddQuantity";
  BuiltInFunctionDCTNFTCreate := str "DCTNFTCreate";
  NonFungible := 1;
  maxLenForAddNFTQuantity := 32
|}.

Definition checkBasic (vmInput : ContractCallInput) : option Error :=
  if (List.length (Arguments vmInput) <? 2)%nat then Some ErrInvalidArguments
  else None.

(** a handler with base cost [funcGasCost] and per-byte cost [perByte] *)
Definition handler (m : Marshalizer) (funcGasCost perByte : Z)
  : dctNFTCreate Account Store := {|
  keyPrefix := baseDCTKeyPrefix core;
  accounts := adapter;
  marshaller := m;
  rolesHandler := roleAuthority;
  funcGasCost := funcGasCost;
  gasConfig := {| StorePerByte := perByte |};
  dctStorageHandler := storageHandler;
  enableEpochsHandler := {| IsValueLengthCheckFlagEnabled := true |}
|}.

Definition token : bytes := str "TOKEN".
Definition alice : bytes := str "alice---".
Definition bob : bytes := str "bob-----".

(** an account that holds both roles for [token], with [nonceData] stored as
    its latest nonce *)
Definition accountOf (addr nonceData : bytes) : Account := {|
  address := addr;
  dataTrie := [(noncePrefix core ++ token, nonceData)];
  roles := [(token, DCTRoleNFTCreate core);
            (token, DCTRoleNFTAddQuantity core)]
|}.

Definition emptyStore : Store :=
  {| accountsDB := []; tokens := []; liquidity := [] |}.

(** the world of a direct call by [alice] *)
Definition worldOf (nonceData : bytes) : World Account Store :=
  mkWorld emptyStore (Some (accountOf alice nonceData)) None [].

(** the world of a call by [alice] resolved to [bob] *)
Definition worldWith (nonceData : bytes) : World Account Store :=
  mkWorld {| accountsDB := [accountOf bob nonceData]; tokens := [];
             liquidity := [] |}
    (Some (accountOf alice [])) None [].

(** the example call of the handler's documentation: token, quantity, name,
    royalties, hash, attributes, one URI *)
Definition createArgs (quantity royalties : bytes) : list bytes :=
  [token; quantity; str "MyNFT"; royalties; str "h"; str "a"; str "u1"].

Definition directCall (args : list bytes) (gas : Z) : ContractCallInput := {|
  CallerAddr := alice; RecipientAddr := alice; CallType := vm.DirectCall;
  Arguments := args; GasProvided := gas; ReturnCallAfterError := false
|}.

Definition resolvedCall (args : list bytes) (gas : Z) : ContractCallInput := {|
  CallerAddr := alice; RecipientAddr := alice;
  CallType := vm.ExecOnDestByCaller;
  Arguments := args; GasProvided := gas; ReturnCallAfterError := false
|}.

Definition run (e : dctNFTCreate Account Store) (vmInput : ContractCallInput)
    (w : World Account Store) :=
  ProcessBuiltinFunction core checkBasic e vmInput w.

(** The example call on the example handler (base cost 10, 2 per byte): 16
    bytes of arguments, hence a cost of 42, on 100 units of gas. *)
Definition exampleHandler : dctNFTCreate Account Store :=
  handler marshalOk 10 2.

Definition exampleCall : ContractCallInput :=
  directCall (createArgs [x01] [x64]) 100.

Definition exampleWorld : World Account Store := worldOf [].

Definition noOutput : VMOutput :=
  {| ReturnCode := vmcommon.UserError; GasRemaining := 0; ReturnData := [];
     Logs := [] |}.

(** the output record of a run, [noOutput] for a run that failed *)
Definition outputOf (r : (Error + VMOutput) * World Account Store)
  : VMOutput :=
  match fst r with
  | inr out => out
  | inl _ => noOutput
  end.

Definition exampleOutput : VMOutput :=
  Eval vm_compute in outputOf (run exampleHandler exampleCall exampleWorld).

Definition exampleAfter : World Account Store :=
  Eval vm_compute in snd (run exampleHandler exampleCall exampleWorld).

(** the same call resolved to [bob], whose stored nonce is 5 *)
Definition resolvedExample : ContractCallInput :=
  resolvedCall (createArgs [x01] [x64] ++ [bob]) 100.

Definition resolvedWorld : World Account Store := worldWith [x05].

Definition resolvedOutput : VMOutput :=
  Eval vm_compute in
    outputOf (run exampleHandler resolvedExample resolvedWorld).

Definition resolvedAfter : World Account Store :=
  Eval vm_compute in snd (run exampleHandler resolvedExample resolvedWorld).

(** a stored nonce of 2^64 - 1 *)
Definition maxNonceData : bytes := [xff; xff; xff; xff; xff; xff; xff; xff].

(** an account that holds the creation role only *)
Definition creatorOnly (addr : bytes) : Account := {|
  address := addr;
  dataTrie := [];
  roles := [(token, DCTRoleNFTCreate core)]
|}.

Definition creatorOnlyWorld : World Account Store :=
  mkWorld emptyStore (Some (creatorOnly alice)) None [].

(** the example call once more, after the example call *)
Definition secondOutput : VMOutput :=
  Eval vm_compute in outputOf (run exampleHandler exampleCall exampleAfter).

Definition secondAfter : World Account Store :=
  Eval vm_compute in snd (run exampleHandler exampleCall exampleAfter).

(** a storage handler that saves tokens and fails to add the liquidity *)
Definition errLiquidity : Error := ErrExternal "cannot add liquidity".

Definition storageLiquidityFails : DCTNFTStorageHandler Account Store := {|
  SaveDCTNFTToken := SaveDCTNFTToken storageHandler;
  AddToLiquiditySystemAcc := fun _ _ _ s => (Some errLiquidity, s)
|}.

(** an adapter that only knows accounts that are not user accounts *)
Definition adapterOther : AccountsAdapter Account Store := {|
  LoadAccount := fun _ _ => inr OtherAccount;
  SaveAccount := SaveAccount adapter
|}.

(** the example handler with another storage handler and another adapter *)
Definition handlerWith (st : DCTNFTStorageHandler Account Store)
    (ad : AccountsAdapter Account Store) : dctNFTCreate Account Store := {|
  keyPrefix := baseDCTKeyPrefix core;
  accounts := ad;
  marshaller := marshalOk;
  rolesHandler := roleAuthority;
  funcGasCost := 10;
  gasConfig := {| StorePerByte := 2 |};
  dctStorageHandler := st;
  enableEpochsHandler := {| IsValueLengthCheckFlagEnabled := true |}
|}.

Definition liquidityFailsAfter : World Account Store :=
  Eval vm_compute in
    snd (run (handlerWith storageLiquidityFails adapter) exampleCall
           exampleWorld).

(** a cost table with 3 per byte and a base cost of 20 *)
Definition dearerGas : GasCost.t := {|
  GasCost.BaseOperationCost := {| StorePerByte := 3 |};
  GasCost.BuiltInCost := {| DCTNFTCreate := 20 |}
|}.

(** the quantity 1 written on 33 bytes *)
Definition paddedOne : bytes := repeat x00 32 ++ [x01].

Definition carol : bytes := str "carol---".

(** an account that holds no role *)
Definition noRoles (addr : bytes) : Account := {|
  address := addr;
  dataTrie := [];
  roles := []
|}.

Definition noRolesWorld : World Account Store :=
  mkWorld emptyStore (Some (noRoles alice)) None [].

(** the quantity 2 written on 33 bytes *)
Definition paddedTwo : bytes := repeat x00 32 ++ [x02].

(** the accounts of the test doubles with their data handler apart: the
    key-value list of the account, and no data handler at all for the
    accounts [hasData] refuses *)
Definition accountData (hasData : Account -> bool)
  : WithData.UserAccountHandler Account (list (bytes * bytes)) := {|
  WithData.AddressBytes := address;
  WithData.AccountDataHandler := fun a =>
    if hasData a then Some (dataTrie a) else None;
  WithData.RetrieveValue := fun key data => inr (lookup key data);
  WithData.SaveKeyValue := fun key value data => (None, (key, value) :: data);
  WithData.setData := fun data a =>
    {| address := address a; dataTrie := data; roles := roles a |}
|}.

End Mock.

(** ** Big-endian conversions *)

Lemma byte_val_range (b : byte) : 0 <= byte_val b < 256.
Proof.
  unfold byte_val. pose proof (Byte.to_N_bounded b). lia.
Qed.

Lemma byte_val_of_Z (z : Z) : byte_val (byte_of_Z z) = z mod 256.
Proof.
  unfold byte_val, byte_of_Z.
  assert (Hr : 0 <= z mod 256 < 256) by (apply Z.mod_pos_bound; lia).
  destruct (Byte.of_N (Z.to_N (z mod 256))) as [b|] eqn:E.
  - apply Byte.to_of_N in E. rewrite E. lia.
  - apply Byte.of_N_None_iff in E. lia.
Qed.

Lemma SetBytes_snoc (l : bytes) (b : byte) :
  big.SetBytes (l ++ [b]) = big.SetBytes l * 256 + byte_val b.
Proof.
  unfold big.SetBytes. rewrite fold_left_app. reflexivity.
Qed.

Lemma SetBytes_nonneg (l : bytes) : 0 <= big.SetBytes l.
Proof.
  induction l as [|b l IH] using rev_ind.
  - cbn. lia.
  - rewrite SetBytes_snoc. pose proof (byte_val_range b). lia.
Qed.

Lemma Bytes_go_acc (fuel : nat) : forall (x : Z) (acc : bytes),
  big.Bytes_go fuel x acc = big.Bytes_go fuel x [] ++ acc.
Proof.
  induction fuel as [|fuel IH]; intros x acc; cbn.
  - reflexivity.
  - destruct (x =? 0); [reflexivity|].
    rewrite IH. rewrite (IH _ [_]). rewrite <- app_assoc. reflexivity.
Qed.

Lemma SetBytes_Bytes_go (fuel : nat) : forall (x : Z),
  0 <= x < 2 ^ Z.of_nat fuel ->
  big.SetBytes (big.Bytes_go fuel x []) = x.
Proof.
  induction fuel as [|fuel IH]; intros x Hx.
  - cbn in *. lia.
  - cbn [big.Bytes_go]. destruct (Z.eqb_spec x 0) as [->|Hne]; [reflexivity|].
    rewrite Bytes_go_acc, SetBytes_snoc, byte_val_of_Z.
    rewrite IH.
    + rewrite Z.mod_mod by lia. pose proof (Z.div_mod x 256 ltac:(lia)). lia.
    + rewrite Nat2Z.inj_succ, Z.pow_succ_r in Hx by lia.
      assert (0 < 2 ^ Z.of_nat fuel) by (apply Z.pow_pos_nonneg; lia).
      split; [apply Z.div_pos; lia|].
      apply Z.div_lt_upper_bound; lia.
Qed.

Lemma SetBytes_Bytes (x : Z) : 0 <= x -> big.SetBytes (big.Bytes x) = x.
Proof.
  intros Hx. unfold big.Bytes. rewrite Z.abs_eq by lia.
  apply SetBytes_Bytes_go. split; [lia|].
  destruct (Z.eq_dec x 0) as [->|Hne].
  - cbn. lia.
  - rewrite Nat2Z.inj_succ, Z2Nat.id by apply Z.log2_nonneg.
    apply Z.log2_spec. lia.
Qed.

Lemma Bytes_zero : big.Bytes 0 = [].
Proof. reflexivity. Qed.

Lemma wrap64_range (z : Z) : 0 <= wrap64 z < 2 ^ 64.
Proof. unfold wrap64. apply Z.mod_pos_bound. lia. Qed.

Lemma wrap64_small (z : Z) : 0 <= z < 2 ^ 64 -> wrap64 z = z.
Proof. unfold wrap64. intros. apply Z.mod_small. assumption. Qed.

Lemma len_nonneg {A : Type} (l : list A) : 0 <= len l.
Proof. unfold len. lia. Qed.

Lemma len_zero_nil {A : Type} (l : list A) : len l = 0 -> l = [].
Proof. unfold len. destruct l; cbn; [reflexivity | lia]. Qed.

(** ** Reasoning in the monad *)

Section MonadFacts.

Context {W : Type}.

Lemma bind_ok {A B : Type} (c : @M W A) (k : A -> M B) w b w' :
  bind c k w = (inr b, w') ->
  exists a w1, c w = (inr a, w1) /\ k a w1 = (inr b, w').
Proof.
  unfold bind. destruct (c w) as [[err|a] w1]; intros E.
  - discriminate.
  - exists a, w1. split; [reflexivity | exact E].
Qed.

Lemma bind_err {A B : Type} (c : @M W A) (k : A -> M B) w err w' :
  bind c k w = (inl err, w') ->
  c w = (inl err, w') \/
  exists a w1, c w = (inr a, w1) /\ k a w1 = (inl err, w').
Proof.
  unfold bind. destruct (c w) as [[err1|a] w1]; intros E.
  - left. inversion E. reflexivity.
  - right. exists a, w1. split; [reflexivity | exact E].
Qed.

Lemma bind_step {A B : Type} (c : @M W A) (k : A -> M B) w a w1 :
  c w = (inr a, w1) -> bind c k w = k a w1.
Proof. unfold bind. intros ->. reflexivity. Qed.

Lemma bind_fail {A B : Type} (c : @M W A) (k : A -> M B) w err w1 :
  c w = (inl err, w1) -> bind c k w = (inl err, w1).
Proof. unfold bind. intros ->. reflexivity. Qed.

Lemma readonly_ret {A : Type} (a : A) : readonly (@ret W A a).
Proof. intros w r w' E. inversion E. reflexivity. Qed.

Lemma readonly_fail {A : Type} (err : Error) : readonly (@fail W A err).
Proof. intros w r w' E. inversion E. reflexivity. Qed.

Lemma readonly_check (r : option Error) : readonly (@check W r).
Proof. destruct r; [apply readonly_fail | apply readonly_ret]. Qed.

Lemma readonly_try {A : Type} (r : Error + A) : readonly (@try W A r).
Proof. destruct r; [apply readonly_fail | apply readonly_ret]. Qed.

Lemma readonly_index {A : Type} (s : list A) (i : nat) :
  readonly (@index W A s i).
Proof.
  unfold index. destruct (nth_error s i);
    [apply readonly_ret | apply readonly_fail].
Qed.

Lemma readonly_bind {A B : Type} (c : @M W A) (k : A -> M B) :
  readonly c -> (forall a, readonly (k a)) -> readonly (bind c k).
Proof.
  intros Hc Hk w r w' E. unfold bind in E.
  destruct (c w) as [[err|a] w1] eqn:Ec.
  - inversion E; subst. eapply Hc; eassumption.
  - apply Hc in Ec. subst w1. eapply Hk; eassumption.
Qed.

Lemma readonly_if {A : Type} (b : bool) (c1 c2 : @M W A) :
  readonly c1 -> readonly c2 -> readonly (if b then c1 else c2).
Proof. destruct b; auto. Qed.

Lemma check_ok (r : option Error) (w w' : W) u :
  check r w = (inr u, w') -> r = None /\ w' = w.
Proof. destruct r; cbn; intros E; inversion E; auto. Qed.

Lemma check_err (r : option Error) (w w' : W) err :
  check r w = (inl err, w') -> r = Some err /\ w' = w.
Proof. destruct r; cbn; intros E; inversion E; auto. Qed.

Lemma try_ok {A : Type} (r : Error + A) (w w' : W) a :
  try r w = (inr a, w') -> r = inr a /\ w' = w.
Proof. destruct r; cbn; intros E; inversion E; auto. Qed.

Lemma index_ok {A : Type} (s : list A) (i : nat) (w w' : W) a :
  index s i w = (inr a, w') -> nth_error s i = Some a /\ w' = w.
Proof.
  unfold index. destruct (nth_error s i); cbn; intros E; inversion E; auto.
Qed.

Lemma index_in_range {A : Type} (s : list A) (i : nat) (w : W) :
  (i < List.length s)%nat -> exists a, nth_error s i = Some a /\
                                       index s i w = (inr a, w).
Proof.
  intros Hi. unfold index.
  destruct (nth_error s i) as [a|] eqn:E.
  - exists a. auto.
  - apply nth_error_None in E. lia.
Qed.

End MonadFacts.

Create HintDb readonly.
#[global] Hint Resolve readonly_ret readonly_fail readonly_check readonly_try
  readonly_index readonly_bind readonly_if : readonly.

(** ** Facts about the blocks of the handler *)

Section HandlerFacts.

Context {Acct Store : Type} {UAH : UserAccountHandler Acct}.
Variable core : Constants.
Variable checkBasicDCTArguments : ContractCallInput -> option Error.
Variable e : dctNFTCreate Acct Store.

Local Notation "'process'" :=
  (ProcessBuiltinFunction core checkBasicDCTArguments e) (only parsing).

Lemma unmutated_refl (w : World Acct Store) : unmutated e w w.
Proof. unfold unmutated. auto. Qed.

Lemma readonly_deref (r : AcctRef) : readonly (@deref Acct Store r).
Proof.
  intros w res w' E. unfold deref in E.
  destruct (object r w); inversion E; reflexivity.
Qed.

Lemma deref_ok (r : AcctRef) (w w' : World Acct Store) a :
  deref r w = (inr a, w') -> object r w = Some a /\ w' = w.
Proof.
  unfold deref. destruct (object r w); intros E; inversion E; auto.
Qed.

Lemma readonly_parseRoyalties vi : readonly (@parseRoyalties Acct Store vi).
Proof.
  unfold parseRoyalties. apply readonly_bind; [apply readonly_index|].
  intros a. apply readonly_if; auto with readonly.
Qed.

Lemma readonly_parseQuantity vi acc :
  readonly (parseQuantity core e vi acc).
Proof.
  unfold parseQuantity. apply readonly_bind; [apply readonly_index|].
  intros a. apply readonly_if; [apply readonly_fail|].
  apply readonly_bind; [|intros; apply readonly_ret].
  apply readonly_if; [|apply readonly_ret].
  apply readonly_bind; [apply readonly_deref|]. intros a0.
  apply readonly_bind; [apply readonly_index|]. intros a1.
  apply readonly_check.
Qed.

Lemma readonly_checkQuantityLength vi :
  readonly (checkQuantityLength core e vi).
Proof.
  unfold checkQuantityLength. apply readonly_bind; [apply readonly_index|].
  intros a. apply readonly_if; auto with readonly.
Qed.

Lemma readonly_newDCToken vi uris nn r q :
  readonly (@newDCToken Acct Store core vi uris nn r q).
Proof.
  unfold newDCToken. repeat (apply readonly_bind; [apply readonly_index|]; intros ?).
  apply readonly_ret.
Qed.

Lemma getAccount_unmutated addr w r w' :
  getAccount e addr w = (r, w') -> unmutated e w w'.
Proof.
  unfold getAccount. intros E.
  destruct (LoadAccount (accounts e) addr (store w)) as [err|[a|]] eqn:EL;
    inversion E; subst; try apply unmutated_refl.
  unfold unmutated; cbn. repeat split; auto. right. eauto.
Qed.

Lemma resolve_unmutated vi w r w' :
  resolveAccountWithRoles e vi w = (r, w') -> unmutated e w w'.
Proof.
  unfold resolveAccountWithRoles. intros E.
  destruct (vm.eqb (CallType vi) vm.ExecOnDestByCaller).
  - unfold bind in E.
    destruct (index (Arguments vi) (List.length (Arguments vi) - 1) w)
      as [[err|sc] w1] eqn:Ei.
    + apply readonly_index in Ei. inversion E; subst. apply unmutated_refl.
    + apply readonly_index in Ei. subst w1.
      destruct (negb (len sc =? len (CallerAddr vi))).
      { inversion E; subst. apply unmutated_refl. }
      destruct (bytes_Equal sc (CallerAddr vi)).
      { inversion E; subst. apply unmutated_refl. }
      destruct (getAccount e sc w) as [[err|r0] w2] eqn:Eg.
      * inversion E; subst. eapply getAccount_unmutated; eassumption.
      * inversion E; subst. eapply getAccount_unmutated; eassumption.
  - inversion E; subst. apply unmutated_refl.
Qed.

Lemma authorize_unmutated vi w r w' :
  authorize core checkBasicDCTArguments e vi w = (r, w') -> unmutated e w w'.
Proof.
  unfold authorize. intros E. unfold bind at 1 in E.
  destruct (check _ w) as [[err|u] w1] eqn:E1;
    pose proof (readonly_check _ _ E1); subst w1.
  { inversion E; subst. apply unmutated_refl. }
  unfold bind at 1 in E.
  destruct (check (checkNumOfArgs vi) w) as [[err|u'] w1] eqn:E2;
    pose proof (readonly_check _ _ E2); subst w1.
  { inversion E; subst. apply unmutated_refl. }
  unfold bind at 1 in E.
  destruct (resolveAccountWithRoles e vi w) as [[err|[acc uris]] w1] eqn:E3;
    pose proof (resolve_unmutated _ _ E3) as Hu.
  { inversion E; subst. exact Hu. }
  assert (Hro : readonly
    (tokenID <- index (Arguments vi) 0 ;;
     acnt <- deref acc ;;
     check (CheckAllowedToExecute (rolesHandler e) acnt tokenID
              (DCTRoleNFTCreate core)) ;;;
     nonce <- try (getLatestNonce core acnt tokenID) ;;
     @ret (World Acct Store) _ (acc, uris, nonce))).
  { apply readonly_bind; [apply readonly_index|]. intros t.
    apply readonly_bind; [apply readonly_deref|]. intros a.
    apply readonly_bind; [apply readonly_check|]. intros _.
    apply readonly_bind; [apply readonly_try|]. intros n.
    apply readonly_ret. }
  apply Hro in E. subst w'. exact Hu.
Qed.

Lemma invoke_ok c acc f (w w' : World Acct Store) u :
  invoke c acc f w = (inr u, w') ->
  exists a a' s',
    object acc w = Some a /\ f a (store w) = (None, (a', s')) /\
    object acc w' = Some a' /\ store w' = s' /\
    calls w' = calls w ++ [c a] /\
    (forall r, r <> acc -> object r w' = object r w).
Proof.
  unfold invoke. destruct (object acc w) as [a|] eqn:Eo; [|discriminate].
  destruct (f a (store w)) as [[err|] [a' s']] eqn:Ef; intros E;
    inversion E; subst.
  exists a, a', s'.
  destruct acc; cbn; repeat split; auto; intros r Hr; destruct r; cbn;
    congruence.
Qed.

Lemma invokeStore_ok c f (w w' : World Acct Store) u :
  invokeStore c f w = (inr u, w') ->
  exists s',
    f (store w) = (None, s') /\ store w' = s' /\
    calls w' = calls w ++ [c] /\
    (forall r, object r w' = object r w).
Proof.
  unfold invokeStore. destruct (f (store w)) as [[err|] s'] eqn:Ef; intros E;
    inversion E; subst.
  exists s'. cbn. repeat split; auto.
Qed.

(** What a successful run of [persist] did. *)
Lemma persist_ok vi acc tokenID key nn q d (w1 w' : World Acct Store) u :
  persist core e vi acc tokenID key nn q d w1 = (inr u, w') ->
  exists a a1 s1 s2 a2 s3,
    object acc w1 = Some a /\
    SaveDCTNFTToken (dctStorageHandler e) (AddressBytes a) a key nn d true
      (ReturnCallAfterError vi) (store w1) = (None, (a1, s1)) /\
    AddToLiquiditySystemAcc (dctStorageHandler e) key nn q s1 = (None, s2) /\
    saveLatestNonce core a1 tokenID nn = (None, a2) /\
    (if vm.eqb (CallType vi) vm.ExecOnDestByCaller
     then SaveAccount (accounts e) a2 s2 = (None, s3) else s3 = s2) /\
    object acc w' = Some a2 /\
    store w' = s3 /\
    calls w' =
      calls w1 ++
      [CallSaveDCTNFTToken acc (AddressBytes a) key nn d true
         (ReturnCallAfterError vi);
       CallAddToLiquiditySystemAcc key nn q;
       CallSaveKeyValue acc (getNonceKey core tokenID)
         (big.Bytes (big.SetUint64 nn))] ++
      (if vm.eqb (CallType vi) vm.ExecOnDestByCaller
       then [CallSaveAccount acc] else []) /\
    (forall r, r <> acc -> object r w' = object r w1).
Proof.
  unfold persist. intros E.
  apply bind_ok in E as ([] & wa & Ea & E).
  apply bind_ok in E as ([] & wb & Eb & E).
  apply bind_ok in E as ([] & wc & Ec & E).
  apply invoke_ok in Ea as (a & a1 & s1 & Ha & Hf1 & Ha1 & Hs1 & Hc1 & Ho1).
  apply invokeStore_ok in Eb as (s2 & Hf2 & Hs2 & Hc2 & Ho2).
  apply invoke_ok in Ec as (a1' & a2 & s2' & Ha1' & Hf3 & Ha2 & Hs3 & Hc3 & Ho3).
  rewrite Ho2, Ha1 in Ha1'. inversion Ha1'; subst a1'; clear Ha1'.
  destruct (saveLatestNonce core a1 tokenID nn) as [err3 a2'] eqn:Esn.
  injection Hf3 as -> -> Hst.
  assert (Hswc : store wc = s2) by congruence.
  rewrite Hs1 in Hf2.
  destruct (vm.eqb (CallType vi) vm.ExecOnDestByCaller).
  - apply invoke_ok in E as (a2' & a3 & s3 & Ha2' & Hf4 & Ha3 & Hs4 & Hc4 & Ho4).
    rewrite Ha2 in Ha2'. injection Ha2' as <-.
    destruct (SaveAccount (accounts e) a2 (store wc)) as [err4 s3'] eqn:Esa.
    injection Hf4 as -> <- ->.
    exists a, a1, s1, s2, a2, s3. rewrite Hswc in Esa.
    repeat split; auto.
    + rewrite Hc4, Hc3, Hc2, Hc1. rewrite <- !app_assoc. reflexivity.
    + intros r Hr. rewrite Ho4, Ho3, Ho2, Ho1 by assumption. reflexivity.
  - inversion E; subst wc.
    exists a, a1, s1, s2, a2, s2.
    repeat split; auto.
    + rewrite Hc3, Hc2, Hc1. rewrite <- !app_assoc. rewrite app_nil_r.
      reflexivity.
    + intros r Hr. rewrite Ho3, Ho2, Ho1 by assumption. reflexivity.
Qed.

(** What a successful call went through. *)
Lemma process_ok vi (w w' : World Acct Store) out :
  process vi w = (inr out, w') ->
  exists acc uris nonce w1 royalties tokenID quantity dctData,
    authorize core checkBasicDCTArguments e vi w = (inr (acc, uris, nonce), w1)
    /\ checkGas e vi = None
    /\ parseRoyalties vi w1 = (inr royalties, w1)
    /\ nth_error (Arguments vi) 0 = Some tokenID
    /\ parseQuantity core e vi acc w1 = (inr quantity, w1)
    /\ checkQuantityLength core e vi w1 = (inr tt, w1)
    /\ newDCToken core vi uris (wrap64 (nonce + 1)) royalties quantity w1
        = (inr dctData, w1)
    /\ persist core e vi acc tokenID (keyPrefix e ++ tokenID)
         (wrap64 (nonce + 1)) quantity dctData w1 = (inr tt, w')
    /\ out = output core e vi tokenID (wrap64 (nonce + 1)) quantity dctData.
Proof.
  unfold ProcessBuiltinFunction. intros E.
  apply bind_ok in E as ([[acc uris] nonce] & w1 & Ea & E).
  apply bind_ok in E as ([] & w2 & Eg & E).
  apply check_ok in Eg as [Eg ->].
  apply bind_ok in E as (royalties & w2 & Er & E).
  pose proof Er as X; apply readonly_parseRoyalties in X; subst w2.
  apply bind_ok in E as (tokenID & w2 & Et & E).
  apply index_ok in Et as [Et ->].
  apply bind_ok in E as (quantity & w2 & Eq & E).
  pose proof Eq as X; apply readonly_parseQuantity in X; subst w2.
  apply bind_ok in E as ([] & w2 & El & E).
  pose proof El as X; apply readonly_checkQuantityLength in X; subst w2.
  apply bind_ok in E as (dctData & w2 & Ed & E).
  pose proof Ed as X; apply readonly_newDCToken in X; subst w2.
  apply bind_ok in E as ([] & w2 & Ep & E).
  inversion E; subst.
  exists acc, uris, nonce, w1, royalties, tokenID, quantity, dctData.
  repeat split; assumption.
Qed.

(** The call, once the checks before the mutations have passed. *)
Lemma process_run vi (w w1 : World Acct Store)
    acc uris nonce royalties tokenID quantity dctData :
  authorize core checkBasicDCTArguments e vi w = (inr (acc, uris, nonce), w1) ->
  checkGas e vi = None ->
  parseRoyalties vi w1 = (inr royalties, w1) ->
  nth_error (Arguments vi) 0 = Some tokenID ->
  parseQuantity core e vi acc w1 = (inr quantity, w1) ->
  checkQuantityLength core e vi w1 = (inr tt, w1) ->
  newDCToken core vi uris (wrap64 (nonce + 1)) royalties quantity w1
    = (inr dctData, w1) ->
  process vi w =
  (persist core e vi acc tokenID (keyPrefix e ++ tokenID)
     (wrap64 (nonce + 1)) quantity dctData ;;;
   ret (output core e vi tokenID (wrap64 (nonce + 1)) quantity dctData)) w1.
Proof.
  intros Ea Eg Er Et Eq El Ed. unfold ProcessBuiltinFunction.
  unfold bind at 1. rewrite Ea.
  unfold bind at 1. rewrite Eg. cbn [check ret].
  unfold bind at 1. rewrite Er.
  unfold bind at 1. unfold index at 1. rewrite Et. cbn [ret].
  unfold bind at 1. rewrite Eq.
  unfold bind at 1. rewrite El.
  unfold bind at 1. rewrite Ed.
  reflexivity.
Qed.

(** The call is its validation followed by the mutations and the output. *)
Lemma process_validate vi (w : World Acct Store) :
  process vi w =
  (' (acc, tokenID, nextNonce, quantity, dctData) <-
       validate core checkBasicDCTArguments e vi ;;
   persist core e vi acc tokenID (keyPrefix e ++ tokenID) nextNonce quantity
     dctData ;;;
   ret (output core e vi tokenID nextNonce quantity dctData)) w.
Proof.
  unfold ProcessBuiltinFunction, validate, bind.
  destruct (authorize core checkBasicDCTArguments e vi w)
    as [[err|[[acc uris] nonce]] w1]; [reflexivity|].
  destruct (check (checkGas e vi) w1) as [[err|u] w2]; [reflexivity|].
  destruct (parseRoyalties vi w2) as [[err|royalties] w3]; [reflexivity|].
  destruct (index (Arguments vi) 0 w3) as [[err|tokenID] w4]; [reflexivity|].
  destruct (parseQuantity core e vi acc w4) as [[err|quantity] w5];
    [reflexivity|].
  destruct (checkQuantityLength core e vi w5) as [[err|u'] w6]; [reflexivity|].
  destruct (newDCToken core vi uris (wrap64 (nonce + 1)) royalties quantity w6)
    as [[err|dctData] w7]; reflexivity.
Qed.

Lemma readonly_after_authorize vi acc uris nonce :
  readonly
    (check (checkGas e vi) ;;;
     royalties <- parseRoyalties vi ;;
     tokenID <- index (Arguments vi) 0 ;;
     quantity <- parseQuantity core e vi acc ;;
     checkQuantityLength core e vi ;;;
     dctData <- newDCToken core vi uris (wrap64 (nonce + 1)) royalties
                  quantity ;;
     @ret (World Acct Store) _
       (acc, tokenID, wrap64 (nonce + 1), quantity, dctData)).
Proof.
  apply readonly_bind; [apply readonly_check|]. intros _.
  apply readonly_bind; [apply readonly_parseRoyalties|]. intros r.
  apply readonly_bind; [apply readonly_index|]. intros t.
  apply readonly_bind; [apply readonly_parseQuantity|]. intros q.
  apply readonly_bind; [apply readonly_checkQuantityLength|]. intros _.
  apply readonly_bind; [apply readonly_newDCToken|]. intros d.
  apply readonly_ret.
Qed.

(** Validation asks no collaborator to change anything, whatever its
    result. *)
Lemma validate_unmutated vi w r w' :
  validate core checkBasicDCTArguments e vi w = (r, w') -> unmutated e w w'.
Proof.
  unfold validate. intros E. unfold bind at 1 in E.
  destruct (authorize core checkBasicDCTArguments e vi w)
    as [[err|[[acc uris] nonce]] w1] eqn:Ea;
    pose proof (authorize_unmutated _ _ Ea) as Hu.
  - inversion E; subst. exact Hu.
  - apply readonly_after_authorize in E. subst w'. exact Hu.
Qed.

(** What a successful account resolution found. *)
Lemma resolve_ok vi (w w1 : World Acct Store) acc uris :
  resolveAccountWithRoles e vi w = (inr (acc, uris), w1) ->
  (CallType vi = vm.DirectCall /\ acc = RefSnd /\
   uris = skipn 6 (Arguments vi) /\ w1 = w) \/
  (CallType vi = vm.ExecOnDestByCaller /\ acc = RefLoaded /\
   exists target a,
     nth_error (Arguments vi) (List.length (Arguments vi) - 1) = Some target /\
     uris = slice (Arguments vi) 6 (List.length (Arguments vi) - 1) /\
     List.length target = List.length (CallerAddr vi) /\
     target <> CallerAddr vi /\
     LoadAccount (accounts e) target (store w) = inr (UserAccount a) /\
     w1 = mkWorld (store w) (sndObj w) (Some a) (calls w)).
Proof.
  unfold resolveAccountWithRoles. destruct (CallType vi); cbn [vm.eqb].
  - intros E. inversion E; subst. left. auto.
  - intros E. right. split; [reflexivity|].
    apply bind_ok in E as (target & w2 & Ei & E).
    apply index_ok in Ei as [Ei ->].
    destruct (Z.eqb_spec (len target) (len (CallerAddr vi))) as [Hl|Hl];
      cbn [negb] in E; [|discriminate].
    unfold bytes_Equal in E.
    destruct (bytes_eq_dec target (CallerAddr vi)) as [Heq|Hne];
      [discriminate|].
    apply bind_ok in E as (r & w2 & Eg & E). inversion E; subst.
    unfold getAccount in Eg.
    destruct (LoadAccount (accounts e) target (store w)) as [err|[a|]] eqn:EL;
      inversion Eg; subst.
    split; [reflexivity|]. exists target, a. unfold len in Hl.
    repeat split; auto. lia.
Qed.

(** What a successful authorization found. *)
Lemma authorize_ok vi (w w1 : World Acct Store) acc uris nonce :
  authorize core checkBasicDCTArguments e vi w = (inr (acc, uris, nonce), w1) ->
  checkDCTNFTCreateBurnAddInput checkBasicDCTArguments (sndObj w) vi
    (funcGasCost e) = None /\
  checkNumOfArgs vi = None /\
  resolveAccountWithRoles e vi w = (inr (acc, uris), w1) /\
  exists tokenID acnt,
    nth_error (Arguments vi) 0 = Some tokenID /\
    object acc w1 = Some acnt /\
    CheckAllowedToExecute (rolesHandler e) acnt tokenID (DCTRoleNFTCreate core)
      = None /\
    getLatestNonce core acnt tokenID = inr nonce.
Proof.
  unfold authorize. intros E.
  apply bind_ok in E as ([] & w2 & E1 & E). apply check_ok in E1 as [E1 ->].
  apply bind_ok in E as ([] & w2 & E2 & E). apply check_ok in E2 as [E2 ->].
  apply bind_ok in E as ([acc' uris'] & w2 & E3 & E).
  apply bind_ok in E as (tokenID & w3 & E4 & E).
  apply index_ok in E4 as [E4 ->].
  apply bind_ok in E as (acnt & w3 & E5 & E).
  apply deref_ok in E5 as [E5 ->].
  apply bind_ok in E as ([] & w3 & E6 & E). apply check_ok in E6 as [E6 ->].
  apply bind_ok in E as (nonce' & w3 & E7 & E). apply try_ok in E7 as [E7 ->].
  inversion E; subst.
  repeat split; auto. exists tokenID, acnt. auto.
Qed.

Lemma checkNumOfArgs_ok vi :
  checkNumOfArgs vi = None ->
  (minNumOfArgs vi <= List.length (Arguments vi))%nat /\
  (7 <= List.length (Arguments vi))%nat.
Proof.
  unfold checkNumOfArgs, minNumOfArgs.
  destruct (vm.eqb (CallType vi) vm.ExecOnDestByCaller);
    match goal with |- context [(?a <? ?b)%nat] =>
      destruct (Nat.ltb_spec a b) end; intros E; try discriminate; lia.
Qed.

(** The account a successful resolution hands on is the resolved account. *)
Lemma resolve_resolved vi (w w1 : World Acct Store) acc uris :
  resolveAccountWithRoles e vi w = (inr (acc, uris), w1) ->
  acc = resolvedRef vi /\ object acc w1 = resolvedAccount e vi w /\
  unmutated e w w1.
Proof.
  intros E. pose proof (resolve_unmutated _ _ E) as Hu.
  apply resolve_ok in E as [(Hc & -> & _ & ->)|(Hc & -> & t & a & Ht & _ & _ & _ & HL & ->)];
    unfold resolvedRef, resolvedAccount; rewrite Hc; cbn [vm.eqb];
    repeat split; auto; try apply Hu.
  rewrite Ht, HL. reflexivity.
Qed.

Lemma getLatestNonce_range acnt tokenID nonce :
  getLatestNonce core acnt tokenID = inr nonce -> 0 <= nonce < 2 ^ 64.
Proof.
  unfold getLatestNonce.
  destruct (RetrieveValue (getNonceKey core tokenID) acnt) as [err|data];
    [discriminate|].
  destruct (len data =? 0); intros E; inversion E; subst.
  - lia.
  - apply wrap64_range.
Qed.

(** Looking up a nonce that was just saved gives it back, when the account
    data handler returns what it was given. *)
Lemma getLatestNonce_saved acnt acnt' tokenID nonce :
  (forall k v (a a' : Acct),
      SaveKeyValue k v a = (None, a') -> RetrieveValue k a' = inr v) ->
  0 <= nonce < 2 ^ 64 ->
  saveLatestNonce core acnt tokenID nonce = (None, acnt') ->
  getLatestNonce core acnt' tokenID = inr nonce.
Proof.
  intros Hlaw Hn Es. unfold saveLatestNonce in Es. apply Hlaw in Es.
  unfold getLatestNonce. rewrite Es. unfold big.SetUint64.
  assert (Hrt : big.SetBytes (big.Bytes nonce) = nonce)
    by (apply SetBytes_Bytes; lia).
  destruct (Z.eqb_spec (len (big.Bytes nonce)) 0) as [Hz|Hz].
  - apply len_zero_nil in Hz. rewrite Hz in Hrt. cbn in Hrt. congruence.
  - unfold big.Uint64. rewrite Hrt, wrap64_small by assumption. reflexivity.
Qed.

End HandlerFacts.

(** ** The gas of a call *)

Lemma sumLengths_nonneg (arguments : list bytes) : 0 <= sumLengths arguments.
Proof.
  induction arguments as [|a l IH].
  - cbn. lia.
  - change (0 <= len a + sumLengths l). pose proof (len_nonneg a). lia.
Qed.

Lemma totalLength_from (arguments : list bytes) : forall (acc : Z),
  fold_left (fun total arg => wrap64 (total + len arg)) arguments (wrap64 acc)
  = wrap64 (acc + sumLengths arguments).
Proof.
  induction arguments as [|a l IH]; intros acc.
  - cbn. rewrite Z.add_0_r. reflexivity.
  - cbn [fold_left]. rewrite IH.
    change (sumLengths (a :: l)) with (len a + sumLengths l).
    unfold wrap64. rewrite <- Z.add_assoc, Zplus_mod_idemp_l. reflexivity.
Qed.

(** The running total of the handler is the sum of the lengths, reduced
    modulo 2^64. *)
Lemma totalLength_sum (arguments : list bytes) :
  totalLength arguments = wrap64 (sumLengths arguments).
Proof.
  unfold totalLength. change 0 with (wrap64 0) at 1.
  rewrite totalLength_from. reflexivity.
Qed.

Section GasFacts.

Context {Acct Store : Type} {UAH : UserAccountHandler Acct}.
Variable core : Constants.
Variable checkBasicDCTArguments : ContractCallInput -> option Error.
Variable e : dctNFTCreate Acct Store.

Lemma gasToUse_exact vi :
  0 <= StorePerByte (gasConfig e) -> 0 <= funcGasCost e ->
  sumLengths (Arguments vi) * StorePerByte (gasConfig e) + funcGasCost e
    < 2 ^ 64 ->
  gasToUse e vi =
  sumLengths (Arguments vi) * StorePerByte (gasConfig e) + funcGasCost e.
Proof.
  intros Hp Hb Hlt. unfold gasToUse. rewrite totalLength_sum.
  pose proof (sumLengths_nonneg (Arguments vi)) as Hs.
  destruct (Z.eq_dec (StorePerByte (gasConfig e)) 0) as [Hz|Hz].
  - rewrite Hz in *. rewrite !Z.mul_0_r in *.
    rewrite (wrap64_small (z:=0)) by lia. apply wrap64_small. lia.
  - assert (sumLengths (Arguments vi) < 2 ^ 64) by nia.
    rewrite (wrap64_small (z:=sumLengths (Arguments vi))) by lia.
    rewrite (wrap64_small (z:=_ * _)) by nia.
    apply wrap64_small. nia.
Qed.

Lemma gasToUse_withGas vi g : gasToUse e (withGas vi g) = gasToUse e vi.
Proof. reflexivity. Qed.

Lemma basic_withGas_ok (acnt : option Acct) vi g :
  (forall g', checkBasicDCTArguments (withGas vi g')
              = checkBasicDCTArguments vi) ->
  checkDCTNFTCreateBurnAddInput checkBasicDCTArguments acnt vi (funcGasCost e)
    = None ->
  funcGasCost e <= g ->
  checkDCTNFTCreateBurnAddInput checkBasicDCTArguments acnt (withGas vi g)
    (funcGasCost e) = None.
Proof.
  unfold checkDCTNFTCreateBurnAddInput. intros Hb E Hg. rewrite Hb.
  destruct (checkBasicDCTArguments vi); [discriminate|].
  cbn [CallerAddr RecipientAddr CallType GasProvided withGas].
  destruct (negb _); [discriminate|].
  destruct (_ && _); [discriminate|].
  destruct (Z.ltb_spec g (funcGasCost e)); [lia | reflexivity].
Qed.

Lemma basic_withGas_low (acnt : option Acct) vi g :
  (forall g', checkBasicDCTArguments (withGas vi g')
              = checkBasicDCTArguments vi) ->
  checkDCTNFTCreateBurnAddInput checkBasicDCTArguments acnt vi (funcGasCost e)
    = None ->
  g < funcGasCost e ->
  checkDCTNFTCreateBurnAddInput checkBasicDCTArguments acnt (withGas vi g)
    (funcGasCost e) = Some ErrNotEnoughGas.
Proof.
  unfold checkDCTNFTCreateBurnAddInput. intros Hb E Hg. rewrite Hb.
  destruct (checkBasicDCTArguments vi); [discriminate|].
  cbn [CallerAddr RecipientAddr CallType GasProvided withGas].
  destruct (negb _); [discriminate|].
  destruct (_ && _); [discriminate|].
  destruct (Z.ltb_spec g (funcGasCost e)); [reflexivity | lia].
Qed.

(** With enough gas for the base cost, authorization does not depend on the
    gas of the call. *)
Lemma authorize_withGas vi g (w w1 : World Acct Store) r :
  (forall g', checkBasicDCTArguments (withGas vi g')
              = checkBasicDCTArguments vi) ->
  authorize core checkBasicDCTArguments e vi w = (inr r, w1) ->
  funcGasCost e <= g ->
  authorize core checkBasicDCTArguments e (withGas vi g) w = (inr r, w1).
Proof.
  intros Hb Ea Hg. destruct r as [[acc uris] nonce].
  pose proof Ea as Hok. apply authorize_ok in Hok as (Hc & _).
  pose proof (@basic_withGas_ok (sndObj w) vi g Hb Hc Hg) as Hc'.
  unfold authorize in *. unfold bind at 1. unfold bind at 1 in Ea.
  rewrite Hc'. rewrite Hc in Ea. exact Ea.
Qed.

Lemma authorize_withGas_low vi g (w w1 : World Acct Store) r :
  (forall g', checkBasicDCTArguments (withGas vi g')
              = checkBasicDCTArguments vi) ->
  authorize core checkBasicDCTArguments e vi w = (inr r, w1) ->
  g < funcGasCost e ->
  authorize core checkBasicDCTArguments e (withGas vi g) w
  = (inl ErrNotEnoughGas, w).
Proof.
  intros Hb Ea Hg. destruct r as [[acc uris] nonce].
  apply authorize_ok in Ea as (Hc & _).
  pose proof (@basic_withGas_low (sndObj w) vi g Hb Hc Hg) as Hc'.
  unfold authorize. unfold bind at 1. rewrite Hc'. reflexivity.
Qed.

Lemma resolvedAccount_unmutated vi (w w1 : World Acct Store) :
  unmutated e w w1 -> resolvedAccount e vi w1 = resolvedAccount e vi w.
Proof.
  intros (Hs & Hsnd & _). unfold resolvedAccount. rewrite Hs, Hsnd.
  reflexivity.
Qed.

(** A call that succeeds also succeeds, with the same effects, on any amount
    of gas that covers the base cost and the computed cost. *)
Lemma process_withGas_ok vi g (w w' : World Acct Store) out :
  (forall g', checkBasicDCTArguments (withGas vi g')
              = checkBasicDCTArguments vi) ->
  ProcessBuiltinFunction core checkBasicDCTArguments e vi w = (inr out, w') ->
  funcGasCost e <= g -> gasToUse e vi <= g ->
  exists tokenID nextNonce quantity dctData,
    out = output core e vi tokenID nextNonce quantity dctData /\
    ProcessBuiltinFunction core checkBasicDCTArguments e (withGas vi g) w
    = (inr (output core e (withGas vi g) tokenID nextNonce quantity dctData),
       w').
Proof.
  intros Hb E Hf Hg.
  apply process_ok in E
    as (acc & uris & nonce & w1 & roy & tokenID & q & d
        & Ea & Egas & Er & Et & Eq & El & Ed & Ep & ->).
  exists tokenID, (wrap64 (nonce + 1)), q, d. split; [reflexivity|].
  rewrite (@process_run _ _ _ core checkBasicDCTArguments e (withGas vi g) w w1
             acc uris nonce roy tokenID q d).
  - unfold bind.
    change (persist core e (withGas vi g)) with (persist core e vi).
    rewrite Ep. reflexivity.
  - apply authorize_withGas; assumption.
  - unfold checkGas. rewrite gasToUse_withGas. cbn [GasProvided withGas].
    destruct (Z.ltb_spec g (gasToUse e vi)); [lia | reflexivity].
  - exact Er.
  - exact Et.
  - exact Eq.
  - exact El.
  - exact Ed.
Qed.

(** The same call on less gas than the computed cost is refused for its gas,
    and nothing is changed. *)
Lemma process_withGas_low vi g (w w' : World Acct Store) out :
  (forall g', checkBasicDCTArguments (withGas vi g')
              = checkBasicDCTArguments vi) ->
  ProcessBuiltinFunction core checkBasicDCTArguments e vi w = (inr out, w') ->
  g < gasToUse e vi ->
  exists w1,
    ProcessBuiltinFunction core checkBasicDCTArguments e (withGas vi g) w
    = (inl ErrNotEnoughGas, w1) /\
    unmutated e w w1.
Proof.
  intros Hb E Hg.
  apply process_ok in E
    as (acc & uris & nonce & w1 & roy & tokenID & q & d & Ea & _).
  destruct (Z.lt_ge_cases g (funcGasCost e)) as [Hlow|Hhigh].
  - exists w. split; [|apply unmutated_refl].
    unfold ProcessBuiltinFunction. unfold bind at 1.
    rewrite (authorize_withGas_low _ Hb Ea Hlow). reflexivity.
  - exists w1. split; [|eapply authorize_unmutated; exact Ea].
    unfold ProcessBuiltinFunction. unfold bind at 1.
    rewrite (authorize_withGas _ Hb Ea Hhigh).
    unfold bind at 1. unfold checkGas. rewrite gasToUse_withGas.
    cbn [GasProvided withGas].
    destruct (Z.ltb_spec g (gasToUse e vi)); [reflexivity | lia].
Qed.

End GasFacts.

(** ** The effects of a successful call *)

Lemma SetBytes_app (l1 l2 : bytes) :
  big.SetBytes (l1 ++ l2) = big.SetBytes l1 * 256 ^ len l2 + big.SetBytes l2.
Proof.
  induction l2 as [|b l2 IH] using rev_ind.
  - rewrite app_nil_r. cbn. lia.
  - rewrite app_assoc, !SetBytes_snoc, IH. unfold len.
    rewrite length_app, Nat2Z.inj_add. cbn [List.length].
    rewrite Z.pow_add_r by lia. change (256 ^ Z.of_nat 1) with 256. ring.
Qed.

Lemma SetBytes_bound (l : bytes) : big.SetBytes l < 256 ^ len l.
Proof.
  induction l as [|b l IH] using rev_ind.
  - cbn. lia.
  - rewrite SetBytes_snoc. unfold len in *.
    rewrite length_app, Nat2Z.inj_add. cbn [List.length].
    rewrite Z.pow_add_r by lia. change (256 ^ Z.of_nat 1) with 256.
    pose proof (byte_val_range b). lia.
Qed.

(** Only the last eight bytes of a stored value count. *)
Lemma SetBytes_low64 (hi lo : bytes) :
  List.length lo = 8%nat ->
  big.SetBytes (hi ++ lo) mod 2 ^ 64 = big.SetBytes lo.
Proof.
  intros Hl. rewrite SetBytes_app.
  pose proof (SetBytes_bound lo) as Hb. pose proof (SetBytes_nonneg lo) as Hn.
  unfold len in *. rewrite Hl in *. change (256 ^ Z.of_nat 8) with (2 ^ 64) in *.
  rewrite Z.add_comm, Z.mod_add by lia. apply Z.mod_small. lia.
Qed.


Section EffectFacts.

Context {Acct Store : Type} {UAH : UserAccountHandler Acct}.
Variable core : Constants.
Variable checkBasicDCTArguments : ContractCallInput -> option Error.
Variable e : dctNFTCreate Acct Store.

Lemma newDCToken_ok vi uris nextNonce royalties quantity
    (w w1 : World Acct Store) d :
  newDCToken core vi uris nextNonce royalties quantity w = (inr d, w1) ->
  exists arg2 arg4 arg5,
    nth_error (Arguments vi) 2 = Some arg2 /\
    nth_error (Arguments vi) 4 = Some arg4 /\
    nth_error (Arguments vi) 5 = Some arg5 /\
    d = {| Type_ := wrap32 (NonFungible core);
           Value := quantity;
           TokenMetaData := Some
             {| Nonce := nextNonce; Name := arg2; Creator := CallerAddr vi;
                Royalties := royalties; Hash := arg4; Attributes := arg5;
                URIs := uris |} |}.
Proof.
  unfold newDCToken. intros E.
  apply bind_ok in E as (arg2 & w2 & E2 & E). apply index_ok in E2 as [E2 ->].
  apply bind_ok in E as (arg4 & w2 & E4 & E). apply index_ok in E4 as [E4 ->].
  apply bind_ok in E as (arg5 & w2 & E5 & E). apply index_ok in E5 as [E5 ->].
  inversion E; subst. exists arg2, arg4, arg5. auto.
Qed.

(** What a successful call read, built and changed. *)
Lemma process_effects vi (w w' : World Acct Store) out :
  ProcessBuiltinFunction core checkBasicDCTArguments e vi w = (inr out, w') ->
  exists uris nonce w1 royalties tokenID quantity dctData acnt acnt' s2,
    resolveAccountWithRoles e vi w = (inr (resolvedRef vi, uris), w1) /\
    nth_error (Arguments vi) 0 = Some tokenID /\
    resolvedAccount e vi w = Some acnt /\
    getLatestNonce core acnt tokenID = inr nonce /\
    newDCToken core vi uris (wrap64 (nonce + 1)) royalties quantity w1
      = (inr dctData, w1) /\
    calls w' =
      calls w ++
      [CallSaveDCTNFTToken (resolvedRef vi) (AddressBytes acnt)
         (keyPrefix e ++ tokenID) (wrap64 (nonce + 1)) dctData true
         (ReturnCallAfterError vi);
       CallAddToLiquiditySystemAcc (keyPrefix e ++ tokenID)
         (wrap64 (nonce + 1)) quantity;
       CallSaveKeyValue (resolvedRef vi) (getNonceKey core tokenID)
         (big.Bytes (big.SetUint64 (wrap64 (nonce + 1))))] ++
      (if vm.eqb (CallType vi) vm.ExecOnDestByCaller
       then [CallSaveAccount (resolvedRef vi)] else []) /\
    object (resolvedRef vi) w' = Some acnt' /\
    (if vm.eqb (CallType vi) vm.ExecOnDestByCaller
     then SaveAccount (accounts e) acnt' s2 = (None, store w') /\
          sndObj w' = sndObj w
     else store w' = s2) /\
    out = output core e vi tokenID (wrap64 (nonce + 1)) quantity dctData.
Proof.
  intros E.
  apply process_ok in E
    as (acc & uris & nonce & w1 & roy & tokenID & q & d
        & Ea & _ & _ & Et & _ & _ & Ed & Ep & ->).
  apply authorize_ok in Ea as (_ & _ & Er & tok' & acnt & Et' & Ho & _ & En).
  rewrite Et in Et'. injection Et' as <-.
  pose proof Er as Hres.
  apply resolve_resolved in Hres as (-> & Hra & (_ & Hsnd & Hcalls & _)).
  apply persist_ok in Ep
    as (a & a1 & s1 & s2 & a2 & s3 & Ha & _ & _ & _ & Hsa & Ha2 & Hst & Hc
        & Hoth).
  rewrite Ho in Ha. injection Ha as <-.
  exists uris, nonce, w1, roy, tokenID, q, d, acnt, a2, s2.
  repeat split; auto.
  - rewrite <- Hra. exact Ho.
  - rewrite Hc, Hcalls. reflexivity.
  - unfold resolvedRef in *.
    destruct (vm.eqb (CallType vi) vm.ExecOnDestByCaller).
    + split; [congruence|].
      rewrite <- Hsnd. apply (Hoth RefSnd). discriminate.
    + congruence.
Qed.



(** A resolved-target call whose target is the caller, or is not as long as
    the caller's address, stops at the resolution. *)
Lemma resolve_rejects vi (w : World Acct Store) target :
  CallType vi = vm.ExecOnDestByCaller ->
  nth_error (Arguments vi) (List.length (Arguments vi) - 1) = Some target ->
  target = CallerAddr vi \/
  List.length target <> List.length (CallerAddr vi) ->
  resolveAccountWithRoles e vi w =
  (inl (if negb (len target =? len (CallerAddr vi))
        then ErrInvalidAddressLength else ErrInvalidRcvAddr), w).
Proof.
  intros Hc Ht Hbad. unfold resolveAccountWithRoles. rewrite Hc.
  cbn [vm.eqb]. unfold bind, index. rewrite Ht. cbn [ret].
  destruct (Z.eqb_spec (len target) (len (CallerAddr vi))) as [Hl|Hl];
    cbn [negb]; [|reflexivity].
  unfold bytes_Equal.
  destruct (bytes_eq_dec target (CallerAddr vi)) as [Heq|Hne]; [reflexivity|].
  exfalso. unfold len in Hl. destruct Hbad as [Heq|Hlen]; [auto | lia].
Qed.

(** What a successful validation went through. *)
Lemma validate_ok vi (w w1 : World Acct Store) acc tokenID nextNonce quantity
    dctData :
  validate core checkBasicDCTArguments e vi w
  = (inr (acc, tokenID, nextNonce, quantity, dctData), w1) ->
  exists uris nonce royalties,
    authorize core checkBasicDCTArguments e vi w = (inr (acc, uris, nonce), w1)
    /\ checkGas e vi = None
    /\ parseRoyalties vi w1 = (inr royalties, w1)
    /\ nth_error (Arguments vi) 0 = Some tokenID
    /\ parseQuantity core e vi acc w1 = (inr quantity, w1)
    /\ checkQuantityLength core e vi w1 = (inr tt, w1)
    /\ nextNonce = wrap64 (nonce + 1)
    /\ newDCToken core vi uris nextNonce royalties quantity w1
        = (inr dctData, w1).
Proof.
  unfold validate. intros E.
  apply bind_ok in E as ([[acc' uris] nonce] & w2 & Ea & E).
  apply bind_ok in E as ([] & w3 & Eg & E).
  apply check_ok in Eg as [Eg ->].
  apply bind_ok in E as (royalties & w3 & Er & E).
  pose proof Er as X; apply readonly_parseRoyalties in X; subst w3.
  apply bind_ok in E as (tok & w3 & Et & E).
  apply index_ok in Et as [Et ->].
  apply bind_ok in E as (q & w3 & Eq & E).
  pose proof Eq as X; apply readonly_parseQuantity in X; subst w3.
  apply bind_ok in E as ([] & w3 & El & E).
  pose proof El as X; apply readonly_checkQuantityLength in X; subst w3.
  apply bind_ok in E as (d & w3 & Ed & E).
  pose proof Ed as X; apply readonly_newDCToken in X; subst w3.
  inversion E; subst.
  exists uris, nonce, royalties. repeat split; assumption.
Qed.

(** The call from the quantity on, once the steps before it have passed. *)
Lemma process_at_quantity vi (w w1 : World Acct Store) acc uris nonce
    royalties :
  authorize core checkBasicDCTArguments e vi w = (inr (acc, uris, nonce), w1) ->
  checkGas e vi = None ->
  parseRoyalties vi w1 = (inr royalties, w1) ->
  exists tokenID acnt,
    nth_error (Arguments vi) 0 = Some tokenID /\
    object acc w1 = Some acnt /\
    ProcessBuiltinFunction core checkBasicDCTArguments e vi w =
    (quantity <- parseQuantity core e vi acc ;;
     checkQuantityLength core e vi ;;;
     dctData <- newDCToken core vi uris (wrap64 (nonce + 1)) royalties
                  quantity ;;
     persist core e vi acc tokenID (keyPrefix e ++ tokenID)
       (wrap64 (nonce + 1)) quantity dctData ;;;
     ret (output core e vi tokenID (wrap64 (nonce + 1)) quantity dctData)) w1.
Proof.
  intros Ea Eg Er. pose proof Ea as Hok.
  apply authorize_ok in Hok as (_ & _ & _ & tokenID & acnt & Et & Ho & _).
  exists tokenID, acnt. split; [exact Et|]. split; [exact Ho|].
  unfold ProcessBuiltinFunction.
  unfold bind at 1. rewrite Ea.
  unfold bind at 1. rewrite Eg. cbn [check ret].
  unfold bind at 1. rewrite Er.
  unfold bind at 1. unfold index at 1. rewrite Et. cbn [ret].
  reflexivity.
Qed.

Lemma parseQuantity_nonpositive vi acc (w1 : World Acct Store) arg1 :
  nth_error (Arguments vi) 1 = Some arg1 ->
  big.SetBytes arg1 <= 0 ->
  parseQuantity core e vi acc w1
  = (inl (Errorf "%w, invalid quantity" ErrInvalidArguments), w1).
Proof.
  intros H1 Hq. unfold parseQuantity, bind, index. rewrite H1. cbn [ret].
  unfold zero. destruct (Z.leb_spec (big.SetBytes arg1) 0); [reflexivity|lia].
Qed.

Lemma parseQuantity_many vi acc (w1 : World Acct Store) arg1 tokenID acnt :
  nth_error (Arguments vi) 1 = Some arg1 ->
  1 < big.SetBytes arg1 ->
  nth_error (Arguments vi) 0 = Some tokenID ->
  object acc w1 = Some acnt ->
  parseQuantity core e vi acc w1 =
  match CheckAllowedToExecute (rolesHandler e) acnt tokenID
          (DCTRoleNFTAddQuantity core) with
  | Some err => (inl err, w1)
  | None => (inr (big.SetBytes arg1), w1)
  end.
Proof.
  intros H1 Hq H0 Ho. unfold parseQuantity, bind, index, deref.
  rewrite H1. cbn [ret]. unfold zero.
  destruct (Z.leb_spec (big.SetBytes arg1) 0); [lia|].
  destruct (Z.gtb_spec (big.SetBytes arg1) 1); [|lia].
  rewrite Ho, H0. cbn [ret].
  destruct (CheckAllowedToExecute _ _ _ _); reflexivity.
Qed.

(** A call that succeeds, as the chain of what its collaborators did: the
    token saved through the resolved account in the store the call started
    in, the liquidity added to the store that came back, the nonce written
    to the account that came back and, in Resolved-Target mode, that account
    saved. *)
Lemma process_chain vi (w w' : World Acct Store) out :
  ProcessBuiltinFunction core checkBasicDCTArguments e vi w = (inr out, w') ->
  exists nonce tokenID quantity dctData md acnt a1 s1 s2 acnt',
    nth_error (Arguments vi) 0 = Some tokenID /\
    resolvedAccount e vi w = Some acnt /\
    getLatestNonce core acnt tokenID = inr nonce /\
    TokenMetaData dctData = Some md /\
    Nonce md = wrap64 (nonce + 1) /\
    Value dctData = quantity /\
    SaveDCTNFTToken (dctStorageHandler e) (AddressBytes acnt) acnt
      (keyPrefix e ++ tokenID) (wrap64 (nonce + 1)) dctData true
      (ReturnCallAfterError vi) (store w) = (None, (a1, s1)) /\
    AddToLiquiditySystemAcc (dctStorageHandler e) (keyPrefix e ++ tokenID)
      (wrap64 (nonce + 1)) quantity s1 = (None, s2) /\
    saveLatestNonce core a1 tokenID (wrap64 (nonce + 1)) = (None, acnt') /\
    (if vm.eqb (CallType vi) vm.ExecOnDestByCaller
     then SaveAccount (accounts e) acnt' s2 = (None, store w') /\
          sndObj w' = sndObj w
     else store w' = s2) /\
    object (resolvedRef vi) w' = Some acnt' /\
    calls w' =
      calls w ++
      [CallSaveDCTNFTToken (resolvedRef vi) (AddressBytes acnt)
         (keyPrefix e ++ tokenID) (wrap64 (nonce + 1)) dctData true
         (ReturnCallAfterError vi);
       CallAddToLiquiditySystemAcc (keyPrefix e ++ tokenID)
         (wrap64 (nonce + 1)) quantity;
       CallSaveKeyValue (resolvedRef vi) (getNonceKey core tokenID)
         (big.Bytes (big.SetUint64 (wrap64 (nonce + 1))))] ++
      (if vm.eqb (CallType vi) vm.ExecOnDestByCaller
       then [CallSaveAccount (resolvedRef vi)] else []) /\
    out = output core e vi tokenID (wrap64 (nonce + 1)) quantity dctData.
Proof.
  intros E.
  apply process_ok in E
    as (acc & uris & nonce & w1 & roy & tokenID & q & d
        & Ea & _ & _ & Et & _ & _ & Ed & Ep & ->).
  apply authorize_ok in Ea as (_ & _ & Er & tok' & acnt & Et' & Ho & _ & En).
  rewrite Et in Et'. injection Et' as <-.
  pose proof Er as Hres.
  apply resolve_resolved in Hres as (-> & Hra & (Hs1 & Hsnd & Hcalls & _)).
  apply persist_ok in Ep
    as (a & a1 & s1 & s2 & a2 & s3 & Ha & Htok & Hliq & Hkv & Hsa & Ha2 & Hst
        & Hc & Hoth).
  rewrite Ho in Ha. injection Ha as <-. rewrite Hs1 in Htok.
  apply newDCToken_ok in Ed as (arg2 & arg4 & arg5 & _ & _ & _ & Hd).
  exists nonce, tokenID, q, d,
    {| Nonce := wrap64 (nonce + 1); Name := arg2; Creator := CallerAddr vi;
       Royalties := roy; Hash := arg4; Attributes := arg5; URIs := uris |},
    acnt, a1, s1, s2, a2.
  split; [exact Et|]. split; [rewrite <- Hra; exact Ho|].
  split; [exact En|]. split; [rewrite Hd; reflexivity|].
  split; [reflexivity|]. split; [rewrite Hd; reflexivity|].
  split; [exact Htok|]. split; [exact Hliq|]. split; [exact Hkv|].
  split.
  { unfold resolvedRef in *.
    destruct (vm.eqb (CallType vi) vm.ExecOnDestByCaller).
    - split; [congruence|].
      rewrite <- Hsnd. apply (Hoth RefSnd). discriminate.
    - congruence. }
  split; [exact Ha2|].
  split; [rewrite Hc, Hcalls; reflexivity | reflexivity].
Qed.

End EffectFacts.

(** ** The properties of the handler *)

Section Claims.

Context {Acct Store : Type} {UAH : UserAccountHandler Acct}.
Variable core : Constants.
Variable checkBasicDCTArguments : ContractCallInput -> option Error.
Variable e : dctNFTCreate Acct Store.

Local Notation "'process'" :=
  (ProcessBuiltinFunction core checkBasicDCTArguments e) (only parsing).

(** C1, amended.  A creation call that succeeds returns as its payload the
    big-endian encoding of the prior nonce plus one, taken modulo 2^64; it
    writes that value to the nonce ledger of the resolved account under the
    token identifier; and, the account data handler returning what it was
    given, a lookup of the nonce on the resolved account after the call
    gives that value.  The prior nonce is the one read from the resolved
    account as the call finds it, and it is 0 when no value is stored.  Below
    2^64 - 1 the new nonce is exactly the prior nonce plus one. *)
Theorem C1_nonce_increment (vi : ContractCallInput)
    (w w' : World Acct Store) (out : VMOutput) :
  (forall k v (a a' : Acct),
      SaveKeyValue k v a = (None, a') -> RetrieveValue k a' = inr v) ->
  process vi w = (inr out, w') ->
  exists tokenID acnt acnt' priorNonce,
    nth_error (Arguments vi) 0 = Some tokenID /\
    resolvedAccount e vi w = Some acnt /\
    getLatestNonce core acnt tokenID = inr priorNonce /\
    (RetrieveValue (getNonceKey core tokenID) acnt = inr [] ->
     priorNonce = 0) /\
    ReturnData out = [big.Bytes (wrap64 (priorNonce + 1))] /\
    big.SetBytes (big.Bytes (wrap64 (priorNonce + 1)))
      = wrap64 (priorNonce + 1) /\
    In (CallSaveKeyValue (resolvedRef vi) (getNonceKey core tokenID)
          (big.Bytes (wrap64 (priorNonce + 1)))) (calls w') /\
    object (resolvedRef vi) w' = Some acnt' /\
    getLatestNonce core acnt' tokenID = inr (wrap64 (priorNonce + 1)) /\
    (priorNonce + 1 < 2 ^ 64 -> wrap64 (priorNonce + 1) = priorNonce + 1).
Proof.
  intros Hlaw E.
  apply process_ok in E
    as (acc & uris & nonce & w1 & roy & tokenID & q & d
        & Ea & _ & _ & Et & _ & _ & _ & Ep & ->).
  apply authorize_ok in Ea as (_ & _ & Er & tok' & acnt & Et' & Ho & _ & En).
  rewrite Et in Et'. injection Et' as <-.
  apply resolve_resolved in Er as (-> & Hra & _).
  apply persist_ok in Ep
    as (a & a1 & s1 & s2 & a2 & s3 & Ha & _ & _ & Hs & _ & Ha2 & _ & Hc & _).
  pose proof (getLatestNonce_range _ _ _ En) as Hn.
  pose proof (wrap64_range (nonce + 1)) as Hw.
  exists tokenID, acnt, a2, nonce.
  repeat split.
  - exact Et.
  - rewrite <- Hra. exact Ho.
  - exact En.
  - intros Hr. unfold getLatestNonce in En. rewrite Hr in En. cbn in En.
    congruence.
  - apply SetBytes_Bytes. lia.
  - rewrite Hc. apply in_or_app. right. apply in_or_app. left.
    cbn. auto.
  - exact Ha2.
  - eapply getLatestNonce_saved; eassumption.
  - intros Hlt. apply wrap64_small. lia.
Qed.

(** C3.  A call whose validation fails - the basic shape check, the argument
    count, the mode resolution, the creation role, the nonce lookup, the gas
    check, the royalties, the quantity and its role, the length check -
    returns that error, and no collaborator was asked to change anything: the
    store, the sender's account object and the log of mutating calls (token
    saved, liquidity updated, nonce written, account saved) are as before the
    call. *)
Theorem C3_validation_failure_mutates_nothing (vi : ContractCallInput)
    (w w' : World Acct Store) (err : Error) :
  validate core checkBasicDCTArguments e vi w = (inl err, w') ->
  process vi w = (inl err, w') /\
  unmutated e w w' /\
  calls w' = calls w /\ store w' = store w /\ sndObj w' = sndObj w.
Proof.
  intros Ev. split.
  - rewrite process_validate. unfold bind at 1. rewrite Ev. reflexivity.
  - pose proof Ev as Hu. apply validate_unmutated in Hu. split; [exact Hu|].
    destruct Hu as (Hs & Hsnd & Hc & _). auto.
Qed.

(** C2, amended.  The gas charged to a call that succeeds is the sum of the
    byte lengths of all its arguments times the per-byte storage cost plus
    the base cost, computed in unsigned 64-bit arithmetic (each step reduced
    modulo 2^64).  When that formula does not overflow 64 bits the charge is
    its exact value, and the same call providing exactly that amount succeeds
    with gas remaining 0.  The same call providing one unit less fails with
    insufficient-gas, changes nothing, and leaves the resolved account, hence
    its nonce for the token identifier, as it was.  (The basic argument
    check, whose source is not at hand, is taken not to look at the gas.) *)
Theorem C2_gas_charged (vi : ContractCallInput)
    (w w' : World Acct Store) (out : VMOutput) :
  (forall g, checkBasicDCTArguments (withGas vi g)
             = checkBasicDCTArguments vi) ->
  0 <= GasProvided vi < 2 ^ 64 ->
  process vi w = (inr out, w') ->
  gasToUse e vi =
    wrap64 (wrap64 (wrap64 (sumLengths (Arguments vi))
                    * StorePerByte (gasConfig e))
            + funcGasCost e) /\
  GasProvided vi - GasRemaining out = gasToUse e vi /\
  (0 <= StorePerByte (gasConfig e) -> 0 <= funcGasCost e ->
   sumLengths (Arguments vi) * StorePerByte (gasConfig e) + funcGasCost e
     < 2 ^ 64 ->
   gasToUse e vi =
     sumLengths (Arguments vi) * StorePerByte (gasConfig e) + funcGasCost e /\
   exists out0,
     process (withGas vi (gasToUse e vi)) w = (inr out0, w') /\
     ReturnCode out0 = vmcommon.Ok /\ GasRemaining out0 = 0) /\
  (1 <= gasToUse e vi ->
   exists w1,
     process (withGas vi (gasToUse e vi - 1)) w = (inl ErrNotEnoughGas, w1) /\
     unmutated e w w1 /\
     resolvedAccount e vi w1 = resolvedAccount e vi w).
Proof.
  intros Hb HG E. split; [|split; [|split]].
  - unfold gasToUse. rewrite totalLength_sum. reflexivity.
  - pose proof E as E0.
    apply process_ok in E0
      as (acc & uris & nonce & w1 & roy & tokenID & q & d
          & _ & Egas & _ & _ & _ & _ & _ & _ & ->).
    unfold checkGas in Egas.
    destruct (Z.ltb_spec (GasProvided vi) (gasToUse e vi)); [discriminate|].
    cbn [GasRemaining output addDCTEntryInVMOutput].
    pose proof (wrap64_range
      (wrap64 (totalLength (Arguments vi) * StorePerByte (gasConfig e))
       + funcGasCost e)) as Hr.
    fold (gasToUse e vi) in Hr.
    rewrite wrap64_small by lia. lia.
  - intros Hp Hf Hlt.
    assert (Hex : gasToUse e vi =
      sumLengths (Arguments vi) * StorePerByte (gasConfig e) + funcGasCost e)
      by (apply gasToUse_exact; assumption).
    split; [exact Hex|].
    pose proof (sumLengths_nonneg (Arguments vi)) as Hs.
    pose proof E as E1.
    eapply process_withGas_ok with (g := gasToUse e vi) in E1;
      try exact Hb; try nia.
    destruct E1 as (tokenID & nn & q & d & _ & Erun).
    eexists. split; [exact Erun|].
    cbn [ReturnCode GasRemaining output addDCTEntryInVMOutput withGas
         GasProvided].
    split; [reflexivity|].
    rewrite gasToUse_withGas, Z.sub_diag. reflexivity.
  - intros Hpos. pose proof E as E1.
    eapply process_withGas_low with (g := gasToUse e vi - 1) in E1;
      try exact Hb; try lia.
    destruct E1 as (w1 & Erun & Hu).
    exists w1. split; [exact Erun|]. split; [exact Hu|].
    apply resolvedAccount_unmutated. exact Hu.
Qed.



(** C6, amended.  A call whose argument 1 decodes to a quantity of 0 or
    less is always rejected, and nothing is changed.  The error is that of
    the first step that fails, and the steps before the quantity come first:
    a call that is refused the creation role returns the role authority's
    denial, whatever its quantity.  Once the call has passed the steps
    before the quantity (the input check, the argument count, the mode
    resolution, the creation role, the nonce lookup, the gas and the
    royalties) the error is invalid-arguments, and no role is consulted, so
    no grant changes that.  A call whose quantity is above 1 and that has
    passed those steps fails with the role authority's denial, and changes
    nothing, when the resolved account lacks the add-quantity role for the
    token identifier.  With that grant the quantity passes and the rest of
    the call decides: the call fails with invalid-arguments, and changes
    nothing, when the length check is enabled and argument 1 is longer than
    the maximum; otherwise it builds a unit whose value is the quantity and
    goes on to save it. *)
Theorem C6_quantity_checks (vi : ContractCallInput) (w : World Acct Store)
    (arg1 : bytes) :
  nth_error (Arguments vi) 1 = Some arg1 ->
  (forall acc uris w1 tokenID acnt denied,
     checkDCTNFTCreateBurnAddInput checkBasicDCTArguments (sndObj w) vi
       (funcGasCost e) = None ->
     checkNumOfArgs vi = None ->
     resolveAccountWithRoles e vi w = (inr (acc, uris), w1) ->
     nth_error (Arguments vi) 0 = Some tokenID ->
     object acc w1 = Some acnt ->
     CheckAllowedToExecute (rolesHandler e) acnt tokenID
       (DCTRoleNFTCreate core) = Some denied ->
     process vi w = (inl denied, w1) /\ unmutated e w w1) /\
  (big.SetBytes arg1 <= 0 ->
   (exists err w', process vi w = (inl err, w') /\ unmutated e w w') /\
   (forall acc uris nonce w1 royalties,
      authorize core checkBasicDCTArguments e vi w
        = (inr (acc, uris, nonce), w1) ->
      checkGas e vi = None ->
      parseRoyalties vi w1 = (inr royalties, w1) ->
      exists err,
        process vi w = (inl err, w1) /\
        errors_Is err ErrInvalidArguments = true)) /\
  (1 < big.SetBytes arg1 ->
   forall acc uris nonce w1 royalties,
     authorize core checkBasicDCTArguments e vi w
       = (inr (acc, uris, nonce), w1) ->
     checkGas e vi = None ->
     parseRoyalties vi w1 = (inr royalties, w1) ->
     exists tokenID acnt,
       nth_error (Arguments vi) 0 = Some tokenID /\
       resolvedAccount e vi w = Some acnt /\
       (forall denied,
          CheckAllowedToExecute (rolesHandler e) acnt tokenID
            (DCTRoleNFTAddQuantity core) = Some denied ->
          process vi w = (inl denied, w1) /\ unmutated e w w1) /\
       (CheckAllowedToExecute (rolesHandler e) acnt tokenID
          (DCTRoleNFTAddQuantity core) = None ->
        parseQuantity core e vi acc w1 = (inr (big.SetBytes arg1), w1) /\
        (IsValueLengthCheckFlagEnabled (enableEpochsHandler e) = true ->
         maxLenForAddNFTQuantity core < len arg1 ->
         exists err,
           process vi w = (inl err, w1) /\
           errors_Is err ErrInvalidArguments = true /\
           unmutated e w w1) /\
        (IsValueLengthCheckFlagEnabled (enableEpochsHandler e) = false \/
         len arg1 <= maxLenForAddNFTQuantity core ->
         exists dctData,
           newDCToken core vi uris (wrap64 (nonce + 1)) royalties
             (big.SetBytes arg1) w1 = (inr dctData, w1) /\
           Value dctData = big.SetBytes arg1 /\
           process vi w =
           (persist core e vi acc tokenID (keyPrefix e ++ tokenID)
              (wrap64 (nonce + 1)) (big.SetBytes arg1) dctData ;;;
            ret (output core e vi tokenID (wrap64 (nonce + 1))
                   (big.SetBytes arg1) dctData)) w1))).
Proof.
  intros H1. split; [|split].
  - intros acc uris w1 tokenID acnt denied Hb Hn Hr Ht Ho Hd.
    assert (Ea : authorize core checkBasicDCTArguments e vi w
                 = (inl denied, w1)).
    { unfold authorize. unfold bind at 1. rewrite Hb. cbn [check ret].
      unfold bind at 1. rewrite Hn. cbn [check ret].
      unfold bind at 1. rewrite Hr.
      unfold bind at 1. unfold index. rewrite Ht. cbn [ret].
      unfold bind at 1. unfold deref. rewrite Ho.
      unfold bind at 1. rewrite Hd. reflexivity. }
    split.
    + unfold ProcessBuiltinFunction. unfold bind at 1. rewrite Ea.
      reflexivity.
    + eapply authorize_unmutated. exact Ea.
  - intros Hq. split.
    + destruct (validate core checkBasicDCTArguments e vi w)
        as [[err|[[[[acc tokenID] nn] q] d]] wv] eqn:Ev.
      * exists err, wv. split.
        -- rewrite process_validate. unfold bind at 1. rewrite Ev.
           reflexivity.
        -- eapply validate_unmutated. exact Ev.
      * exfalso. apply validate_ok in Ev
          as (uris & nonce & roy & _ & _ & _ & _ & Eq & _).
        erewrite parseQuantity_nonpositive in Eq by eassumption.
        discriminate.
    + intros acc uris nonce w1 roy Ea Eg Er.
      pose proof Ea as Hp.
      eapply process_at_quantity in Hp; [|exact Eg|exact Er].
      destruct Hp as (tokenID & acnt & _ & _ & Hp). rewrite Hp.
      exists (Errorf "%w, invalid quantity" ErrInvalidArguments).
      split; [|reflexivity].
      unfold bind at 1. erewrite parseQuantity_nonpositive by eassumption.
      reflexivity.
  - intros Hq acc uris nonce w1 roy Ea Eg Er.
    pose proof Ea as Hp.
    eapply process_at_quantity in Hp; [|exact Eg|exact Er].
    destruct Hp as (tokenID & acnt & Et & Ho & Hp).
    pose proof Ea as Hok.
    apply authorize_ok in Hok as (_ & Hn & Hres & _).
    apply checkNumOfArgs_ok in Hn as (_ & H7).
    apply resolve_resolved in Hres as (-> & Hra & _).
    exists tokenID, acnt. split; [exact Et|]. split; [congruence|].
    assert (Hpq : parseQuantity core e vi (resolvedRef vi) w1 =
              match CheckAllowedToExecute (rolesHandler e) acnt tokenID
                      (DCTRoleNFTAddQuantity core) with
              | Some err => (inl err, w1)
              | None => (inr (big.SetBytes arg1), w1)
              end)
      by (eapply parseQuantity_many; eassumption).
    unfold bind at 1 in Hp.
    split.
    + intros denied Hd. rewrite Hd in Hpq. rewrite Hpq in Hp. split.
      * exact Hp.
      * eapply authorize_unmutated. exact Ea.
    + intros Hg. rewrite Hg in Hpq. split; [exact Hpq|].
      rewrite Hpq in Hp.
      assert (Hlen : checkQuantityLength core e vi w1 =
                if IsValueLengthCheckFlagEnabled (enableEpochsHandler e)
                   && (len arg1 >? maxLenForAddNFTQuantity core)
                then (inl (Errorf
                             "%w max length for quantity in nft create is %d"
                             ErrInvalidArguments), w1)
                else (inr tt, w1)).
      { unfold checkQuantityLength, bind, index. rewrite H1. cbn [ret].
        destruct (_ && _); reflexivity. }
      unfold bind at 1 in Hp. rewrite Hlen in Hp. split.
      * intros Hflag Hlong. rewrite Hflag in Hp.
        destruct (Z.gtb_spec (len arg1) (maxLenForAddNFTQuantity core));
          [|lia].
        cbn [andb] in Hp.
        exists (Errorf "%w max length for quantity in nft create is %d"
                  ErrInvalidArguments).
        split; [exact Hp|]. split; [reflexivity|].
        eapply authorize_unmutated. exact Ea.
      * intros Hshort.
        assert (Hpass : IsValueLengthCheckFlagEnabled (enableEpochsHandler e)
                        && (len arg1 >? maxLenForAddNFTQuantity core)
                        = false).
        { destruct Hshort as [Hflag|Hshort].
          - rewrite Hflag. reflexivity.
          - destruct (Z.gtb_spec (len arg1) (maxLenForAddNFTQuantity core));
              [lia|]. apply andb_false_r. }
        rewrite Hpass in Hp.
        destruct (nth_error (Arguments vi) 2) as [arg2|] eqn:E2;
          [|apply nth_error_None in E2; lia].
        destruct (nth_error (Arguments vi) 4) as [arg4|] eqn:E4;
          [|apply nth_error_None in E4; lia].
        destruct (nth_error (Arguments vi) 5) as [arg5|] eqn:E5;
          [|apply nth_error_None in E5; lia].
        assert (Hd : newDCToken core vi uris (wrap64 (nonce + 1)) roy
                       (big.SetBytes arg1) w1
                     = (inr {| Type_ := wrap32 (NonFungible core);
                               Value := big.SetBytes arg1;
                               TokenMetaData := Some
                                 {| Nonce := wrap64 (nonce + 1);
                                    Name := arg2;
                                    Creator := CallerAddr vi;
                                    Royalties := roy;
                                    Hash := arg4;
                                    Attributes := arg5;
                                    URIs := uris |} |}, w1)).
        { unfold newDCToken, bind, index. rewrite E2, E4, E5. reflexivity. }
        eexists. split; [exact Hd|]. split; [reflexivity|].
        unfold bind at 1 in Hp. rewrite Hd in Hp. exact Hp.
Qed.

(** C7.  In Resolved-Target mode a call whose trailing target address is the
    caller's address, or is not as long as the caller's address, is rejected
    in the world it started in: nothing at all has changed.  (Past the
    basic shape check and the argument count the error is
    invalid-address-length for a length that differs and
    invalid-receiver-address for the caller's own address.)  A call that
    succeeds went through the account the adapter loaded for the target,
    which is not the caller's address: the storage handler saved the unit
    with that account as its owner, the liquidity was added, the new nonce
    was written by [saveLatestNonce] to the account the storage handler gave
    back, and the adapter saved the account so obtained, giving the store
    the call ends in; these are the mutating calls of the call, in this
    order.  The account object the call ends with is the saved one, and, the
    account data handler returning what it was given, a lookup of the nonce
    on it gives the new nonce.  The sender's account object is untouched. *)
Theorem C7_resolved_target (vi : ContractCallInput) (w : World Acct Store)
    (target : bytes) :
  CallType vi = vm.ExecOnDestByCaller ->
  nth_error (Arguments vi) (List.length (Arguments vi) - 1) = Some target ->
  (target = CallerAddr vi \/
   List.length target <> List.length (CallerAddr vi) ->
   exists err,
     process vi w = (inl err, w) /\
     (checkDCTNFTCreateBurnAddInput checkBasicDCTArguments (sndObj w) vi
        (funcGasCost e) = None ->
      checkNumOfArgs vi = None ->
      err = if negb (len target =? len (CallerAddr vi))
            then ErrInvalidAddressLength else ErrInvalidRcvAddr)) /\
  (forall out w',
     process vi w = (inr out, w') ->
     exists acnt a1 s1 acnt' tokenID nonce quantity dctData s2,
       target <> CallerAddr vi /\
       LoadAccount (accounts e) target (store w) = inr (UserAccount acnt) /\
       getLatestNonce core acnt tokenID = inr nonce /\
       SaveDCTNFTToken (dctStorageHandler e) (AddressBytes acnt) acnt
         (keyPrefix e ++ tokenID) (wrap64 (nonce + 1)) dctData true
         (ReturnCallAfterError vi) (store w) = (None, (a1, s1)) /\
       AddToLiquiditySystemAcc (dctStorageHandler e) (keyPrefix e ++ tokenID)
         (wrap64 (nonce + 1)) quantity s1 = (None, s2) /\
       saveLatestNonce core a1 tokenID (wrap64 (nonce + 1)) = (None, acnt') /\
       SaveAccount (accounts e) acnt' s2 = (None, store w') /\
       loadedObj w' = Some acnt' /\
       ((forall k v (a a' : Acct),
            SaveKeyValue k v a = (None, a') -> RetrieveValue k a' = inr v) ->
        getLatestNonce core acnt' tokenID = inr (wrap64 (nonce + 1))) /\
       calls w' =
         calls w ++
         [CallSaveDCTNFTToken RefLoaded (AddressBytes acnt)
            (keyPrefix e ++ tokenID) (wrap64 (nonce + 1)) dctData true
            (ReturnCallAfterError vi);
          CallAddToLiquiditySystemAcc (keyPrefix e ++ tokenID)
            (wrap64 (nonce + 1)) quantity;
          CallSaveKeyValue RefLoaded (getNonceKey core tokenID)
            (big.Bytes (wrap64 (nonce + 1)));
          CallSaveAccount RefLoaded] /\
       sndObj w' = sndObj w).
Proof.
  intros Hc Ht.
  assert (Hrej :
    target = CallerAddr vi \/
    List.length target <> List.length (CallerAddr vi) ->
    exists err,
      process vi w = (inl err, w) /\
      (checkDCTNFTCreateBurnAddInput checkBasicDCTArguments (sndObj w) vi
         (funcGasCost e) = None ->
       checkNumOfArgs vi = None ->
       err = if negb (len target =? len (CallerAddr vi))
             then ErrInvalidAddressLength else ErrInvalidRcvAddr)).
  { intros Hbad.
    pose proof (@resolve_rejects _ _ e vi w target Hc Ht Hbad) as Hr.
    unfold ProcessBuiltinFunction, authorize. unfold bind at 1.
    unfold bind at 1.
    destruct (checkDCTNFTCreateBurnAddInput checkBasicDCTArguments (sndObj w)
                vi (funcGasCost e)) as [err1|] eqn:E1; cbn [check fail ret].
    { exists err1. split; [reflexivity|]. discriminate. }
    unfold bind at 1.
    destruct (checkNumOfArgs vi) as [err2|] eqn:E2; cbn [check fail ret].
    { exists err2. split; [reflexivity|]. discriminate. }
    unfold bind at 1. rewrite Hr.
    eexists. split; [reflexivity|]. reflexivity. }
  split; [exact Hrej|].
  intros out w' E.
  assert (Hne : target <> CallerAddr vi).
  { intros Heq. destruct (Hrej (or_introl Heq)) as (err & Hrun & _).
    rewrite Hrun in E. discriminate. }
  apply process_chain in E
    as (nonce & tokenID & q & d & md & acnt & a1 & s1 & s2 & acnt'
        & _ & Hra & En & _ & _ & _ & Htok & Hliq & Hkv & Hst & Ho & Hcalls
        & _).
  unfold resolvedRef, resolvedAccount in *. rewrite Hc in *.
  cbn [vm.eqb object] in *. rewrite Ht in Hra.
  destruct (LoadAccount (accounts e) target (store w)) as [err|[a|]] eqn:EL;
    try discriminate.
  injection Hra as ->. destruct Hst as [Hsave Hsnd].
  exists acnt, a1, s1, acnt', tokenID, nonce, q, d, s2.
  split; [exact Hne|]. split; [reflexivity|]. split; [exact En|].
  split; [exact Htok|]. split; [exact Hliq|]. split; [exact Hkv|].
  split; [exact Hsave|]. split; [exact Ho|].
  split.
  { intros Hlaw.
    eapply getLatestNonce_saved; [exact Hlaw | apply wrap64_range | exact Hkv]. }
  split; [exact Hcalls | exact Hsnd].
Qed.

(** C9.  Every step of the call but the serialization of the token is fatal:
    a validation that fails and a mutation that fails both make the call
    return that error.  Once the mutations have succeeded the call returns a
    success record, whatever the marshaller does: the payload is the
    big-endian encoding of the new nonce, the gas remaining is the gas
    provided less the computed cost, and one event is logged; when the
    marshaller fails, the serialized payload of that event is empty. *)
Theorem C9_marshal_failure_is_not_fatal (vi : ContractCallInput)
    (w : World Acct Store) :
  (forall err w1,
     validate core checkBasicDCTArguments e vi w = (inl err, w1) ->
     process vi w = (inl err, w1)) /\
  (forall acc tokenID nextNonce quantity dctData w1,
     validate core checkBasicDCTArguments e vi w
     = (inr (acc, tokenID, nextNonce, quantity, dctData), w1) ->
     (forall err w2,
        persist core e vi acc tokenID (keyPrefix e ++ tokenID) nextNonce
          quantity dctData w1 = (inl err, w2) ->
        process vi w = (inl err, w2)) /\
     (forall w2,
        persist core e vi acc tokenID (keyPrefix e ++ tokenID) nextNonce
          quantity dctData w1 = (inr tt, w2) ->
        exists out,
          process vi w = (inr out, w2) /\
          ReturnCode out = vmcommon.Ok /\
          ReturnData out = [big.Bytes nextNonce] /\
          GasRemaining out = wrap64 (GasProvided vi - gasToUse e vi) /\
          (forall failure,
             Marshal (marshaller e) dctData = inl failure ->
             Logs out =
             [ {| Identifier := BuiltInFunctionDCTNFTCreate core;
                  LogTokenID := tokenID;
                  LogNonce := nextNonce;
                  LogQuantity := quantity;
                  Address := CallerAddr vi;
                  Payload := [] |} ]))).
Proof.
  split.
  - intros err w1 Ev. rewrite process_validate. unfold bind at 1.
    rewrite Ev. reflexivity.
  - intros acc tokenID nn q d w1 Ev. split.
    + intros err w2 Ep. rewrite process_validate. unfold bind at 1.
      rewrite Ev. unfold bind at 1. rewrite Ep. reflexivity.
    + intros w2 Ep. eexists. split.
      * rewrite process_validate. unfold bind at 1. rewrite Ev.
        unfold bind at 1. rewrite Ep. reflexivity.
      * cbn [output addDCTEntryInVMOutput ReturnCode ReturnData GasRemaining
             Logs app].
        repeat split. intros failure Hm. rewrite Hm. reflexivity.
Qed.

(** C10.  The nonce is a 64-bit unsigned integer.  The stored nonce bytes
    are decoded to their big-endian value reduced modulo 2^64, so that of a
    stored value longer than 8 bytes only the last 8 bytes count; and the
    next nonce, returned and written by a call that succeeds, is that value
    plus 1 reduced modulo 2^64. *)
Theorem C10_nonce_is_64_bit :
  (forall (acnt : Acct) tokenID data,
     RetrieveValue (getNonceKey core tokenID) acnt = inr data ->
     getLatestNonce core acnt tokenID = inr (big.SetBytes data mod 2 ^ 64)) /\
  (forall hi lo : bytes,
     List.length lo = 8%nat ->
     big.SetBytes (hi ++ lo) mod 2 ^ 64 = big.SetBytes lo) /\
  (forall vi (w w' : World Acct Store) out,
     process vi w = (inr out, w') ->
     exists tokenID acnt nonce,
       nth_error (Arguments vi) 0 = Some tokenID /\
       resolvedAccount e vi w = Some acnt /\
       getLatestNonce core acnt tokenID = inr nonce /\
       ReturnData out = [big.Bytes ((nonce + 1) mod 2 ^ 64)] /\
       In (CallSaveKeyValue (resolvedRef vi) (getNonceKey core tokenID)
             (big.Bytes ((nonce + 1) mod 2 ^ 64))) (calls w')).
Proof.
  split; [|split].
  - intros acnt tokenID data Hr. unfold getLatestNonce. rewrite Hr.
    destruct (Z.eqb_spec (len data) 0) as [Hz|Hz].
    + apply len_zero_nil in Hz. subst data. reflexivity.
    + reflexivity.
  - apply SetBytes_low64.
  - intros vi w w' out E.
    apply process_effects in E
      as (uris & nonce & w1 & roy & tokenID & q & d & acnt & acnt' & s2
          & _ & Et & Hra & En & _ & Hcalls & _ & _ & ->).
    exists tokenID, acnt, nonce. repeat split; auto.
    rewrite Hcalls. apply in_or_app. right. apply in_or_app. left.
    cbn. auto.
Qed.

End Claims.

(** ** The properties on the test doubles *)

Lemma bytes_Equal_refl (a : bytes) : bytes_Equal a a = true.
Proof.
  unfold bytes_Equal. destruct (bytes_eq_dec a a); [reflexivity | congruence].
Qed.

(** The account of the test doubles returns what it was given. *)
Lemma Mock_retrieve_saved (k v : bytes) (a a' : Mock.Account) :
  SaveKeyValue k v a = (None, a') -> RetrieveValue k a' = inr v.
Proof.
  cbn. intros E. injection E as <-. cbn. rewrite bytes_Equal_refl.
  reflexivity.
Qed.

(** The basic check of the test doubles does not look at the gas. *)
Lemma Mock_checkBasic_withGas (vi : ContractCallInput) (g : Z) :
  Mock.checkBasic (withGas vi g) = Mock.checkBasic vi.
Proof. reflexivity. Qed.

Lemma example_run :
  Mock.run Mock.exampleHandler Mock.exampleCall Mock.exampleWorld
  = (inr Mock.exampleOutput, Mock.exampleAfter).
Proof. vm_compute. reflexivity. Qed.

Lemma resolved_run :
  Mock.run Mock.exampleHandler Mock.resolvedExample Mock.resolvedWorld
  = (inr Mock.resolvedOutput, Mock.resolvedAfter).
Proof. vm_compute. reflexivity. Qed.

(** C1 on the example call: the prior nonce is 0, the payload encodes 1, 1
    is written under the nonce key of the token, and a lookup gives 1. *)
Lemma C1_witness :
  Mock.run Mock.exampleHandler Mock.exampleCall Mock.exampleWorld
  = (inr Mock.exampleOutput, Mock.exampleAfter) /\
  exists tokenID acnt acnt' priorNonce,
    nth_error (Arguments Mock.exampleCall) 0 = Some tokenID /\
    resolvedAccount Mock.exampleHandler Mock.exampleCall Mock.exampleWorld
      = Some acnt /\
    getLatestNonce Mock.core acnt tokenID = inr priorNonce /\
    (RetrieveValue (getNonceKey Mock.core tokenID) acnt = inr [] ->
     priorNonce = 0) /\
    ReturnData Mock.exampleOutput = [big.Bytes (wrap64 (priorNonce + 1))] /\
    big.SetBytes (big.Bytes (wrap64 (priorNonce + 1)))
      = wrap64 (priorNonce + 1) /\
    In (CallSaveKeyValue (resolvedRef Mock.exampleCall)
          (getNonceKey Mock.core tokenID)
          (big.Bytes (wrap64 (priorNonce + 1)))) (calls Mock.exampleAfter) /\
    object (resolvedRef Mock.exampleCall) Mock.exampleAfter = Some acnt' /\
    getLatestNonce Mock.core acnt' tokenID = inr (wrap64 (priorNonce + 1)) /\
    (priorNonce + 1 < 2 ^ 64 -> wrap64 (priorNonce + 1) = priorNonce + 1).
Proof.
  split.
  - vm_compute. reflexivity.
  - apply (C1_nonce_increment Mock.core Mock.checkBasic Mock.exampleHandler
             Mock.exampleCall Mock.exampleWorld).
    + exact Mock_retrieve_saved.
    + vm_compute. reflexivity.
Defined.

(** The claim C1 as stated fails at the last nonce: with 2^64 - 1 stored the
    call succeeds, its payload is empty (it encodes 0, not 2^64) and a lookup
    of the nonce afterwards gives 0. *)
Lemma C1_counterexample :
  getLatestNonce Mock.core (Mock.accountOf Mock.alice Mock.maxNonceData)
    Mock.token = inr (2 ^ 64 - 1) /\
  exists out w' acnt',
    Mock.run Mock.exampleHandler Mock.exampleCall
      (Mock.worldOf Mock.maxNonceData) = (inr out, w') /\
    ReturnData out = [[]] /\
    ReturnData out <> [big.Bytes (2 ^ 64 - 1 + 1)] /\
    sndObj w' = Some acnt' /\
    getLatestNonce Mock.core acnt' Mock.token = inr 0 /\
    inr 0 <> (inr (2 ^ 64 - 1 + 1) : Error + Z).
Proof.
  split; [vm_compute; reflexivity|].
  eexists _, _, _.
  split; [vm_compute; reflexivity|].
  split; [reflexivity|].
  split; [vm_compute; discriminate|].
  split; [reflexivity|].
  split; [vm_compute; reflexivity|].
  discriminate.
Qed.

(** C3 on the example call resolved to [bob] with royalties of 10001: the
    account of [bob] has been loaded when the royalties are refused, and
    nothing has been changed. *)
Lemma C3_witness :
  Mock.run Mock.exampleHandler
    (Mock.resolvedCall (Mock.createArgs [x01] [x27; x11] ++ [Mock.bob]) 100)
    Mock.resolvedWorld
  = (inl (Errorf "%w, invalid max royality value" ErrInvalidArguments),
     mkWorld (store Mock.resolvedWorld) (sndObj Mock.resolvedWorld)
       (Some (Mock.accountOf Mock.bob [x05])) []) /\
  unmutated Mock.exampleHandler Mock.resolvedWorld
    (mkWorld (store Mock.resolvedWorld) (sndObj Mock.resolvedWorld)
       (Some (Mock.accountOf Mock.bob [x05])) []) /\
  calls (mkWorld (store Mock.resolvedWorld) (sndObj Mock.resolvedWorld)
           (Some (Mock.accountOf Mock.bob [x05])) [])
  = calls Mock.resolvedWorld /\
  store (mkWorld (store Mock.resolvedWorld) (sndObj Mock.resolvedWorld)
           (Some (Mock.accountOf Mock.bob [x05])) [])
  = store Mock.resolvedWorld /\
  sndObj (mkWorld (store Mock.resolvedWorld) (sndObj Mock.resolvedWorld)
            (Some (Mock.accountOf Mock.bob [x05])) [])
  = sndObj Mock.resolvedWorld.
Proof.
  apply (C3_validation_failure_mutates_nothing Mock.core Mock.checkBasic
           Mock.exampleHandler
           (Mock.resolvedCall
              (Mock.createArgs [x01] [x27; x11] ++ [Mock.bob]) 100)
           Mock.resolvedWorld).
  vm_compute. reflexivity.
Defined.

(** C2 on the example call: 16 bytes of arguments at 2 per byte plus the
    base cost of 10 is 42; on exactly 42 the call succeeds with nothing left,
    on 41 it fails for its gas and the account is as before. *)
Lemma C2_witness :
  gasToUse Mock.exampleHandler Mock.exampleCall = 42 /\
  sumLengths (Arguments Mock.exampleCall) * 2 + 10 = 42 /\
  GasProvided Mock.exampleCall - GasRemaining Mock.exampleOutput = 42 /\
  (exists out0,
     Mock.run Mock.exampleHandler (withGas Mock.exampleCall 42)
       Mock.exampleWorld = (inr out0, Mock.exampleAfter) /\
     ReturnCode out0 = vmcommon.Ok /\ GasRemaining out0 = 0) /\
  (exists w1,
     Mock.run Mock.exampleHandler (withGas Mock.exampleCall 41)
       Mock.exampleWorld = (inl ErrNotEnoughGas, w1) /\
     unmutated Mock.exampleHandler Mock.exampleWorld w1 /\
     resolvedAccount Mock.exampleHandler Mock.exampleCall w1
     = resolvedAccount Mock.exampleHandler Mock.exampleCall Mock.exampleWorld).
Proof.
  assert (Hg : gasToUse Mock.exampleHandler Mock.exampleCall = 42)
    by (vm_compute; reflexivity).
  destruct (C2_gas_charged Mock.core Mock.checkBasic Mock.exampleHandler
              Mock.exampleCall Mock.exampleWorld
              (Mock_checkBasic_withGas Mock.exampleCall)
              ltac:(vm_compute; split; [discriminate | reflexivity])
              example_run)
    as (_ & Hcharged & Hexact & Hless).
  split; [exact Hg|]. split; [vm_compute; reflexivity|].
  split; [rewrite <- Hg; exact Hcharged|].
  split.
  - destruct Hexact as (_ & Hrun).
    + vm_compute. discriminate.
    + vm_compute. discriminate.
    + vm_compute. reflexivity.
    + rewrite Hg in Hrun. exact Hrun.
  - rewrite Hg in Hless. apply Hless. lia.
Defined.

(** The claim C2 as stated fails when the product leaves 64 bits: at a
    per-byte cost of 2^63 the 16 bytes of the example call cost 0 in the
    handler, where the formula gives 2^67; the call succeeds on 5 units of
    gas and charges nothing. *)
Lemma C2_counterexample :
  exists out w',
    Mock.run (Mock.handler Mock.marshalOk 0 (2 ^ 63))
      (Mock.directCall (Mock.createArgs [x01] [x64]) 5) Mock.exampleWorld
    = (inr out, w') /\
    5 - GasRemaining out = 0 /\
    sumLengths (Mock.createArgs [x01] [x64]) * 2 ^ 63 + 0 = 2 ^ 67 /\
    5 - GasRemaining out
    <> sumLengths (Mock.createArgs [x01] [x64]) * 2 ^ 63 + 0.
Proof.
  eexists _, _.
  split; [vm_compute; reflexivity|].
  split; [reflexivity|].
  split; [vm_compute; reflexivity|].
  vm_compute. discriminate.
Qed.

(** C4: the royalties are compared after they have been cut to 32 bits.
    Argument 3 encoding 2^32 = 4294967296, which exceeds 10000, is accepted:
    the call succeeds and the unit is saved with royalties 0.  At the
    boundary the check is as documented: 10000 is accepted, 10001 is rejected
    with invalid-arguments. *)
Theorem C4_royalties_cut_to_32_bits :
  big.SetBytes [x01; x00; x00; x00; x00] = 4294967296 /\
  (exists out w' d md,
     Mock.run Mock.exampleHandler
       (Mock.directCall (Mock.createArgs [x01] [x01; x00; x00; x00; x00]) 100)
       Mock.exampleWorld = (inr out, w') /\
     savedTokens (calls w') = [d] /\
     TokenMetaData d = Some md /\ Royalties md = 0) /\
  big.SetBytes [x27; x10] = 10000 /\
  (exists out w' d md,
     Mock.run Mock.exampleHandler
       (Mock.directCall (Mock.createArgs [x01] [x27; x10]) 100)
       Mock.exampleWorld = (inr out, w') /\
     savedTokens (calls w') = [d] /\
     TokenMetaData d = Some md /\ Royalties md = 10000) /\
  big.SetBytes [x27; x11] = 10001 /\
  Mock.run Mock.exampleHandler
    (Mock.directCall (Mock.createArgs [x01] [x27; x11]) 100) Mock.exampleWorld
  = (inl (Errorf "%w, invalid max royality value" ErrInvalidArguments),
     Mock.exampleWorld).
Proof.
  split; [reflexivity|].
  split; [eexists _, _, _, _; vm_compute; repeat split; reflexivity|].
  split; [reflexivity|].
  split; [eexists _, _, _, _; vm_compute; repeat split; reflexivity|].
  split; [reflexivity|].
  vm_compute. reflexivity.
Qed.




(** C6 on five calls, all with the arguments of the example call but for
    the quantity: quantity 0 by an account that holds no role, refused for
    the creation role; quantity 0 by an account that holds both roles,
    refused as an invalid argument; quantity 2 by an account that holds the
    creation role only, refused for the add-quantity role; quantity 2
    written on 33 bytes by an account that holds both roles, refused as an
    invalid argument; and quantity 2 by an account that holds both roles,
    which goes on to save a unit of value 2. *)
Lemma C6_witness :
  (Mock.run Mock.exampleHandler
     (Mock.directCall (Mock.createArgs [x00] [x64]) 100) Mock.noRolesWorld
   = (inl Mock.errNotAllowed, Mock.noRolesWorld)) /\
  (exists err w',
     Mock.run Mock.exampleHandler
       (Mock.directCall (Mock.createArgs [x00] [x64]) 100) Mock.exampleWorld
     = (inl err, w') /\
     unmutated Mock.exampleHandler Mock.exampleWorld w') /\
  (exists err,
     Mock.run Mock.exampleHandler
       (Mock.directCall (Mock.createArgs [x00] [x64]) 100) Mock.exampleWorld
     = (inl err, Mock.exampleWorld) /\
     errors_Is err ErrInvalidArguments = true) /\
  (Mock.run Mock.exampleHandler
     (Mock.directCall (Mock.createArgs [x02] [x64]) 100) Mock.creatorOnlyWorld
   = (inl Mock.errNotAllowed, Mock.creatorOnlyWorld)) /\
  (exists err,
     Mock.run Mock.exampleHandler
       (Mock.directCall (Mock.createArgs Mock.paddedTwo [x64]) 200)
       Mock.exampleWorld
     = (inl err, Mock.exampleWorld) /\
     errors_Is err ErrInvalidArguments = true) /\
  (exists dctData,
     Value dctData = 2 /\
     Mock.run Mock.exampleHandler
       (Mock.directCall (Mock.createArgs [x02] [x64]) 100) Mock.exampleWorld
     = (persist Mock.core Mock.exampleHandler
          (Mock.directCall (Mock.createArgs [x02] [x64]) 100) RefSnd
          Mock.token (keyPrefix Mock.exampleHandler ++ Mock.token) 1 2
          dctData ;;;
        ret (output Mock.core Mock.exampleHandler
               (Mock.directCall (Mock.createArgs [x02] [x64]) 100)
               Mock.token 1 2 dctData)) Mock.exampleWorld).
Proof.
  destruct (C6_quantity_checks Mock.core Mock.checkBasic Mock.exampleHandler
              (Mock.directCall (Mock.createArgs [x00] [x64]) 100)
              Mock.noRolesWorld (arg1:=[x00]) eq_refl)
    as (Hrole & _).
  destruct (C6_quantity_checks Mock.core Mock.checkBasic Mock.exampleHandler
              (Mock.directCall (Mock.createArgs [x00] [x64]) 100)
              Mock.exampleWorld (arg1:=[x00]) eq_refl)
    as (_ & Hzero & _).
  destruct (C6_quantity_checks Mock.core Mock.checkBasic Mock.exampleHandler
              (Mock.directCall (Mock.createArgs [x02] [x64]) 100)
              Mock.creatorOnlyWorld (arg1:=[x02]) eq_refl)
    as (_ & _ & Hdenied).
  destruct (C6_quantity_checks Mock.core Mock.checkBasic Mock.exampleHandler
              (Mock.directCall (Mock.createArgs Mock.paddedTwo [x64]) 200)
              Mock.exampleWorld (arg1:=Mock.paddedTwo) eq_refl)
    as (_ & _ & Hlong).
  destruct (C6_quantity_checks Mock.core Mock.checkBasic Mock.exampleHandler
              (Mock.directCall (Mock.createArgs [x02] [x64]) 100)
              Mock.exampleWorld (arg1:=[x02]) eq_refl)
    as (_ & _ & Hgranted).
  destruct Hzero as (Hrejected & Hinvalid); [vm_compute; discriminate|].
  split.
  { apply (Hrole RefSnd [Mock.str "u1"] Mock.noRolesWorld Mock.token
             (Mock.noRoles Mock.alice) Mock.errNotAllowed);
      vm_compute; reflexivity. }
  split; [exact Hrejected|].
  split.
  { apply (Hinvalid RefSnd [Mock.str "u1"] 0 Mock.exampleWorld 100);
      vm_compute; reflexivity. }
  split.
  { destruct (Hdenied ltac:(vm_compute; reflexivity) RefSnd [Mock.str "u1"] 0
                Mock.creatorOnlyWorld 100
                ltac:(vm_compute; reflexivity)
                ltac:(vm_compute; reflexivity)
                ltac:(vm_compute; reflexivity))
      as (tokenID & acnt & Ht & Ha & Hno & _).
    injection Ht as <-. injection Ha as <-.
    apply Hno. vm_compute. reflexivity. }
  split.
  { destruct (Hlong ltac:(vm_compute; reflexivity) RefSnd [Mock.str "u1"] 0
                Mock.exampleWorld 100
                ltac:(vm_compute; reflexivity)
                ltac:(vm_compute; reflexivity)
                ltac:(vm_compute; reflexivity))
      as (tokenID & acnt & Ht & Ha & _ & Hyes).
    injection Ht as <-. injection Ha as <-.
    destruct Hyes as (_ & Hrefused & _); [vm_compute; reflexivity|].
    destruct Hrefused as (err & Hrun & Herr & _);
      [reflexivity | vm_compute; reflexivity|].
    exists err. split; [exact Hrun | exact Herr]. }
  destruct (Hgranted ltac:(vm_compute; reflexivity) RefSnd [Mock.str "u1"] 0
              Mock.exampleWorld 100
              ltac:(vm_compute; reflexivity)
              ltac:(vm_compute; reflexivity)
              ltac:(vm_compute; reflexivity))
    as (tokenID & acnt & Ht & Ha & _ & Hyes).
  injection Ht as <-. injection Ha as <-.
  destruct Hyes as (_ & _ & Hbuilt); [vm_compute; reflexivity|].
  destruct Hbuilt as (dctData & _ & Hvalue & Hrun);
    [right; vm_compute; discriminate|].
  exists dctData. split; [exact Hvalue | exact Hrun].
Defined.

(** The claim C6 as stated fails on two calls with the arguments of the
    example call but for the quantity.  With quantity 0, by an account that
    holds no role for the token, the call is rejected with the role
    authority's denial, which is not invalid-arguments: the creation role is
    checked before the quantity.  With quantity 2 written on 33 bytes, by an
    account that holds the creation role and the add-quantity role, the
    call is not accepted: the length check refuses it. *)
Lemma C6_counterexample :
  big.SetBytes [x00] = 0 /\
  Mock.run Mock.exampleHandler
    (Mock.directCall (Mock.createArgs [x00] [x64]) 100) Mock.noRolesWorld
  = (inl Mock.errNotAllowed, Mock.noRolesWorld) /\
  errors_Is Mock.errNotAllowed ErrInvalidArguments = false /\
  big.SetBytes Mock.paddedTwo = 2 /\
  CheckAllowedToExecute Mock.roleAuthority (Mock.accountOf Mock.alice [])
    Mock.token (DCTRoleNFTAddQuantity Mock.core) = None /\
  Mock.run Mock.exampleHandler
    (Mock.directCall (Mock.createArgs Mock.paddedTwo [x64]) 200)
    Mock.exampleWorld
  = (inl (Errorf "%w max length for quantity in nft create is %d"
            ErrInvalidArguments), Mock.exampleWorld).
Proof.
  split; [reflexivity|].
  split; [vm_compute; reflexivity|].
  split; [reflexivity|].
  split; [vm_compute; reflexivity|].
  split; [vm_compute; reflexivity|].
  vm_compute. reflexivity.
Qed.

(** C7 on the example call resolved to [alice], the caller herself, and
    resolved to [bob], whose stored nonce is 5: the unit is saved with [bob]
    as its owner, and a lookup of the nonce on the account the call ends
    with gives 6. *)
Lemma C7_witness :
  (Mock.run Mock.exampleHandler
     (Mock.resolvedCall (Mock.createArgs [x01] [x64] ++ [Mock.alice]) 100)
     Mock.resolvedWorld
   = (inl ErrInvalidRcvAddr, Mock.resolvedWorld)) /\
  (exists acnt a1 s1 acnt' tokenID nonce quantity dctData s2,
     Mock.bob <> CallerAddr Mock.resolvedExample /\
     LoadAccount (accounts Mock.exampleHandler) Mock.bob
       (store Mock.resolvedWorld) = inr (UserAccount acnt) /\
     getLatestNonce Mock.core acnt tokenID = inr nonce /\
     SaveDCTNFTToken (dctStorageHandler Mock.exampleHandler)
       (AddressBytes acnt) acnt (keyPrefix Mock.exampleHandler ++ tokenID)
       (wrap64 (nonce + 1)) dctData true
       (ReturnCallAfterError Mock.resolvedExample) (store Mock.resolvedWorld)
     = (None, (a1, s1)) /\
     AddToLiquiditySystemAcc (dctStorageHandler Mock.exampleHandler)
       (keyPrefix Mock.exampleHandler ++ tokenID) (wrap64 (nonce + 1))
       quantity s1 = (None, s2) /\
     saveLatestNonce Mock.core a1 tokenID (wrap64 (nonce + 1))
     = (None, acnt') /\
     SaveAccount (accounts Mock.exampleHandler) acnt' s2
     = (None, store Mock.resolvedAfter) /\
     loadedObj Mock.resolvedAfter = Some acnt' /\
     getLatestNonce Mock.core acnt' tokenID = inr (wrap64 (nonce + 1)) /\
     calls Mock.resolvedAfter =
       calls Mock.resolvedWorld ++
       [CallSaveDCTNFTToken RefLoaded (AddressBytes acnt)
          (keyPrefix Mock.exampleHandler ++ tokenID) (wrap64 (nonce + 1))
          dctData true (ReturnCallAfterError Mock.resolvedExample);
        CallAddToLiquiditySystemAcc (keyPrefix Mock.exampleHandler ++ tokenID)
          (wrap64 (nonce + 1)) quantity;
        CallSaveKeyValue RefLoaded (getNonceKey Mock.core tokenID)
          (big.Bytes (wrap64 (nonce + 1)));
        CallSaveAccount RefLoaded] /\
     sndObj Mock.resolvedAfter = sndObj Mock.resolvedWorld).
Proof.
  split.
  - destruct (C7_resolved_target Mock.core Mock.checkBasic Mock.exampleHandler
                (Mock.resolvedCall
                   (Mock.createArgs [x01] [x64] ++ [Mock.alice]) 100)
                Mock.resolvedWorld (target:=Mock.alice) eq_refl eq_refl)
      as (Hrejected & _).
    destruct (Hrejected (or_introl eq_refl)) as (err & Hrun & Herr).
    unfold Mock.run. rewrite Hrun.
    rewrite Herr; [reflexivity | vm_compute; reflexivity
                   | vm_compute; reflexivity].
  - destruct (C7_resolved_target Mock.core Mock.checkBasic Mock.exampleHandler
                Mock.resolvedExample Mock.resolvedWorld (target:=Mock.bob)
                eq_refl eq_refl)
      as (_ & Hsuccess).
    destruct (Hsuccess Mock.resolvedOutput Mock.resolvedAfter resolved_run)
      as (acnt & a1 & s1 & acnt' & tokenID & nonce & quantity & dctData & s2
          & Hne & Hload & Hnonce & Htok & Hliq & Hkv & Hsave & Hobj & Hread
          & Hcalls & Hsnd).
    exists acnt, a1, s1, acnt', tokenID, nonce, quantity, dctData, s2.
    split; [exact Hne|]. split; [exact Hload|]. split; [exact Hnonce|].
    split; [exact Htok|]. split; [exact Hliq|]. split; [exact Hkv|].
    split; [exact Hsave|]. split; [exact Hobj|].
    split; [exact (Hread Mock_retrieve_saved)|].
    split; [exact Hcalls | exact Hsnd].
Defined.


(** C9 on the example call with a marshaller that fails. *)
Lemma C9_witness :
  exists out w2,
    Mock.run (Mock.handler Mock.marshalFails 10 2) Mock.exampleCall
      Mock.exampleWorld = (inr out, w2) /\
    ReturnCode out = vmcommon.Ok /\
    ReturnData out = [[x01]] /\
    GasRemaining out = 58 /\
    Logs out =
    [ {| Identifier := BuiltInFunctionDCTNFTCreate Mock.core;
         LogTokenID := Mock.token;
         LogNonce := 1;
         LogQuantity := 1;
         Address := Mock.alice;
         Payload := [] |} ].
Proof.
  destruct (C9_marshal_failure_is_not_fatal Mock.core Mock.checkBasic
              (Mock.handler Mock.marshalFails 10 2) Mock.exampleCall
              Mock.exampleWorld)
    as (_ & Hvalid).
  edestruct Hvalid as (_ & Hsuccess).
  { vm_compute. reflexivity. }
  edestruct Hsuccess as (out & Hrun & Hcode & Hdata & Hgas & Hlogs).
  { vm_compute. reflexivity. }
  exists out. eexists. split; [exact Hrun|].
  split; [exact Hcode|].
  split; [exact Hdata|].
  split; [exact Hgas|].
  apply (Hlogs Mock.errMarshal). reflexivity.
Defined.

(** C10 on a stored nonce of nine bytes, 2^64, which reads as 0, and on the
    example call at the last nonce, whose next nonce is 0. *)
Lemma C10_witness :
  getLatestNonce Mock.core
    (Mock.accountOf Mock.alice [x01; x00; x00; x00; x00; x00; x00; x00; x00])
    Mock.token
  = inr (big.SetBytes [x01; x00; x00; x00; x00; x00; x00; x00; x00]
         mod 2 ^ 64) /\
  big.SetBytes ([x01; x02] ++ Mock.maxNonceData) mod 2 ^ 64
  = big.SetBytes Mock.maxNonceData /\
  (exists out w' tokenID acnt nonce,
     Mock.run Mock.exampleHandler Mock.exampleCall
       (Mock.worldOf Mock.maxNonceData) = (inr out, w') /\
     nth_error (Arguments Mock.exampleCall) 0 = Some tokenID /\
     resolvedAccount Mock.exampleHandler Mock.exampleCall
       (Mock.worldOf Mock.maxNonceData) = Some acnt /\
     getLatestNonce Mock.core acnt tokenID = inr nonce /\
     ReturnData out = [big.Bytes ((nonce + 1) mod 2 ^ 64)] /\
     In (CallSaveKeyValue (resolvedRef Mock.exampleCall)
           (getNonceKey Mock.core tokenID)
           (big.Bytes ((nonce + 1) mod 2 ^ 64))) (calls w')).
Proof.
  destruct (C10_nonce_is_64_bit Mock.core Mock.checkBasic Mock.exampleHandler)
    as (Hread & Hlow & Hnext).
  split; [apply Hread; reflexivity|].
  split; [apply Hlow; reflexivity|].
  eexists _, _.
  eassert (Hrun : Mock.run Mock.exampleHandler Mock.exampleCall
                    (Mock.worldOf Mock.maxNonceData) = (inr _, _))
    by (vm_compute; reflexivity).
  destruct (Hnext _ _ _ _ Hrun) as (tokenID & acnt & nonce & H).
  exists tokenID, acnt, nonce. split; [exact Hrun | exact H].
Defined.

(** ** Token keys *)

Lemma Bytes_go_length (fuel : nat) : forall (x : Z) (k : nat),
  0 <= x < 256 ^ Z.of_nat k ->
  (List.length (big.Bytes_go fuel x []) <= k)%nat.
Proof.
  induction fuel as [|fuel IH]; intros x k Hx; cbn [big.Bytes_go].
  - cbn. lia.
  - destruct (Z.eqb_spec x 0) as [->|Hne]; [cbn; lia|].
    destruct k as [|k]; [cbn in Hx; lia|].
    rewrite Bytes_go_acc, length_app. cbn [List.length].
    rewrite Nat2Z.inj_succ, Z.pow_succ_r in Hx by lia.
    assert (0 < 256 ^ Z.of_nat k) by (apply Z.pow_pos_nonneg; lia).
    specialize (IH (x / 256) k).
    assert (0 <= x / 256 < 256 ^ Z.of_nat k).
    { split; [apply Z.div_pos; lia|]. apply Z.div_lt_upper_bound; lia. }
    apply IH in H0. lia.
Qed.

Lemma Bytes_uint64_length (n : Z) :
  0 <= n < 2 ^ 64 -> (List.length (big.Bytes n) <= 8)%nat.
Proof.
  intros Hn. unfold big.Bytes. rewrite Z.abs_eq by lia.
  apply Bytes_go_length. change (256 ^ Z.of_nat 8) with (2 ^ 64). exact Hn.
Qed.

Lemma Bytes_inj (x y : Z) : 0 <= x -> 0 <= y -> big.Bytes x = big.Bytes y -> x = y.
Proof.
  intros Hx Hy E. apply (f_equal big.SetBytes) in E.
  rewrite !SetBytes_Bytes in E by assumption. exact E.
Qed.

(** X1.  For one token key the key of a unit determines its nonce: two
    nonces that give the same key are the same nonce, and the nonce is read
    back from the key as the big-endian value of what follows the token
    key. *)
Theorem computeDCTNFTTokenKey_determines_nonce (dctTokenKey : bytes)
    (n1 n2 : Z) :
  0 <= n1 -> 0 <= n2 ->
  (computeDCTNFTTokenKey dctTokenKey n1 = computeDCTNFTTokenKey dctTokenKey n2
   -> n1 = n2) /\
  big.SetBytes
    (skipn (List.length dctTokenKey) (computeDCTNFTTokenKey dctTokenKey n1))
  = n1.
Proof.
  intros H1 H2. unfold computeDCTNFTTokenKey, big.SetUint64. split.
  - intros E. apply app_inv_head in E. apply Bytes_inj; assumption.
  - rewrite skipn_app, skipn_all, Nat.sub_diag. cbn [skipn app].
    apply SetBytes_Bytes. exact H1.
Qed.

(** X2.  The key of a unit is at most 8 bytes longer than the token key, and
    it is the token key itself exactly for nonce 0, whose encoding is empty;
    so the unit of nonce [n] of a token and the unit of nonce 0 of the token
    whose key is longer by the encoding of [n] share one key. *)
Theorem computeDCTNFTTokenKey_nonce_zero (dctTokenKey : bytes) (n : Z) :
  0 <= n < 2 ^ 64 ->
  (List.length (computeDCTNFTTokenKey dctTokenKey n)
   <= List.length dctTokenKey + 8)%nat /\
  (computeDCTNFTTokenKey dctTokenKey n = dctTokenKey <-> n = 0) /\
  computeDCTNFTTokenKey (computeDCTNFTTokenKey dctTokenKey n) 0
  = computeDCTNFTTokenKey dctTokenKey n.
Proof.
  intros Hn. unfold computeDCTNFTTokenKey, big.SetUint64.
  split; [|split].
  - rewrite length_app. pose proof (Bytes_uint64_length Hn). lia.
  - split.
    + intros E. rewrite <- (app_nil_r dctTokenKey) in E at 2.
      apply app_inv_head in E. apply Bytes_inj; [lia | lia | exact E].
    + intros ->. apply app_nil_r.
  - rewrite Bytes_zero. apply app_nil_r.
Qed.

(** ** The nonce ledger *)

Section LedgerFacts.

Context {Acct : Type} {UAH : UserAccountHandler Acct}.
Variable core : Constants.

Lemma getNonceKey_inj (t1 t2 : bytes) :
  getNonceKey core t1 = getNonceKey core t2 -> t1 = t2.
Proof. unfold getNonceKey. apply app_inv_head. Qed.

(** X3.  On an account data store that returns under a key what was last
    saved under it and keeps the other keys, saving a nonce for a token and
    looking it up gives the nonce back, for every 64-bit nonce (0 is saved
    as the empty byte string and read back as 0), and the nonces of the
    other tokens of the account are what they were. *)
Theorem nonce_ledger_round_trip (acnt acnt' : Acct) (tokenID : bytes)
    (nonce : Z) :
  (forall k v (a a' : Acct),
      SaveKeyValue k v a = (None, a') -> RetrieveValue k a' = inr v) ->
  (forall k k' v (a a' : Acct),
      k <> k' -> SaveKeyValue k v a = (None, a') ->
      RetrieveValue k' a' = RetrieveValue k' a) ->
  0 <= nonce < 2 ^ 64 ->
  saveLatestNonce core acnt tokenID nonce = (None, acnt') ->
  getLatestNonce core acnt' tokenID = inr nonce /\
  forall other,
    other <> tokenID ->
    getLatestNonce core acnt' other = getLatestNonce core acnt other.
Proof.
  intros Hsame Hother Hn Es. split.
  - eapply getLatestNonce_saved; eassumption.
  - intros other Hne. unfold saveLatestNonce in Es. unfold getLatestNonce.
    erewrite Hother; [reflexivity | | exact Es].
    intros E. apply getNonceKey_inj in E. congruence.
Qed.

End LedgerFacts.

(** ** More on the call *)

Section CallFacts.

Context {Acct Store : Type} {UAH : UserAccountHandler Acct}.
Variable core : Constants.
Variable checkBasicDCTArguments : ContractCallInput -> option Error.
Variable e : dctNFTCreate Acct Store.

Local Notation "'process'" :=
  (ProcessBuiltinFunction core checkBasicDCTArguments e) (only parsing).

Lemma skipn_last {A : Type} (l : list A) : forall (i : nat) (x : A),
  nth_error l i = Some x -> S i = List.length l -> skipn i l = [x].
Proof.
  induction l as [|a l IH]; intros i x Hn Hl.
  - discriminate.
  - destruct i as [|i]; cbn in *.
    + injection Hn as <-. destruct l; [reflexivity | discriminate].
    + apply IH; [exact Hn | lia].
Qed.



(** After a call that succeeds the resolved account holds the new nonce. *)
Lemma process_nonce_after vi (w w' : World Acct Store) out :
  (forall k v (a a' : Acct),
      SaveKeyValue k v a = (None, a') -> RetrieveValue k a' = inr v) ->
  process vi w = (inr out, w') ->
  exists tokenID acnt acnt' nonce,
    nth_error (Arguments vi) 0 = Some tokenID /\
    resolvedAccount e vi w = Some acnt /\
    getLatestNonce core acnt tokenID = inr nonce /\
    ReturnData out = [big.Bytes (wrap64 (nonce + 1))] /\
    object (resolvedRef vi) w' = Some acnt' /\
    getLatestNonce core acnt' tokenID = inr (wrap64 (nonce + 1)).
Proof.
  intros Hlaw E.
  apply process_ok in E
    as (acc & uris & nonce & w1 & roy & tokenID & q & d
        & Ea & _ & _ & Et & _ & _ & _ & Ep & ->).
  apply authorize_ok in Ea as (_ & _ & Er & tok' & acnt & Et' & Ho & _ & En).
  rewrite Et in Et'. injection Et' as <-.
  apply resolve_resolved in Er as (-> & Hra & _).
  apply persist_ok in Ep
    as (a & a1 & s1 & s2 & a2 & s3 & _ & _ & _ & Hs & _ & Ha2 & _).
  exists tokenID, acnt, a2, nonce.
  split; [exact Et|]. split; [congruence|]. split; [exact En|].
  split; [reflexivity|]. split; [exact Ha2|].
  eapply getLatestNonce_saved; [exact Hlaw | apply wrap64_range | exact Hs].
Qed.

(** X4.  Two direct calls for the same token that succeed one after the
    other return two consecutive nonces: the second returns the first plus
    one (modulo 2^64), and the two differ.  (The account data store returns
    what was saved.) *)
Theorem successive_calls_consecutive_nonces (vi1 vi2 : ContractCallInput)
    (w w1 w2 : World Acct Store) (out1 out2 : VMOutput) (tokenID : bytes) :
  (forall k v (a a' : Acct),
      SaveKeyValue k v a = (None, a') -> RetrieveValue k a' = inr v) ->
  CallType vi1 = vm.DirectCall -> CallType vi2 = vm.DirectCall ->
  nth_error (Arguments vi1) 0 = Some tokenID ->
  nth_error (Arguments vi2) 0 = Some tokenID ->
  process vi1 w = (inr out1, w1) ->
  process vi2 w1 = (inr out2, w2) ->
  exists first,
    0 <= first < 2 ^ 64 /\
    ReturnData out1 = [big.Bytes first] /\
    ReturnData out2 = [big.Bytes (wrap64 (first + 1))] /\
    wrap64 (first + 1) <> first.
Proof.
  intros Hlaw Hd1 Hd2 Ht1 Ht2 E1 E2.
  eapply process_nonce_after in E1; [|exact Hlaw].
  eapply process_nonce_after in E2; [|exact Hlaw].
  destruct E1 as (t1 & a1 & a1' & n1 & Ht1' & _ & _ & Hr1 & Ho1 & Hn1).
  destruct E2 as (t2 & a2 & a2' & n2 & Ht2' & Hra2 & Hn2 & Hr2 & _).
  rewrite Ht1 in Ht1'. injection Ht1' as <-.
  rewrite Ht2 in Ht2'. injection Ht2' as <-.
  unfold resolvedRef in Ho1. unfold resolvedAccount in Hra2.
  rewrite Hd1 in Ho1. rewrite Hd2 in Hra2. cbn [vm.eqb object] in *.
  rewrite Ho1 in Hra2. injection Hra2 as <-.
  rewrite Hn1 in Hn2. injection Hn2 as <-.
  pose proof (wrap64_range (n1 + 1)) as Hr.
  exists (wrap64 (n1 + 1)). split; [exact Hr|].
  split; [exact Hr1|]. split; [exact Hr2|].
  set (f := wrap64 (n1 + 1)) in *. unfold wrap64.
  destruct (Z.eq_dec f (2 ^ 64 - 1)) as [->|Hne].
  - vm_compute. discriminate.
  - rewrite Z.mod_small by lia. lia.
Qed.

(** X5.  In a call that succeeds one nonce and one quantity run through
    everything it does: the nonce it returns is the nonce of the metadata of
    the unit, the nonce under which the storage handler saved the unit and
    added the liquidity, and the nonce that [saveLatestNonce] wrote to the
    account the call ends with - so that, the account data handler
    returning what it was given, a lookup of the nonce on that account gives
    the returned nonce; the quantity added to the liquidity is the value of
    the unit; and the unit and the liquidity go under the same key, the key
    prefix followed by the token identifier. *)
Theorem nonce_and_quantity_agree (vi : ContractCallInput)
    (w w' : World Acct Store) (out : VMOutput) :
  process vi w = (inr out, w') ->
  exists tokenID acnt a1 s1 s2 acnt' nextNonce d md,
    nth_error (Arguments vi) 0 = Some tokenID /\
    resolvedAccount e vi w = Some acnt /\
    ReturnData out = [big.Bytes nextNonce] /\
    TokenMetaData d = Some md /\ Nonce md = nextNonce /\
    SaveDCTNFTToken (dctStorageHandler e) (AddressBytes acnt) acnt
      (keyPrefix e ++ tokenID) nextNonce d true (ReturnCallAfterError vi)
      (store w) = (None, (a1, s1)) /\
    AddToLiquiditySystemAcc (dctStorageHandler e) (keyPrefix e ++ tokenID)
      nextNonce (Value d) s1 = (None, s2) /\
    saveLatestNonce core a1 tokenID nextNonce = (None, acnt') /\
    object (resolvedRef vi) w' = Some acnt' /\
    ((forall k v (a a' : Acct),
         SaveKeyValue k v a = (None, a') -> RetrieveValue k a' = inr v) ->
     getLatestNonce core acnt' tokenID = inr nextNonce) /\
    calls w' =
      calls w ++
      mutationPlan core vi (resolvedRef vi) (AddressBytes acnt) tokenID
        (keyPrefix e ++ tokenID) nextNonce (Value d) d.
Proof.
  intros E.
  apply process_chain in E
    as (nonce & tokenID & q & d & md & acnt & a1 & s1 & s2 & acnt'
        & Et & Hra & _ & Hmd & Hn & Hv & Htok & Hliq & Hkv & _ & Ho & Hc
        & ->).
  exists tokenID, acnt, a1, s1, s2, acnt', (wrap64 (nonce + 1)), d, md.
  subst q.
  split; [exact Et|]. split; [exact Hra|]. split; [reflexivity|].
  split; [exact Hmd|]. split; [exact Hn|]. split; [exact Htok|].
  split; [exact Hliq|]. split; [exact Hkv|]. split; [exact Ho|].
  split.
  { intros Hlaw.
    eapply getLatestNonce_saved; [exact Hlaw | apply wrap64_range | exact Hkv]. }
  exact Hc.
Qed.



(** X8.  A direct call that succeeds goes through the sender's account
    object only: the token is saved with it and the nonce written to it, the
    store is what the storage handler made of it (saving the token, then
    adding the liquidity), and the account adapter is not used - no account
    is loaded and none is saved. *)
Theorem direct_call_effects (vi : ContractCallInput)
    (w w' : World Acct Store) (out : VMOutput) :
  CallType vi = vm.DirectCall ->
  process vi w = (inr out, w') ->
  exists acnt acnt1 acnt' s1 tokenID nextNonce quantity d,
    sndObj w = Some acnt /\
    SaveDCTNFTToken (dctStorageHandler e) (AddressBytes acnt) acnt
      (keyPrefix e ++ tokenID) nextNonce d true (ReturnCallAfterError vi)
      (store w) = (None, (acnt1, s1)) /\
    AddToLiquiditySystemAcc (dctStorageHandler e) (keyPrefix e ++ tokenID)
      nextNonce quantity s1 = (None, store w') /\
    saveLatestNonce core acnt1 tokenID nextNonce = (None, acnt') /\
    sndObj w' = Some acnt' /\
    loadedObj w' = loadedObj w /\
    calls w' =
      calls w ++
      [CallSaveDCTNFTToken RefSnd (AddressBytes acnt) (keyPrefix e ++ tokenID)
         nextNonce d true (ReturnCallAfterError vi);
       CallAddToLiquiditySystemAcc (keyPrefix e ++ tokenID) nextNonce quantity;
       CallSaveKeyValue RefSnd (getNonceKey core tokenID)
         (big.Bytes nextNonce)].
Proof.
  intros Hd E.
  apply process_ok in E
    as (acc & uris & nonce & w1 & roy & tokenID & q & d
        & Ea & _ & _ & _ & _ & _ & _ & Ep & _).
  apply authorize_ok in Ea as (_ & _ & Er & _).
  apply resolve_ok in Er as [(_ & -> & _ & ->)|(Hc & _)]; [|congruence].
  apply persist_ok in Ep
    as (a & a1 & s1 & s2 & a2 & s3 & Ha & Hst & Hliq & Hsn & Hsa & Ha2 & Hs3
        & Hc & Hoth).
  rewrite Hd in Hsa, Hc. cbn [vm.eqb] in Hsa, Hc. subst s3.
  exists a, a1, a2, s1, tokenID, (wrap64 (nonce + 1)), q, d.
  cbn [object] in *.
  repeat split; auto;
    try (rewrite Hs3; exact Hliq);
    try (apply (Hoth RefLoaded); discriminate);
    try (rewrite Hc, app_nil_r; reflexivity).
Qed.

(** What one mutating call did, whatever it returned. *)
Lemma invoke_log c acc f (w w' : World Acct Store) r a :
  invoke c acc f w = (r, w') ->
  object acc w = Some a ->
  exists a' err,
    calls w' = calls w ++ [c a] /\
    object acc w' = Some a' /\
    r = match err with Some x => inl x | None => inr tt end /\
    (exists s', f a (store w) = (err, (a', s'))).
Proof.
  unfold invoke. intros E Ho. rewrite Ho in E.
  destruct (f a (store w)) as [err [a' s']] eqn:Ef.
  exists a', err.
  destruct err as [x|]; inversion E; subst; destruct acc; cbn;
    repeat split; eauto.
Qed.

Lemma invokeStore_log c f (w w' : World Acct Store) r :
  invokeStore c f w = (r, w') ->
  exists err,
    calls w' = calls w ++ [c] /\
    (forall x, object x w' = object x w) /\
    r = match err with Some x => inl x | None => inr tt end /\
    (exists s', f (store w) = (err, s')).
Proof.
  unfold invokeStore. intros E.
  destruct (f (store w)) as [err s'] eqn:Ef.
  exists err.
  destruct err as [x|]; inversion E; subst; cbn; repeat split; eauto.
Qed.

(** The mutating calls of [persist] are issued in the order of the plan,
    and all of them when it succeeds; an error it returns is the error of
    the last call it issued. *)
Lemma persist_log vi acc tokenID key nn q d (w1 w' : World Acct Store) r a :
  persist core e vi acc tokenID key nn q d w1 = (r, w') ->
  object acc w1 = Some a ->
  exists done rest,
    calls w' = calls w1 ++ done /\
    done <> [] /\
    done ++ rest = mutationPlan core vi acc (AddressBytes a) tokenID key nn q d
    /\ (forall u, r = inr u -> rest = []) /\
    (forall err,
       r = inl err ->
       (exists o x k n t c f s res,
          SaveDCTNFTToken (dctStorageHandler e) o x k n t c f s
          = (Some err, res)) \/
       (exists k n y s s',
          AddToLiquiditySystemAcc (dctStorageHandler e) k n y s
          = (Some err, s')) \/
       (exists k v (x x' : Acct), SaveKeyValue k v x = (Some err, x')) \/
       (exists x s s', SaveAccount (accounts e) x s = (Some err, s'))).
Proof.
  unfold persist, mutationPlan. intros E Ho.
  unfold bind at 1 in E.
  destruct (invoke _ acc _ w1) as [r1 wa] eqn:E1.
  eapply invoke_log in E1; [|exact Ho].
  destruct E1 as (a1 & err1 & Hc1 & Ho1 & -> & s1 & Hf1).
  destruct err1 as [x1|].
  { inversion E; subst. eexists _, _. split; [exact Hc1|].
    split; [discriminate|]. split; [reflexivity|].
    split; [discriminate|]. intros err Herr. injection Herr as <-.
    left. eauto 12. }
  unfold bind at 1 in E.
  destruct (invokeStore _ _ wa) as [r2 wb] eqn:E2.
  apply invokeStore_log in E2 as (err2 & Hc2 & Ho2 & -> & s2 & Hf2).
  destruct err2 as [x2|].
  { inversion E; subst. eexists _, _. split.
    - rewrite Hc2, Hc1, <- app_assoc. reflexivity.
    - split; [discriminate|]. split; [reflexivity|].
      split; [discriminate|]. intros err Herr. injection Herr as <-.
      right. left. eauto 8. }
  unfold bind at 1 in E.
  destruct (invoke _ acc _ wb) as [r3 wc] eqn:E3.
  eapply invoke_log in E3; [|rewrite Ho2; exact Ho1].
  destruct E3 as (a2 & err3 & Hc3 & Ho3 & -> & s3 & Hf3).
  unfold saveLatestNonce in Hf3.
  destruct (SaveKeyValue _ _ a1) as [err3' a2'] eqn:Ekv.
  injection Hf3 as -> -> _.
  destruct err3 as [x3|].
  { inversion E; subst. eexists _, _. split.
    - rewrite Hc3, Hc2, Hc1, <- !app_assoc. reflexivity.
    - split; [discriminate|]. split; [reflexivity|].
      split; [discriminate|]. intros err Herr. injection Herr as <-.
      right. right. left. eauto 8. }
  destruct (vm.eqb (CallType vi) vm.ExecOnDestByCaller).
  - eapply invoke_log in E; [|exact Ho3].
    destruct E as (a3 & err4 & Hc4 & Ho4 & -> & s4 & Hf4).
    destruct (SaveAccount (accounts e) a2 (store wc)) as [err4' s4'] eqn:Esa.
    injection Hf4 as -> _ _.
    exists [CallSaveDCTNFTToken acc (AddressBytes a) key nn d true
              (ReturnCallAfterError vi);
            CallAddToLiquiditySystemAcc key nn q;
            CallSaveKeyValue acc (getNonceKey core tokenID)
              (big.Bytes (big.SetUint64 nn));
            CallSaveAccount acc], [].
    split; [rewrite Hc4, Hc3, Hc2, Hc1, <- !app_assoc; reflexivity|].
    split; [discriminate|]. split; [reflexivity|].
    split; [reflexivity|].
    intros err Herr. destruct err4 as [x4|]; [|discriminate].
    injection Herr as <-. right. right. right. eauto 8.
  - inversion E; subst.
    exists [CallSaveDCTNFTToken acc (AddressBytes a) key nn d true
              (ReturnCallAfterError vi);
            CallAddToLiquiditySystemAcc key nn q;
            CallSaveKeyValue acc (getNonceKey core tokenID)
              (big.Bytes (big.SetUint64 nn))], [].
    split; [rewrite Hc3, Hc2, Hc1, <- !app_assoc; reflexivity|].
    split; [discriminate|]. split; [rewrite app_nil_r; reflexivity|].
    split; [reflexivity|]. discriminate.
Qed.

(** One mutating call in full: what the collaborator returned decides the
    result, the account object, the store and the log. *)
Lemma invoke_run c acc f (w w' : World Acct Store) r a :
  invoke c acc f w = (r, w') ->
  object acc w = Some a ->
  exists err a' s',
    f a (store w) = (err, (a', s')) /\
    r = match err with Some x => inl x | None => inr tt end /\
    calls w' = calls w ++ [c a] /\
    object acc w' = Some a' /\
    store w' = s'.
Proof.
  unfold invoke. intros E Ho. rewrite Ho in E.
  destruct (f a (store w)) as [err [a' s']] eqn:Ef.
  exists err, a', s'.
  destruct err as [x|]; inversion E; subst; destruct acc; cbn;
    repeat split; reflexivity.
Qed.

Lemma invokeStore_run c f (w w' : World Acct Store) r :
  invokeStore c f w = (r, w') ->
  exists err s',
    f (store w) = (err, s') /\
    r = match err with Some x => inl x | None => inr tt end /\
    calls w' = calls w ++ [c] /\
    (forall x, object x w' = object x w) /\
    store w' = s'.
Proof.
  unfold invokeStore. intros E.
  destruct (f (store w)) as [err s'] eqn:Ef.
  exists err, s'.
  destruct err as [x|]; inversion E; subst; cbn; repeat split; reflexivity.
Qed.

(** What [persist] does, read off what its collaborators return: the first
    error ends it, and the calls issued are those of the plan up to and
    including the one that failed. *)
Lemma persist_cases vi acc tokenID key nn q d (w1 w' : World Acct Store) r a :
  persist core e vi acc tokenID key nn q d w1 = (r, w') ->
  object acc w1 = Some a ->
  exists done,
    calls w' = calls w1 ++ done /\
    match SaveDCTNFTToken (dctStorageHandler e) (AddressBytes a) a key nn d
            true (ReturnCallAfterError vi) (store w1) with
    | (Some err, _) =>
        r = inl err /\
        done = firstn 1 (mutationPlan core vi acc (AddressBytes a) tokenID key
                           nn q d)
    | (None, (a1, s1)) =>
        match AddToLiquiditySystemAcc (dctStorageHandler e) key nn q s1 with
        | (Some err, _) =>
            r = inl err /\
            done = firstn 2 (mutationPlan core vi acc (AddressBytes a) tokenID
                               key nn q d)
        | (None, s2) =>
            match saveLatestNonce core a1 tokenID nn with
            | (Some err, _) =>
                r = inl err /\
                done = firstn 3 (mutationPlan core vi acc (AddressBytes a)
                                   tokenID key nn q d)
            | (None, a2) =>
                if vm.eqb (CallType vi) vm.ExecOnDestByCaller then
                  match SaveAccount (accounts e) a2 s2 with
                  | (Some err, _) =>
                      r = inl err /\
                      done = mutationPlan core vi acc (AddressBytes a) tokenID
                               key nn q d
                  | (None, s3) =>
                      r = inr tt /\
                      done = mutationPlan core vi acc (AddressBytes a) tokenID
                               key nn q d /\
                      store w' = s3
                  end
                else
                  r = inr tt /\
                  done = mutationPlan core vi acc (AddressBytes a) tokenID key
                           nn q d /\
                  store w' = s2
            end
        end
    end.
Proof.
  unfold persist, mutationPlan. intros E Ho.
  unfold bind at 1 in E.
  destruct (invoke _ acc _ w1) as [r1 wa] eqn:E1.
  eapply invoke_run in E1; [|exact Ho].
  destruct E1 as (err1 & a1 & s1 & Hf1 & -> & Hc1 & Ho1 & Hs1).
  rewrite Hf1.
  destruct err1 as [x1|].
  { inversion E; subst. eexists. split; [exact Hc1|]. split; reflexivity. }
  unfold bind at 1 in E.
  destruct (invokeStore _ _ wa) as [r2 wb] eqn:E2.
  apply invokeStore_run in E2 as (err2 & s2 & Hf2 & -> & Hc2 & Ho2 & Hs2).
  rewrite Hs1 in Hf2. rewrite Hf2.
  destruct err2 as [x2|].
  { inversion E; subst. eexists. split.
    - rewrite Hc2, Hc1, <- app_assoc. reflexivity.
    - split; reflexivity. }
  unfold bind at 1 in E.
  destruct (invoke _ acc _ wb) as [r3 wc] eqn:E3.
  eapply invoke_run in E3; [|rewrite Ho2; exact Ho1].
  destruct E3 as (err3 & a2 & s3 & Hf3 & -> & Hc3 & Ho3 & Hs3).
  destruct (saveLatestNonce core a1 tokenID nn) as [err3' a2'] eqn:Ekv.
  injection Hf3 as -> -> Hs3'.
  destruct err3 as [x3|].
  { inversion E; subst. eexists. split.
    - rewrite Hc3, Hc2, Hc1, <- !app_assoc. reflexivity.
    - split; reflexivity. }
  destruct (vm.eqb (CallType vi) vm.ExecOnDestByCaller).
  - eapply invoke_run in E; [|exact Ho3].
    destruct E as (err4 & a3 & s4 & Hf4 & -> & Hc4 & Ho4 & Hs4).
    rewrite Hs3, <- Hs3', Hs2 in Hf4.
    destruct (SaveAccount (accounts e) a2 s2) as [err4' s4'] eqn:Esa.
    injection Hf4 as -> _ ->.
    eexists. split.
    + rewrite Hc4, Hc3, Hc2, Hc1, <- !app_assoc. reflexivity.
    + destruct err4 as [x4|]; repeat split; try reflexivity. exact Hs4.
  - injection E as <- <-. eexists. split.
    + rewrite Hc3, Hc2, Hc1, <- !app_assoc. reflexivity.
    + rewrite app_nil_r. repeat split. rewrite Hs3, <- Hs3'. exact Hs2.
Qed.

(** X9.  The mutating calls of a call are decided by what the collaborators
    return, in the order of one plan: save the token, add the liquidity,
    write the nonce and, in Resolved-Target mode, save the account.  When
    the validation fails the call returns that error and has issued none of
    them.  Otherwise it saves the token through the resolved account in the
    store it started in; an error of a step is returned as the error of the
    call, and the calls issued are then those of the plan up to and
    including that step; when no step fails the call succeeds and has issued
    them all.  So the write of the nonce is among the calls issued only when
    the token was saved and the liquidity added without error. *)
Theorem mutations_follow_the_plan (vi : ContractCallInput)
    (w w' : World Acct Store) (r : Error + VMOutput) :
  process vi w = (r, w') ->
  (exists err,
     validate core checkBasicDCTArguments e vi w = (inl err, w') /\
     r = inl err /\ calls w' = calls w) \/
  (exists tokenID nextNonce quantity d w1 acnt done,
     validate core checkBasicDCTArguments e vi w
     = (inr (resolvedRef vi, tokenID, nextNonce, quantity, d), w1) /\
     object (resolvedRef vi) w1 = Some acnt /\
     calls w' = calls w ++ done /\
     match SaveDCTNFTToken (dctStorageHandler e) (AddressBytes acnt) acnt
             (keyPrefix e ++ tokenID) nextNonce d true
             (ReturnCallAfterError vi) (store w) with
     | (Some err, _) =>
         r = inl err /\
         done = firstn 1 (mutationPlan core vi (resolvedRef vi)
                            (AddressBytes acnt) tokenID
                            (keyPrefix e ++ tokenID) nextNonce quantity d)
     | (None, (a1, s1)) =>
         match AddToLiquiditySystemAcc (dctStorageHandler e)
                 (keyPrefix e ++ tokenID) nextNonce quantity s1 with
         | (Some err, _) =>
             r = inl err /\
             done = firstn 2 (mutationPlan core vi (resolvedRef vi)
                                (AddressBytes acnt) tokenID
                                (keyPrefix e ++ tokenID) nextNonce quantity d)
         | (None, s2) =>
             match saveLatestNonce core a1 tokenID nextNonce with
             | (Some err, _) =>
                 r = inl err /\
                 done = firstn 3 (mutationPlan core vi (resolvedRef vi)
                                    (AddressBytes acnt) tokenID
                                    (keyPrefix e ++ tokenID) nextNonce
                                    quantity d)
             | (None, a2) =>
                 if vm.eqb (CallType vi) vm.ExecOnDestByCaller then
                   match SaveAccount (accounts e) a2 s2 with
                   | (Some err, _) =>
                       r = inl err /\
                       done = mutationPlan core vi (resolvedRef vi)
                                (AddressBytes acnt) tokenID
                                (keyPrefix e ++ tokenID) nextNonce quantity d
                   | (None, s3) =>
                       r = inr (output core e vi tokenID nextNonce quantity d)
                       /\
                       done = mutationPlan core vi (resolvedRef vi)
                                (AddressBytes acnt) tokenID
                                (keyPrefix e ++ tokenID) nextNonce quantity d
                       /\ store w' = s3
                   end
                 else
                   r = inr (output core e vi tokenID nextNonce quantity d) /\
                   done = mutationPlan core vi (resolvedRef vi)
                            (AddressBytes acnt) tokenID
                            (keyPrefix e ++ tokenID) nextNonce quantity d /\
                   store w' = s2
             end
         end
     end /\
     (In (CallSaveKeyValue (resolvedRef vi) (getNonceKey core tokenID)
            (big.Bytes (big.SetUint64 nextNonce))) done ->
      exists a1 s1 s2,
        SaveDCTNFTToken (dctStorageHandler e) (AddressBytes acnt) acnt
          (keyPrefix e ++ tokenID) nextNonce d true (ReturnCallAfterError vi)
          (store w) = (None, (a1, s1)) /\
        AddToLiquiditySystemAcc (dctStorageHandler e) (keyPrefix e ++ tokenID)
          nextNonce quantity s1 = (None, s2))).
Proof.
  intros E. rewrite process_validate in E. unfold bind at 1 in E.
  destruct (validate core checkBasicDCTArguments e vi w)
    as [[err|[[[[acc tokenID] nn] q] d]] w1] eqn:Ev.
  - inversion E; subst. left. exists err.
    apply validate_unmutated in Ev as Hu.
    destruct Hu as (_ & _ & Hc & _). auto.
  - right. pose proof Ev as Hu. apply validate_unmutated in Hu.
    destruct Hu as (Hs & _ & Hc & _).
    pose proof Ev as Hv.
    apply validate_ok in Hv as (uris & nonce & roy & Ea & _).
    apply authorize_ok in Ea as (_ & _ & Er & tok' & acnt & _ & Ho & _).
    apply resolve_resolved in Er as (-> & _ & _).
    unfold bind at 1 in E.
    destruct (persist core e vi (resolvedRef vi) tokenID
                (keyPrefix e ++ tokenID) nn q d w1) as [rp wp] eqn:Ep.
    eapply persist_cases in Ep; [|exact Ho].
    destruct Ep as (done & Hcp & Hcases).
    rewrite Hs in Hcases.
    exists tokenID, nn, q, d, w1, acnt, done.
    split; [reflexivity|]. split; [exact Ho|].
    assert (Hw : wp = w' /\
                 r = match rp with
                     | inl err => inl err
                     | inr _ => inr (output core e vi tokenID nn q d)
                     end).
    { destruct rp as [err|u]; inversion E; subst; split; reflexivity. }
    destruct Hw as [-> Hr]. clear E.
    split; [rewrite Hcp, Hc; reflexivity|].
    destruct (SaveDCTNFTToken (dctStorageHandler e) (AddressBytes acnt) acnt
                (keyPrefix e ++ tokenID) nn d true (ReturnCallAfterError vi)
                (store w)) as [[x1|] [a1 s1]].
    { destruct Hcases as [-> ->]. split; [split; [exact Hr | reflexivity]|].
      cbn. intros [H|[]]. discriminate. }
    destruct (AddToLiquiditySystemAcc (dctStorageHandler e)
                (keyPrefix e ++ tokenID) nn q s1) as [[x2|] s2] eqn:Eliq.
    { destruct Hcases as [-> ->]. split; [split; [exact Hr | reflexivity]|].
      cbn. intros [H|[H|[]]]; discriminate. }
    split; [|intros _; exists a1, s1, s2; split; [reflexivity | exact Eliq]].
    destruct (saveLatestNonce core a1 tokenID nn) as [[x3|] a2].
    { destruct Hcases as [-> ->]. split; [exact Hr | reflexivity]. }
    destruct (vm.eqb (CallType vi) vm.ExecOnDestByCaller).
    + destruct (SaveAccount (accounts e) a2 s2) as [[x4|] s3].
      * destruct Hcases as [-> ->]. split; [exact Hr | reflexivity].
      * destruct Hcases as (-> & -> & Hst). repeat split; auto.
    + destruct Hcases as (-> & -> & Hst). repeat split; auto.
Qed.

Lemma index_err {A : Type} (l : list A) (i : nat) (w w' : World Acct Store)
    err :
  index l i w = (inl err, w') -> (List.length l <= i)%nat.
Proof.
  unfold index. destruct (nth_error l i) eqn:E; intros Ei; [discriminate|].
  apply nth_error_None. exact E.
Qed.

Lemma basic_ok_account (acnt : option Acct) vi f :
  checkDCTNFTCreateBurnAddInput checkBasicDCTArguments acnt vi f = None ->
  CallType vi = vm.DirectCall -> exists a, acnt = Some a.
Proof.
  unfold checkDCTNFTCreateBurnAddInput. intros E Hd. rewrite Hd in E.
  destruct (checkBasicDCTArguments vi); [discriminate|].
  destruct (negb _); [discriminate|].
  destruct acnt as [a|]; [eauto | discriminate].
Qed.

Lemma basic_err_no_panic (acnt : option Acct) vi f err :
  (forall vi err, checkBasicDCTArguments vi = Some err -> isPanic err = false) ->
  checkDCTNFTCreateBurnAddInput checkBasicDCTArguments acnt vi f = Some err ->
  isPanic err = false.
Proof.
  unfold checkDCTNFTCreateBurnAddInput. intros Hb E.
  destruct (checkBasicDCTArguments vi) as [e0|] eqn:Eb.
  - injection E as <-. eapply Hb. exact Eb.
  - destruct (negb _); [injection E as <-; reflexivity|].
    destruct (_ && _); [injection E as <-; reflexivity|].
    destruct (_ <? _); [injection E as <-; reflexivity | discriminate].
Qed.

Lemma resolve_err_no_panic vi (w w' : World Acct Store) err :
  collaboratorsReturn checkBasicDCTArguments e ->
  checkNumOfArgs vi = None ->
  resolveAccountWithRoles e vi w = (inl err, w') ->
  isPanic err = false.
Proof.
  intros (_ & _ & Hload & _) Hn E.
  apply checkNumOfArgs_ok in Hn as (Hmin & _).
  unfold resolveAccountWithRoles in E. unfold minNumOfArgs in Hmin.
  destruct (vm.eqb (CallType vi) vm.ExecOnDestByCaller); [|discriminate].
  apply bind_err in E as [E | (target & w1 & _ & E)].
  { apply index_err in E. lia. }
  destruct (negb _); [inversion E; reflexivity|].
  destruct (bytes_Equal _ _); [inversion E; reflexivity|].
  apply bind_err in E as [E | (r & w2 & _ & E)]; [|discriminate].
  unfold getAccount in E.
  destruct (LoadAccount (accounts e) target (store w1)) as [x|[a|]] eqn:EL;
    inversion E; subst.
  - eapply Hload. exact EL.
  - reflexivity.
Qed.

Lemma authorize_err_no_panic vi (w w' : World Acct Store) err :
  collaboratorsReturn checkBasicDCTArguments e ->
  authorize core checkBasicDCTArguments e vi w = (inl err, w') ->
  isPanic err = false.
Proof.
  intros Hcol E. pose proof Hcol as (Hb & Hroles & _ & Hget & _).
  unfold authorize in E.
  apply bind_err in E as [E | ([] & w1 & E1 & E)].
  { apply check_err in E as [E _]. eapply basic_err_no_panic; eassumption. }
  apply check_ok in E1 as [E1 ->].
  apply bind_err in E as [E | ([] & w1 & E2 & E)].
  { apply check_err in E as [E _]. unfold checkNumOfArgs in E.
    destruct (_ <? _)%nat; [injection E as <-; reflexivity | discriminate]. }
  apply check_ok in E2 as [E2 ->].
  apply bind_err in E as [E | ([acc uris] & w1 & E3 & E)].
  { eapply resolve_err_no_panic; eassumption. }
  pose proof (checkNumOfArgs_ok _ E2) as (_ & H7).
  apply bind_err in E as [E | (tokenID & w2 & E4 & E)].
  { apply index_err in E. lia. }
  apply index_ok in E4 as [_ ->].
  apply bind_err in E as [E | (acnt & w2 & E5 & E)].
  { exfalso. unfold deref in E.
    apply resolve_ok in E3
      as [(Hd & -> & _ & ->)|(_ & -> & t & a & _ & _ & _ & _ & _ & ->)].
    - destruct (basic_ok_account _ _ _ E1 Hd) as (a & Ha).
      cbn [object] in E. rewrite Ha in E. discriminate.
    - cbn in E. discriminate. }
  apply deref_ok in E5 as [_ ->].
  apply bind_err in E as [E | ([] & w2 & E6 & E)].
  { apply check_err in E as [E _]. eapply Hroles. exact E. }
  apply check_ok in E6 as [_ ->].
  apply bind_err in E as [E | (nonce & w2 & _ & E)]; [|discriminate].
  unfold getLatestNonce in E.
  destruct (RetrieveValue (getNonceKey core tokenID) acnt) as [x|data] eqn:Eg.
  - inversion E; subst. eapply Hget. exact Eg.
  - destruct (len data =? 0); discriminate.
Qed.

Lemma validate_err_no_panic vi (w w' : World Acct Store) err :
  collaboratorsReturn checkBasicDCTArguments e ->
  validate core checkBasicDCTArguments e vi w = (inl err, w') ->
  isPanic err = false.
Proof.
  intros Hcol E. pose proof Hcol as (_ & Hroles & _).
  unfold validate in E.
  apply bind_err in E as [E | ([[acc uris] nonce] & w1 & Ea & E)].
  { eapply authorize_err_no_panic; eassumption. }
  apply authorize_ok in Ea as (_ & Hn & _ & tok & acnt & Ht & Ho & _).
  apply checkNumOfArgs_ok in Hn as (_ & H7).
  apply bind_err in E as [E | ([] & w2 & Eg & E)].
  { apply check_err in E as [E _]. unfold checkGas in E.
    destruct (_ <? _); [injection E as <-; reflexivity | discriminate]. }
  apply check_ok in Eg as [_ ->].
  apply bind_err in E as [E | (roy & w2 & Er & E)].
  { unfold parseRoyalties in E.
    apply bind_err in E as [E | (arg3 & w2 & _ & E)].
    - apply index_err in E. lia.
    - destruct (_ >? _); inversion E. reflexivity. }
  apply readonly_parseRoyalties in Er. subst w2.
  apply bind_err in E as [E | (tokenID & w2 & Ei & E)].
  { apply index_err in E. lia. }
  apply index_ok in Ei as [_ ->].
  apply bind_err in E as [E | (q & w2 & Eq & E)].
  { unfold parseQuantity in E.
    apply bind_err in E as [E | (arg1 & w2 & Ei & E)].
    { apply index_err in E. lia. }
    apply index_ok in Ei as [_ ->].
    destruct (_ <=? _); [inversion E; reflexivity|].
    apply bind_err in E as [E | ([] & w2 & _ & E)]; [|discriminate].
    destruct (_ >? _); [|discriminate].
    apply bind_err in E as [E | (a & w2 & Ed & E)].
    { unfold deref in E. rewrite Ho in E. discriminate. }
    apply deref_ok in Ed as [_ ->].
    apply bind_err in E as [E | (arg0 & w2 & Ei & E)].
    { apply index_err in E. lia. }
    apply index_ok in Ei as [_ ->].
    apply check_err in E as [E _]. eapply Hroles. exact E. }
  apply readonly_parseQuantity in Eq. subst w2.
  apply bind_err in E as [E | ([] & w2 & El & E)].
  { unfold checkQuantityLength in E.
    apply bind_err in E as [E | (arg1 & w2 & _ & E)].
    - apply index_err in E. lia.
    - destruct (_ && _); inversion E. reflexivity. }
  apply readonly_checkQuantityLength in El. subst w2.
  apply bind_err in E as [E | (d & w2 & _ & E)]; [|discriminate].
  exfalso. unfold newDCToken in E.
  apply bind_err in E as [E | (arg2 & w2 & Ei & E)].
  { apply index_err in E. lia. }
  apply index_ok in Ei as [_ ->].
  apply bind_err in E as [E | (arg4 & w2 & Ei & E)].
  { apply index_err in E. lia. }
  apply index_ok in Ei as [_ ->].
  apply bind_err in E as [E | (arg5 & w2 & Ei & E)].
  { apply index_err in E. lia. }
  discriminate.
Qed.

(** When the operations of the account, the collaborators and the basic
    check return errors rather than panic, no error the call returns is a
    run-time panic: every argument the handler indexes is there once the
    number of arguments has been checked, and every account it goes through
    is there once the input has been checked or the account loaded. *)
Lemma process_err_no_panic (vi : ContractCallInput)
    (w w' : World Acct Store) (err : Error) :
  collaboratorsReturn checkBasicDCTArguments e ->
  process vi w = (inl err, w') ->
  isPanic err = false.
Proof.
  intros Hcol E. rewrite process_validate in E.
  apply bind_err in E as [E | ([[[[acc tokenID] nn] q] d] & w1 & Ev & E)].
  { eapply validate_err_no_panic; eassumption. }
  apply validate_ok in Ev as (uris & nonce & roy & Ea & _).
  apply authorize_ok in Ea as (_ & _ & _ & tok & acnt & _ & Ho & _).
  apply bind_err in E as [E | ([] & w2 & _ & E)]; [|discriminate].
  eapply persist_log in E; [|exact Ho].
  destruct E as (done & rest & _ & _ & _ & _ & Herr).
  destruct Hcol as (_ & _ & _ & _ & Hkv & Hst & Hliq & Hsa).
  destruct (Herr err eq_refl)
    as [(o & x & k & n & t & c & f & s0 & res & H)
       |[(k & n & y & s0 & s' & H)
        |[(k & v & x & x' & H)|(x & s0 & s' & H)]]].
  - eapply Hst. exact H.
  - eapply Hliq. exact H.
  - eapply Hkv. exact H.
  - eapply Hsa. exact H.
Qed.

Lemma basic_ok_gas (acnt : option Acct) vi f :
  checkDCTNFTCreateBurnAddInput checkBasicDCTArguments acnt vi f = None ->
  f <= GasProvided vi.
Proof.
  unfold checkDCTNFTCreateBurnAddInput. intros E.
  destruct (checkBasicDCTArguments vi); [discriminate|].
  destruct (negb _); [discriminate|].
  destruct (_ && _); [discriminate|].
  destruct (Z.ltb_spec (GasProvided vi) f); [discriminate | assumption].
Qed.

Lemma basic_other_cost (acnt : option Acct) vi f f' :
  checkDCTNFTCreateBurnAddInput checkBasicDCTArguments acnt vi f = None ->
  checkDCTNFTCreateBurnAddInput checkBasicDCTArguments acnt vi f' =
  if GasProvided vi <? f' then Some ErrNotEnoughGas else None.
Proof.
  unfold checkDCTNFTCreateBurnAddInput. intros E.
  destruct (checkBasicDCTArguments vi); [discriminate|].
  destruct (negb _); [discriminate|].
  destruct (_ && _); [discriminate|]. reflexivity.
Qed.

(** X11.  Gas beyond the cost comes back in full: a call that succeeds also
    succeeds on any larger amount of gas, with the same effects, the same
    return data and the same log, and the gas remaining grows by what was
    added.  (The basic argument check is taken not to look at the gas.) *)
Theorem more_gas_is_returned (vi : ContractCallInput) (g : Z)
    (w w' : World Acct Store) (out : VMOutput) :
  (forall g', checkBasicDCTArguments (withGas vi g')
              = checkBasicDCTArguments vi) ->
  process vi w = (inr out, w') ->
  GasProvided vi <= g < 2 ^ 64 ->
  exists out',
    process (withGas vi g) w = (inr out', w') /\
    ReturnCode out' = ReturnCode out /\
    ReturnData out' = ReturnData out /\
    Logs out' = Logs out /\
    GasRemaining out' = GasRemaining out + (g - GasProvided vi).
Proof.
  intros Hb E Hg. pose proof E as E0.
  apply process_ok in E0
    as (acc & uris & nonce & w1 & roy & tokenID & q & d
        & Ea & Egas & _).
  apply authorize_ok in Ea as (Hbasic & _).
  apply basic_ok_gas in Hbasic.
  unfold checkGas in Egas.
  destruct (Z.ltb_spec (GasProvided vi) (gasToUse e vi)) as [|Hcost];
    [discriminate|].
  eapply process_withGas_ok with (g := g) in E; [|exact Hb|lia|lia].
  destruct E as (tok & nn & q' & d' & -> & Erun).
  eexists. split; [exact Erun|].
  cbn [ReturnCode ReturnData Logs GasRemaining output addDCTEntryInVMOutput
       withGas GasProvided CallerAddr].
  repeat split.
  change (gasToUse e (withGas vi g)) with (gasToUse e vi).
  pose proof (wrap64_range
    (wrap64 (totalLength (Arguments vi) * StorePerByte (gasConfig e))
     + funcGasCost e)) as Hr.
  fold (gasToUse e vi) in Hr.
  rewrite !wrap64_small by lia. lia.
Qed.

(** X12.  Replacing the gas configuration changes the gas of a call and
    nothing else.  After [SetNewGasConfig] the cost of a call is computed
    from the new per-byte cost and the new base cost; a call that succeeded
    before succeeds after, with the same effects, return data and log,
    exactly when its gas covers the new base cost and the new cost, and
    otherwise fails with insufficient-gas and changes nothing.  A nil
    configuration leaves the handler as it is, and of two configurations set
    one after the other the last one counts. *)
Theorem gas_config_swap (vi : ContractCallInput) (gasCost : GasCost.t)
    (w w' : World Acct Store) (out : VMOutput) :
  process vi w = (inr out, w') ->
  gasToUse (SetNewGasConfig e (Some gasCost)) vi =
    wrap64 (wrap64 (totalLength (Arguments vi)
                    * StorePerByte (GasCost.BaseOperationCost gasCost))
            + DCTNFTCreate (GasCost.BuiltInCost gasCost)) /\
  (DCTNFTCreate (GasCost.BuiltInCost gasCost) <= GasProvided vi ->
   gasToUse (SetNewGasConfig e (Some gasCost)) vi <= GasProvided vi ->
   exists out',
     ProcessBuiltinFunction core checkBasicDCTArguments
       (SetNewGasConfig e (Some gasCost)) vi w = (inr out', w') /\
     ReturnData out' = ReturnData out /\
     Logs out' = Logs out /\
     GasRemaining out' =
       wrap64 (GasProvided vi
               - gasToUse (SetNewGasConfig e (Some gasCost)) vi)) /\
  (GasProvided vi < DCTNFTCreate (GasCost.BuiltInCost gasCost) \/
   GasProvided vi < gasToUse (SetNewGasConfig e (Some gasCost)) vi ->
   exists w1,
     ProcessBuiltinFunction core checkBasicDCTArguments
       (SetNewGasConfig e (Some gasCost)) vi w = (inl ErrNotEnoughGas, w1) /\
     unmutated e w w1) /\
  SetNewGasConfig e None = e /\
  (forall earlier,
     SetNewGasConfig (SetNewGasConfig e earlier) (Some gasCost)
     = SetNewGasConfig e (Some gasCost)).
Proof.
  intros E. set (e' := SetNewGasConfig e (Some gasCost)).
  apply process_ok in E
    as (acc & uris & nonce & w1 & roy & tokenID & q & d
        & Ea & Egas & Er & Et & Eq & El & Ed & Ep & ->).
  pose proof Ea as Hok. apply authorize_ok in Hok as (Hbasic & _).
  pose proof (basic_other_cost _ _ _ (DCTNFTCreate (GasCost.BuiltInCost gasCost))
                Hbasic) as Hbasic'.
  assert (Hauth : (GasProvided vi <? funcGasCost e') = false ->
            authorize core checkBasicDCTArguments e' vi w
            = (inr (acc, uris, nonce), w1)).
  { intros Hlt. unfold authorize in *. unfold bind at 1.
    unfold bind at 1 in Ea. rewrite Hbasic in Ea.
    change (funcGasCost e') with (DCTNFTCreate (GasCost.BuiltInCost gasCost))
      in *.
    rewrite Hbasic', Hlt. exact Ea. }
  assert (Hlow : (GasProvided vi <? funcGasCost e') = true ->
            authorize core checkBasicDCTArguments e' vi w
            = (inl ErrNotEnoughGas, w)).
  { intros Hlt. unfold authorize. unfold bind at 1.
    change (funcGasCost e') with (DCTNFTCreate (GasCost.BuiltInCost gasCost))
      in *.
    rewrite Hbasic', Hlt. reflexivity. }
  split; [reflexivity|]. split; [|split; [|split]].
  - intros Hbase Hcost.
    eexists. split.
    + rewrite (@process_run _ _ _ core checkBasicDCTArguments e' vi w w1
                 acc uris nonce roy tokenID q d).
      * unfold bind.
        change (persist core e' vi) with (persist core e vi).
        change (keyPrefix e') with (keyPrefix e).
        rewrite Ep. reflexivity.
      * apply Hauth. apply Z.ltb_ge. exact Hbase.
      * unfold checkGas.
        destruct (Z.ltb_spec (GasProvided vi) (gasToUse e' vi));
          [lia | reflexivity].
      * exact Er.
      * exact Et.
      * exact Eq.
      * exact El.
      * exact Ed.
    + cbn [ReturnData Logs GasRemaining output addDCTEntryInVMOutput].
      repeat split.
  - intros Hless.
    destruct (Z.lt_ge_cases (GasProvided vi) (funcGasCost e')) as [Hb|Hb].
    + exists w. split; [|apply unmutated_refl].
      unfold ProcessBuiltinFunction. unfold bind at 1.
      rewrite Hlow; [reflexivity|]. apply Z.ltb_lt. exact Hb.
    + exists w1. split; [|eapply authorize_unmutated; exact Ea].
      unfold ProcessBuiltinFunction. unfold bind at 1.
      rewrite Hauth by (apply Z.ltb_ge; exact Hb).
      unfold bind at 1. unfold checkGas.
      change (funcGasCost e') with (DCTNFTCreate (GasCost.BuiltInCost gasCost))
        in Hb.
      destruct (Z.ltb_spec (GasProvided vi) (gasToUse e' vi));
        [reflexivity | lia].
  - reflexivity.
  - intros [earlier|]; reflexivity.
Qed.

(** X14.  The limit on the quantity is a limit on the raw bytes of
    argument 1, leading zeros included, not on its value.  With the length
    check enabled, a call that has passed every step up to and including
    the quantity and its role fails with invalid-arguments, and changes
    nothing, as soon as argument 1 is longer than the maximum; with the
    check disabled, or within the maximum, it goes on to build the token. *)
Theorem quantity_length_limit (vi : ContractCallInput)
    (w w1 : World Acct Store) (acc : AcctRef) (uris : list bytes)
    (nonce royalties quantity : Z) (arg1 : bytes) :
  authorize core checkBasicDCTArguments e vi w = (inr (acc, uris, nonce), w1) ->
  checkGas e vi = None ->
  parseRoyalties vi w1 = (inr royalties, w1) ->
  parseQuantity core e vi acc w1 = (inr quantity, w1) ->
  nth_error (Arguments vi) 1 = Some arg1 ->
  (IsValueLengthCheckFlagEnabled (enableEpochsHandler e) = true ->
   maxLenForAddNFTQuantity core < len arg1 ->
   exists err,
     process vi w = (inl err, w1) /\
     errors_Is err ErrInvalidArguments = true /\
     unmutated e w w1) /\
  (IsValueLengthCheckFlagEnabled (enableEpochsHandler e) = false \/
   len arg1 <= maxLenForAddNFTQuantity core ->
   exists tokenID,
     nth_error (Arguments vi) 0 = Some tokenID /\
     process vi w =
     (dctData <- newDCToken core vi uris (wrap64 (nonce + 1)) royalties
                   quantity ;;
      persist core e vi acc tokenID (keyPrefix e ++ tokenID)
        (wrap64 (nonce + 1)) quantity dctData ;;;
      ret (output core e vi tokenID (wrap64 (nonce + 1)) quantity dctData))
       w1).
Proof.
  intros Ea Eg Er Eq H1.
  pose proof Ea as Hp.
  eapply process_at_quantity in Hp; [|exact Eg|exact Er].
  destruct Hp as (tokenID & acnt & Et & _ & Hp).
  assert (Hlen : checkQuantityLength core e vi w1 =
            if IsValueLengthCheckFlagEnabled (enableEpochsHandler e)
               && (len arg1 >? maxLenForAddNFTQuantity core)
            then (inl (Errorf "%w max length for quantity in nft create is %d"
                         ErrInvalidArguments), w1)
            else (inr tt, w1)).
  { unfold checkQuantityLength, bind, index. rewrite H1. cbn [ret].
    destruct (_ && _); reflexivity. }
  unfold bind at 1 in Hp. rewrite Eq in Hp.
  unfold bind at 1 in Hp. rewrite Hlen in Hp.
  split.
  - intros Hflag Hlong. rewrite Hflag in Hp.
    destruct (Z.gtb_spec (len arg1) (maxLenForAddNFTQuantity core)); [|lia].
    cbn [andb] in Hp.
    exists (Errorf "%w max length for quantity in nft create is %d"
              ErrInvalidArguments).
    split; [exact Hp|]. split; [reflexivity|].
    eapply authorize_unmutated. exact Ea.
  - intros Hok. exists tokenID. split; [exact Et|].
    rewrite Hp. destruct Hok as [Hflag|Hshort].
    + rewrite Hflag. reflexivity.
    + destruct (Z.gtb_spec (len arg1) (maxLenForAddNFTQuantity core)); [lia|].
      rewrite andb_false_r. reflexivity.
Qed.

(** X15.  The input check comes before everything else, the number of
    arguments included.  Once the basic argument check has passed, a call
    whose recipient is not its caller fails with invalid-receiver-address; a
    direct self-call without a sender account fails with nil-user-account;
    and a self-call with its account (or in Resolved-Target mode) and less
    gas than the base cost fails with insufficient-gas.  In each case the
    world is untouched, whatever the arguments are. *)
Theorem input_check_comes_first (vi : ContractCallInput)
    (w : World Acct Store) :
  checkBasicDCTArguments vi = None ->
  (CallerAddr vi <> RecipientAddr vi ->
   process vi w = (inl ErrInvalidRcvAddr, w)) /\
  (CallerAddr vi = RecipientAddr vi ->
   sndObj w = None -> CallType vi = vm.DirectCall ->
   process vi w = (inl ErrNilUserAccount, w)) /\
  (CallerAddr vi = RecipientAddr vi ->
   sndObj w <> None \/ CallType vi = vm.ExecOnDestByCaller ->
   GasProvided vi < funcGasCost e ->
   process vi w = (inl ErrNotEnoughGas, w)).
Proof.
  intros Hb.
  assert (Hrun : forall err,
            checkDCTNFTCreateBurnAddInput checkBasicDCTArguments (sndObj w) vi
              (funcGasCost e) = Some err ->
            process vi w = (inl err, w)).
  { intros err Hc. unfold ProcessBuiltinFunction, authorize.
    unfold bind at 1. unfold bind at 1. rewrite Hc. reflexivity. }
  unfold checkDCTNFTCreateBurnAddInput in Hrun. rewrite Hb in Hrun.
  unfold bytes_Equal in Hrun.
  split; [|split].
  - intros Hne. apply Hrun.
    destruct (bytes_eq_dec (CallerAddr vi) (RecipientAddr vi));
      [contradiction | reflexivity].
  - intros Heq Hnil Hd. apply Hrun.
    destruct (bytes_eq_dec (CallerAddr vi) (RecipientAddr vi));
      [|contradiction].
    rewrite Hnil, Hd. reflexivity.
  - intros Heq Hacc Hgas. apply Hrun.
    destruct (bytes_eq_dec (CallerAddr vi) (RecipientAddr vi));
      [|contradiction].
    cbn [negb].
    assert (Hguard : match sndObj w with None => true | Some _ => false end
                     && negb (vm.eqb (CallType vi) vm.ExecOnDestByCaller)
                     = false).
    { destruct Hacc as [Hs|Hc].
      - destruct (sndObj w); [reflexivity | contradiction].
      - rewrite Hc. apply andb_false_r. }
    rewrite Hguard.
    destruct (Z.ltb_spec (GasProvided vi) (funcGasCost e));
      [reflexivity | lia].
Qed.

(** X16.  In Resolved-Target mode the target account must load as a user
    account.  For a call that has passed the input check and the argument
    count, and whose target is as long as the caller's address and is not
    the caller: when the adapter fails to load the target the call fails
    with the adapter's error; when what it loads is not a user account the
    call fails with wrong-type-assertion.  Nothing is changed in either
    case. *)
Theorem target_must_load (vi : ContractCallInput) (w : World Acct Store)
    (target : bytes) :
  CallType vi = vm.ExecOnDestByCaller ->
  checkDCTNFTCreateBurnAddInput checkBasicDCTArguments (sndObj w) vi
    (funcGasCost e) = None ->
  checkNumOfArgs vi = None ->
  nth_error (Arguments vi) (List.length (Arguments vi) - 1) = Some target ->
  List.length target = List.length (CallerAddr vi) ->
  target <> CallerAddr vi ->
  (forall err,
     LoadAccount (accounts e) target (store w) = inl err ->
     process vi w = (inl err, w)) /\
  (LoadAccount (accounts e) target (store w) = inr OtherAccount ->
   process vi w = (inl ErrWrongTypeAssertion, w)).
Proof.
  intros Hc Hb Hn Ht Hl Hne.
  assert (Hrun : forall err,
            getAccount e target w = (inl err, w) ->
            process vi w = (inl err, w)).
  { intros err Hg. unfold ProcessBuiltinFunction, authorize.
    unfold bind at 1. unfold bind at 1. rewrite Hb. cbn [check ret].
    unfold bind at 1. rewrite Hn. cbn [check ret].
    unfold bind at 1. unfold resolveAccountWithRoles. rewrite Hc.
    cbn [vm.eqb]. unfold bind at 1. unfold index at 1. rewrite Ht.
    cbn [ret].
    destruct (Z.eqb_spec (len target) (len (CallerAddr vi))) as [_|Hx];
      [|unfold len in Hx; lia].
    cbn [negb]. unfold bytes_Equal.
    destruct (bytes_eq_dec target (CallerAddr vi)); [contradiction|].
    unfold bind at 1. rewrite Hg. reflexivity. }
  split.
  - intros err HL. apply Hrun. unfold getAccount. rewrite HL. reflexivity.
  - intros HL. apply Hrun. unfold getAccount. rewrite HL. reflexivity.
Qed.

End CallFacts.

(** ** The sender's account in Resolved-Target mode *)

Section SenderFacts.

Context {Acct Store : Type} {UAH : UserAccountHandler Acct}.
Variable core : Constants.
Variable checkBasicDCTArguments : ContractCallInput -> option Error.
Variable e : dctNFTCreate Acct Store.

Lemma blind_ret {A : Type} (a : A) :
  senderBlind (@ret (World Acct Store) A a).
Proof. intros w s r w' E. inversion E; subst. auto. Qed.

Lemma blind_fail {A : Type} (err : Error) :
  senderBlind (@fail (World Acct Store) A err).
Proof. intros w s r w' E. inversion E; subst. auto. Qed.

Lemma blind_check (x : option Error) :
  senderBlind (@check (World Acct Store) x).
Proof. destruct x; [apply blind_fail | apply blind_ret]. Qed.

Lemma blind_try {A : Type} (x : Error + A) :
  senderBlind (@try (World Acct Store) A x).
Proof. destruct x; [apply blind_fail | apply blind_ret]. Qed.

Lemma blind_index {A : Type} (l : list A) (i : nat) :
  senderBlind (@index (World Acct Store) A l i).
Proof.
  unfold index. destruct (nth_error l i); [apply blind_ret | apply blind_fail].
Qed.

Lemma blind_if {A : Type} (b : bool) (c1 c2 : @M (World Acct Store) A) :
  senderBlind c1 -> senderBlind c2 -> senderBlind (if b then c1 else c2).
Proof. destruct b; auto. Qed.

(** Sequencing, with what is known of the value handed on. *)
Lemma blind_bind {A B : Type} (P : A -> Prop)
    (c : @M (World Acct Store) A) (k : A -> @M (World Acct Store) B) :
  senderBlind c ->
  (forall w a w', c w = (inr a, w') -> P a) ->
  (forall a, P a -> senderBlind (k a)) ->
  senderBlind (bind c k).
Proof.
  intros Hc HP Hk w s r w' E. unfold bind in *.
  destruct (c w) as [[err|a] w2] eqn:Ec.
  - destruct (Hc _ s _ _ Ec) as [Ec' Hs]. rewrite Ec'.
    inversion E; subst. auto.
  - pose proof (HP _ _ _ Ec) as Pa.
    destruct (Hc _ s _ _ Ec) as [Ec' Hs]. rewrite Ec'.
    destruct (Hk a Pa _ s _ _ E) as [E' Hs']. split; [exact E' | congruence].
Qed.

Lemma blind_deref_loaded : senderBlind (@deref Acct Store RefLoaded).
Proof.
  intros w s r w' E. unfold deref in *. cbn [object withSender loadedObj] in *.
  destruct (loadedObj w); inversion E; subst; auto.
Qed.

Lemma blind_getAccount (address : bytes) : senderBlind (getAccount e address).
Proof.
  intros w s r w' E. unfold getAccount in *. cbn [withSender store] in *.
  destruct (LoadAccount (accounts e) address (store w)) as [err|[a|]];
    inversion E; subst; auto.
Qed.

Lemma blind_invoke_loaded c f :
  senderBlind (@invoke Acct Store c RefLoaded f).
Proof.
  intros w s r w' E. unfold invoke in *.
  cbn [object withSender loadedObj store] in *.
  destruct (loadedObj w) as [a|]; [|inversion E; subst; auto].
  destruct (f a (store w)) as [[err|] [a' s']]; inversion E; subst; auto.
Qed.

Lemma blind_invokeStore c f :
  senderBlind (@invokeStore Acct Store c f).
Proof.
  intros w s r w' E. unfold invokeStore in *. cbn [withSender store] in *.
  destruct (f (store w)) as [[err|] s']; inversion E; subst; auto.
Qed.

Lemma basic_any_sender (a b : option Acct) vi f :
  CallType vi = vm.ExecOnDestByCaller ->
  checkDCTNFTCreateBurnAddInput checkBasicDCTArguments a vi f
  = checkDCTNFTCreateBurnAddInput checkBasicDCTArguments b vi f.
Proof.
  intros Hc. unfold checkDCTNFTCreateBurnAddInput. rewrite Hc.
  cbn [vm.eqb negb]. rewrite !andb_false_r. reflexivity.
Qed.

Lemma blind_resolve vi :
  CallType vi = vm.ExecOnDestByCaller ->
  senderBlind (resolveAccountWithRoles e vi).
Proof.
  intros Hc. unfold resolveAccountWithRoles. rewrite Hc. cbn [vm.eqb].
  apply blind_bind with (P := fun _ => True); [apply blind_index | auto |].
  intros target _. apply blind_if; [apply blind_fail|].
  apply blind_if; [apply blind_fail|].
  apply blind_bind with (P := fun _ => True);
    [apply blind_getAccount | auto |].
  intros r _. apply blind_ret.
Qed.

Lemma blind_parseQuantity_loaded vi :
  senderBlind (parseQuantity core e vi RefLoaded).
Proof.
  unfold parseQuantity.
  apply blind_bind with (P := fun _ => True); [apply blind_index | auto |].
  intros arg1 _. apply blind_if; [apply blind_fail|].
  apply blind_bind with (P := fun _ => True); [| auto |].
  - apply blind_if; [|apply blind_ret].
    apply blind_bind with (P := fun _ => True);
      [apply blind_deref_loaded | auto |].
    intros a _.
    apply blind_bind with (P := fun _ => True); [apply blind_index | auto |].
    intros arg0 _. apply blind_check.
  - intros _ _. apply blind_ret.
Qed.

Lemma blind_persist_loaded vi tokenID key nn q d :
  senderBlind (persist core e vi RefLoaded tokenID key nn q d).
Proof.
  unfold persist.
  apply blind_bind with (P := fun _ => True);
    [apply blind_invoke_loaded | auto |]. intros _ _.
  apply blind_bind with (P := fun _ => True);
    [apply blind_invokeStore | auto |]. intros _ _.
  apply blind_bind with (P := fun _ => True);
    [apply blind_invoke_loaded | auto |]. intros _ _.
  apply blind_if; [apply blind_invoke_loaded | apply blind_ret].
Qed.

(** X17.  In Resolved-Target mode the sender's account object plays no
    part: the call returns the same result and does the same to the store,
    to the loaded account and to the log whatever object is passed as
    [acntSnd] - none at all included - and leaves that object as it is. *)
Theorem resolved_call_ignores_sender (vi : ContractCallInput)
    (w w' : World Acct Store) (acntSnd : option Acct)
    (r : Error + VMOutput) :
  CallType vi = vm.ExecOnDestByCaller ->
  ProcessBuiltinFunction core checkBasicDCTArguments e vi w = (r, w') ->
  ProcessBuiltinFunction core checkBasicDCTArguments e vi
    (withSender acntSnd w) = (r, withSender acntSnd w') /\
  sndObj w' = sndObj w.
Proof.
  intros Hc. revert w acntSnd r w'.
  change (senderBlind (ProcessBuiltinFunction core checkBasicDCTArguments e vi)).
  unfold ProcessBuiltinFunction.
  apply blind_bind with (P := fun x => fst (fst x) = RefLoaded).
  - intros w s r w' E. unfold authorize in *.
    cbn [withSender sndObj].
    rewrite (basic_any_sender s (sndObj w) vi (funcGasCost e) Hc).
    set (X := checkDCTNFTCreateBurnAddInput checkBasicDCTArguments (sndObj w)
                vi (funcGasCost e)) in *.
    clearbody X. revert w s r w' E.
    change (senderBlind
      (check X ;;;
       check (checkNumOfArgs vi) ;;;
       ' (accountWithRoles, uris) <- resolveAccountWithRoles e vi ;;
       tokenID <- index (Arguments vi) 0 ;;
       acnt <- deref accountWithRoles ;;
       check (CheckAllowedToExecute (rolesHandler e) acnt tokenID
                (DCTRoleNFTCreate core)) ;;;
       nonce <- try (getLatestNonce core acnt tokenID) ;;
       ret (accountWithRoles, uris, nonce))).
    apply blind_bind with (P := fun _ => True); [apply blind_check | auto |].
    intros _ _.
    apply blind_bind with (P := fun _ => True); [apply blind_check | auto |].
    intros _ _.
    apply blind_bind with (P := fun x => fst x = RefLoaded).
    + apply blind_resolve. exact Hc.
    + intros w0 [acc uris] w1 Er.
      apply resolve_resolved in Er as (-> & _).
      unfold resolvedRef. rewrite Hc. reflexivity.
    + intros [acc uris] Hacc. cbn in Hacc. subst acc.
      apply blind_bind with (P := fun _ => True); [apply blind_index | auto |].
      intros tokenID _.
      apply blind_bind with (P := fun _ => True);
        [apply blind_deref_loaded | auto |].
      intros acnt _.
      apply blind_bind with (P := fun _ => True); [apply blind_check | auto |].
      intros _ _.
      apply blind_bind with (P := fun _ => True); [apply blind_try | auto |].
      intros nonce _. apply blind_ret.
  - intros w0 [[acc uris] nonce] w1 Ea.
    apply authorize_ok in Ea as (_ & _ & Er & _).
    apply resolve_resolved in Er as (-> & _).
    unfold resolvedRef. rewrite Hc. reflexivity.
  - intros [[acc uris] nonce] Hacc. cbn in Hacc. subst acc.
    apply blind_bind with (P := fun _ => True); [apply blind_check | auto |].
    intros _ _.
    apply blind_bind with (P := fun _ => True).
    { unfold parseRoyalties.
      apply blind_bind with (P := fun _ => True); [apply blind_index | auto |].
      intros arg3 _. apply blind_if; [apply blind_fail | apply blind_ret]. }
    { auto. }
    intros roy _.
    apply blind_bind with (P := fun _ => True); [apply blind_index | auto |].
    intros tokenID _.
    apply blind_bind with (P := fun _ => True);
      [apply blind_parseQuantity_loaded | auto |].
    intros q _.
    apply blind_bind with (P := fun _ => True).
    { unfold checkQuantityLength.
      apply blind_bind with (P := fun _ => True); [apply blind_index | auto |].
      intros arg1 _. apply blind_if; [apply blind_fail | apply blind_ret]. }
    { auto. }
    intros _ _.
    apply blind_bind with (P := fun _ => True).
    { unfold newDCToken.
      apply blind_bind with (P := fun _ => True); [apply blind_index | auto |].
      intros arg2 _.
      apply blind_bind with (P := fun _ => True); [apply blind_index | auto |].
      intros arg4 _.
      apply blind_bind with (P := fun _ => True); [apply blind_index | auto |].
      intros arg5 _. apply blind_ret. }
    { auto. }
    intros d _.
    apply blind_bind with (P := fun _ => True);
      [apply blind_persist_loaded | auto |].
    intros _ _. apply blind_ret.
Qed.

End SenderFacts.

(** ** The data handler of an account *)

Section DataHandlerFacts.

Context {Acct Store Data : Type}.
Variable A : WithData.UserAccountHandler Acct Data.
Variable core : Constants.
Variable checkBasicDCTArguments : ContractCallInput -> option Error.
Variable e : dctNFTCreate Acct Store.

Local Notation "'process'" :=
  (ProcessBuiltinFunction (UAH:=throughDataHandler A) core
     checkBasicDCTArguments e) (only parsing).

Lemma throughDataHandler_collaboratorsReturn :
  servicesReturn checkBasicDCTArguments e ->
  dataHandlersReturn A ->
  (forall acnt, WithData.AccountDataHandler A acnt <> None) ->
  collaboratorsReturn (UAH:=throughDataHandler A) checkBasicDCTArguments e.
Proof.
  intros (Hb & Hroles & Hload & Hst & Hliq & Hsa) (Hget & Hput) Hdata.
  unfold collaboratorsReturn.
  split; [exact Hb|]. split; [exact Hroles|]. split; [exact Hload|].
  split.
  { intros k a err. cbn.
    destruct (WithData.AccountDataHandler A a) as [data|] eqn:Ed.
    - apply Hget.
    - exfalso. apply (Hdata a). exact Ed. }
  split.
  { intros k v a err a'. cbn.
    destruct (WithData.AccountDataHandler A a) as [data|] eqn:Ed.
    - destruct (WithData.SaveKeyValue A k v data) as [err' data'] eqn:Es.
      intros E. injection E as -> _. eapply Hput. exact Es.
    - exfalso. apply (Hdata a). exact Ed. }
  split; [exact Hst|]. split; [exact Hliq | exact Hsa].
Qed.

(** X10.  The call does not panic on its own.  Provided every account has a
    data handler, and the data handlers, the collaborators and the basic
    check return errors rather than panic, no error the call returns is a
    run-time panic: every argument the handler indexes is there once the
    number of arguments has been checked, and every account it goes through
    is there once the input has been checked or the account loaded.  The
    proviso on the data handler is needed: a call that has been granted the
    creation role for an account whose data handler is nil panics when it
    looks up the latest nonce (line 252), and has changed nothing by then. *)
Theorem call_never_panics (vi : ContractCallInput) (w : World Acct Store) :
  servicesReturn checkBasicDCTArguments e ->
  dataHandlersReturn A ->
  ((forall acnt, WithData.AccountDataHandler A acnt <> None) ->
   forall err w', process vi w = (inl err, w') -> isPanic err = false) /\
  (forall acc uris w1 tokenID acnt,
     checkDCTNFTCreateBurnAddInput checkBasicDCTArguments (sndObj w) vi
       (funcGasCost e) = None ->
     checkNumOfArgs vi = None ->
     resolveAccountWithRoles e vi w = (inr (acc, uris), w1) ->
     nth_error (Arguments vi) 0 = Some tokenID ->
     object acc w1 = Some acnt ->
     CheckAllowedToExecute (rolesHandler e) acnt tokenID
       (DCTRoleNFTCreate core) = None ->
     WithData.AccountDataHandler A acnt = None ->
     process vi w = (inl (Panic "nil pointer dereference"), w1) /\
     unmutated e w w1).
Proof.
  intros Hserv Hdh. split.
  - intros Hdata err w' E.
    eapply (process_err_no_panic (UAH:=throughDataHandler A)); [|exact E].
    apply throughDataHandler_collaboratorsReturn; assumption.
  - intros acc uris w1 tokenID acnt Hb Hn Hr Ht Ho Hrole Hnil.
    assert (Ea : authorize (UAH:=throughDataHandler A) core
                   checkBasicDCTArguments e vi w
                 = (inl (Panic "nil pointer dereference"), w1)).
    { unfold authorize. unfold bind at 1. rewrite Hb. cbn [check ret].
      unfold bind at 1. rewrite Hn. cbn [check ret].
      unfold bind at 1. rewrite Hr.
      unfold bind at 1. unfold index. rewrite Ht. cbn [ret].
      unfold bind at 1. unfold deref. rewrite Ho.
      unfold bind at 1. rewrite Hrole. cbn [check ret].
      unfold bind at 1. unfold getLatestNonce. cbn [RetrieveValue
        throughDataHandler]. rewrite Hnil. reflexivity. }
    split.
    + unfold ProcessBuiltinFunction. unfold bind at 1. rewrite Ea.
      reflexivity.
    + eapply authorize_unmutated. exact Ea.
Qed.

End DataHandlerFacts.

(** ** Construction *)

Section ConstructionFacts.

Context {Acct Store : Type} {UAH : UserAccountHandler Acct}.
Variable core : Constants.
Variable checkBasicDCTArguments : ContractCallInput -> option Error.


End ConstructionFacts.

(** ** The further properties on the test doubles *)

Lemma bytes_Equal_neq (a b : bytes) : a <> b -> bytes_Equal a b = false.
Proof.
  intros Hne. unfold bytes_Equal.
  destruct (bytes_eq_dec a b); [contradiction | reflexivity].
Qed.

(** The account of the test doubles keeps the other keys. *)
Lemma Mock_retrieve_other (k k' v : bytes) (a a' : Mock.Account) :
  k <> k' -> SaveKeyValue k v a = (None, a') ->
  RetrieveValue k' a' = RetrieveValue k' a.
Proof.
  cbn. intros Hne E. injection E as <-. cbn.
  rewrite (bytes_Equal_neq Hne). reflexivity.
Qed.

(** The test doubles return errors, never panics. *)
Lemma Mock_servicesReturn (st : DCTNFTStorageHandler Mock.Account Mock.Store) :
  (forall o a k n d c r s err res,
     SaveDCTNFTToken st o a k n d c r s = (Some err, res) ->
     isPanic err = false) ->
  (forall k n q s err s',
     AddToLiquiditySystemAcc st k n q s = (Some err, s') ->
     isPanic err = false) ->
  servicesReturn Mock.checkBasic (Mock.handlerWith st Mock.adapter).
Proof.
  intros Hst Hliq. unfold servicesReturn.
  split; [|split; [|split; [|split; [|split]]]].
  - intros vi err. unfold Mock.checkBasic.
    destruct (_ <? _)%nat; intros E; inversion E. reflexivity.
  - intros a t r err. cbn. destruct (existsb _ _); intros E; inversion E.
    reflexivity.
  - intros addr s err. cbn. destruct (find _ _); intros E; inversion E.
    reflexivity.
  - exact Hst.
  - exact Hliq.
  - intros a s err s'. cbn. discriminate.
Qed.

Lemma second_run :
  Mock.run Mock.exampleHandler Mock.exampleCall Mock.exampleAfter
  = (inr Mock.secondOutput, Mock.secondAfter).
Proof. vm_compute. reflexivity. Qed.

Lemma liquidity_fails_run :
  Mock.run (Mock.handlerWith Mock.storageLiquidityFails Mock.adapter)
    Mock.exampleCall Mock.exampleWorld
  = (inl Mock.errLiquidity, Mock.liquidityFailsAfter).
Proof. vm_compute. reflexivity. Qed.

(** X1 on the key of the example token: nonces 258 and 1 have different
    keys, and 258 is read back from its key. *)
Lemma computeDCTNFTTokenKey_determines_nonce_witness :
  computeDCTNFTTokenKey (Mock.str "PROTECTEDdctTOKEN") 258
  <> computeDCTNFTTokenKey (Mock.str "PROTECTEDdctTOKEN") 1 /\
  big.SetBytes
    (skipn (List.length (Mock.str "PROTECTEDdctTOKEN"))
       (computeDCTNFTTokenKey (Mock.str "PROTECTEDdctTOKEN") 258))
  = 258.
Proof.
  destruct (computeDCTNFTTokenKey_determines_nonce
              (Mock.str "PROTECTEDdctTOKEN") (n1:=258) (n2:=1)
              ltac:(lia) ltac:(lia))
    as (Hinj & Hread).
  split; [|exact Hread].
  intros E. apply Hinj in E. discriminate.
Defined.

(** X2 on the key of the example token and nonce 300. *)
Lemma computeDCTNFTTokenKey_nonce_zero_witness :
  (List.length (computeDCTNFTTokenKey (Mock.str "PROTECTEDdctTOKEN") 300)
   <= List.length (Mock.str "PROTECTEDdctTOKEN") + 8)%nat /\
  computeDCTNFTTokenKey (Mock.str "PROTECTEDdctTOKEN") 300
  <> Mock.str "PROTECTEDdctTOKEN" /\
  computeDCTNFTTokenKey
    (computeDCTNFTTokenKey (Mock.str "PROTECTEDdctTOKEN") 300) 0
  = computeDCTNFTTokenKey (Mock.str "PROTECTEDdctTOKEN") 300.
Proof.
  destruct (computeDCTNFTTokenKey_nonce_zero
              (Mock.str "PROTECTEDdctTOKEN") (n:=300) ltac:(lia))
    as (Hlen & Hzero & Hshared).
  split; [exact Hlen|]. split; [|exact Hshared].
  intros E. apply Hzero in E. discriminate.
Defined.

(** X3 on the account of [alice]: nonce 7 saved for the example token. *)
Lemma nonce_ledger_round_trip_witness :
  getLatestNonce Mock.core
    (snd (saveLatestNonce Mock.core (Mock.accountOf Mock.alice []) Mock.token
            7)) Mock.token = inr 7 /\
  forall other,
    other <> Mock.token ->
    getLatestNonce Mock.core
      (snd (saveLatestNonce Mock.core (Mock.accountOf Mock.alice [])
              Mock.token 7)) other
    = getLatestNonce Mock.core (Mock.accountOf Mock.alice []) other.
Proof.
  apply (nonce_ledger_round_trip Mock.core (Mock.accountOf Mock.alice [])
           Mock.token (nonce:=7) Mock_retrieve_saved Mock_retrieve_other
           ltac:(lia)).
  reflexivity.
Defined.

(** X4 on the example call made twice: it returns 1, then 2. *)
Lemma successive_calls_consecutive_nonces_witness :
  exists first,
    0 <= first < 2 ^ 64 /\
    ReturnData Mock.exampleOutput = [big.Bytes first] /\
    ReturnData Mock.secondOutput = [big.Bytes (wrap64 (first + 1))] /\
    wrap64 (first + 1) <> first.
Proof.
  exact (successive_calls_consecutive_nonces Mock.core Mock.checkBasic
           Mock.exampleHandler Mock.exampleCall Mock.exampleCall
           Mock.exampleWorld (tokenID:=Mock.token)
           Mock_retrieve_saved eq_refl eq_refl eq_refl eq_refl
           example_run second_run).
Defined.

(** X5 on the example call resolved to [bob]: the nonce the call returns
    is read back from the account it ends with. *)
Lemma nonce_and_quantity_agree_witness :
  exists tokenID acnt a1 s1 s2 acnt' nextNonce d md,
    nth_error (Arguments Mock.resolvedExample) 0 = Some tokenID /\
    resolvedAccount Mock.exampleHandler Mock.resolvedExample
      Mock.resolvedWorld = Some acnt /\
    ReturnData Mock.resolvedOutput = [big.Bytes nextNonce] /\
    TokenMetaData d = Some md /\ Nonce md = nextNonce /\
    SaveDCTNFTToken (dctStorageHandler Mock.exampleHandler)
      (AddressBytes acnt) acnt (keyPrefix Mock.exampleHandler ++ tokenID)
      nextNonce d true (ReturnCallAfterError Mock.resolvedExample)
      (store Mock.resolvedWorld) = (None, (a1, s1)) /\
    AddToLiquiditySystemAcc (dctStorageHandler Mock.exampleHandler)
      (keyPrefix Mock.exampleHandler ++ tokenID) nextNonce (Value d) s1
    = (None, s2) /\
    saveLatestNonce Mock.core a1 tokenID nextNonce = (None, acnt') /\
    object (resolvedRef Mock.resolvedExample) Mock.resolvedAfter
    = Some acnt' /\
    getLatestNonce Mock.core acnt' tokenID = inr nextNonce /\
    calls Mock.resolvedAfter =
      calls Mock.resolvedWorld ++
      mutationPlan Mock.core Mock.resolvedExample
        (resolvedRef Mock.resolvedExample) (AddressBytes acnt) tokenID
        (keyPrefix Mock.exampleHandler ++ tokenID) nextNonce (Value d) d.
Proof.
  destruct (nonce_and_quantity_agree Mock.core Mock.checkBasic
              Mock.exampleHandler Mock.resolvedExample Mock.resolvedWorld
              resolved_run)
    as (tokenID & acnt & a1 & s1 & s2 & acnt' & nextNonce & d & md
        & Ht & Hra & Hret & Hmd & Hn & Htok & Hliq & Hkv & Ho & Hread & Hc).
  exists tokenID, acnt, a1, s1, s2, acnt', nextNonce, d, md.
  split; [exact Ht|]. split; [exact Hra|]. split; [exact Hret|].
  split; [exact Hmd|]. split; [exact Hn|]. split; [exact Htok|].
  split; [exact Hliq|]. split; [exact Hkv|]. split; [exact Ho|].
  split; [exact (Hread Mock_retrieve_saved) | exact Hc].
Defined.



(** X8 on the example call. *)
Lemma direct_call_effects_witness :
  exists acnt acnt1 acnt' s1 tokenID nextNonce quantity d,
    sndObj Mock.exampleWorld = Some acnt /\
    SaveDCTNFTToken (dctStorageHandler Mock.exampleHandler)
      (AddressBytes acnt) acnt (keyPrefix Mock.exampleHandler ++ tokenID)
      nextNonce d true (ReturnCallAfterError Mock.exampleCall)
      (store Mock.exampleWorld) = (None, (acnt1, s1)) /\
    AddToLiquiditySystemAcc (dctStorageHandler Mock.exampleHandler)
      (keyPrefix Mock.exampleHandler ++ tokenID) nextNonce quantity s1
    = (None, store Mock.exampleAfter) /\
    saveLatestNonce Mock.core acnt1 tokenID nextNonce = (None, acnt') /\
    sndObj Mock.exampleAfter = Some acnt' /\
    loadedObj Mock.exampleAfter = loadedObj Mock.exampleWorld /\
    calls Mock.exampleAfter =
      calls Mock.exampleWorld ++
      [CallSaveDCTNFTToken RefSnd (AddressBytes acnt)
         (keyPrefix Mock.exampleHandler ++ tokenID) nextNonce d true
         (ReturnCallAfterError Mock.exampleCall);
       CallAddToLiquiditySystemAcc (keyPrefix Mock.exampleHandler ++ tokenID)
         nextNonce quantity;
       CallSaveKeyValue RefSnd (getNonceKey Mock.core tokenID)
         (big.Bytes nextNonce)].
Proof.
  exact (direct_call_effects Mock.core Mock.checkBasic Mock.exampleHandler
           Mock.exampleCall Mock.exampleWorld eq_refl example_run).
Defined.

(** X9 on the example call with a storage handler that fails to add the
    liquidity: the call returns that error, the token was saved, the
    liquidity call was issued, and the nonce was not written. *)
Lemma mutations_follow_the_plan_witness :
  Mock.run (Mock.handlerWith Mock.storageLiquidityFails Mock.adapter)
    Mock.exampleCall Mock.exampleWorld
  = (inl Mock.errLiquidity, Mock.liquidityFailsAfter) /\
  exists d,
    calls Mock.liquidityFailsAfter =
    calls Mock.exampleWorld ++
    [CallSaveDCTNFTToken RefSnd Mock.alice
       (Mock.str "PROTECTEDdctTOKEN") 1 d true false;
     CallAddToLiquiditySystemAcc (Mock.str "PROTECTEDdctTOKEN") 1 1] /\
    ~ In (CallSaveKeyValue RefSnd (getNonceKey Mock.core Mock.token)
            (big.Bytes (big.SetUint64 1)))
         (calls Mock.liquidityFailsAfter).
Proof.
  split; [exact liquidity_fails_run|].
  destruct (mutations_follow_the_plan Mock.core Mock.checkBasic
              (Mock.handlerWith Mock.storageLiquidityFails Mock.adapter)
              Mock.exampleCall Mock.exampleWorld liquidity_fails_run)
    as [(err & Hv & _)
       |(tokenID & nextNonce & quantity & d & w1 & acnt & done & Hv & Ho
         & Hcalls & Hcases & Hwritten)].
  - vm_compute in Hv. discriminate.
  - vm_compute in Hv. injection Hv as <- <- <- <- <-.
    vm_compute in Ho. injection Ho as <-.
    cbn in Hcases. destruct Hcases as [_ ->].
    eexists. split; [exact Hcalls|].
    rewrite Hcalls. cbn. intros [H|[H|[]]]; discriminate.
Defined.

(** X10 on the example call, with the data handlers apart.  With a storage
    handler that fails to add the liquidity and accounts that all have their
    data handler, the error the call returns is not a panic.  With accounts
    that have no data handler the call panics at the nonce lookup. *)
Lemma call_never_panics_witness :
  (ProcessBuiltinFunction
     (UAH:=throughDataHandler (Mock.accountData (fun _ => true)))
     Mock.core Mock.checkBasic
     (Mock.handlerWith Mock.storageLiquidityFails Mock.adapter)
     Mock.exampleCall Mock.exampleWorld
   = (inl Mock.errLiquidity, Mock.liquidityFailsAfter) /\
   isPanic Mock.errLiquidity = false) /\
  (ProcessBuiltinFunction
     (UAH:=throughDataHandler (Mock.accountData (fun _ => false)))
     Mock.core Mock.checkBasic Mock.exampleHandler
     Mock.exampleCall Mock.exampleWorld
   = (inl (Panic "nil pointer dereference"), Mock.exampleWorld) /\
   unmutated Mock.exampleHandler Mock.exampleWorld Mock.exampleWorld).
Proof.
  assert (Hrun : ProcessBuiltinFunction
            (UAH:=throughDataHandler (Mock.accountData (fun _ => true)))
            Mock.core Mock.checkBasic
            (Mock.handlerWith Mock.storageLiquidityFails Mock.adapter)
            Mock.exampleCall Mock.exampleWorld
          = (inl Mock.errLiquidity, Mock.liquidityFailsAfter))
    by (vm_compute; reflexivity).
  assert (Hdh : forall hasData,
            dataHandlersReturn (Mock.accountData hasData)).
  { intros hasData. split.
    - intros key data err. cbn. discriminate.
    - intros key value data err data'. cbn. discriminate. }
  split.
  - split; [exact Hrun|].
    destruct (call_never_panics (A:=Mock.accountData (fun _ => true))
                Mock.core Mock.exampleCall Mock.exampleWorld
                (Mock_servicesReturn Mock.storageLiquidityFails
                   ltac:(intros o a k n d c r s err res; cbn; discriminate)
                   ltac:(intros k n q s err s' E; cbn in E;
                         injection E as <- _; reflexivity))
                (Hdh (fun _ => true)))
      as (Hnever & _).
    apply (Hnever ltac:(intros acnt; cbn; discriminate) Mock.errLiquidity
             Mock.liquidityFailsAfter Hrun).
  - destruct (call_never_panics (A:=Mock.accountData (fun _ => false))
                Mock.core Mock.exampleCall Mock.exampleWorld
                (Mock_servicesReturn Mock.storageHandler
                   ltac:(intros o a k n d c r s err res; cbn; discriminate)
                   ltac:(intros k n q s err s'; cbn; discriminate))
                (Hdh (fun _ => false)))
      as (_ & Hpanics).
    apply (Hpanics RefSnd [Mock.str "u1"] Mock.exampleWorld Mock.token
             (Mock.accountOf Mock.alice []));
      vm_compute; reflexivity.
Defined.

(** X11 on the example call: on 150 units of gas instead of 100 it leaves
    50 more. *)
Lemma more_gas_is_returned_witness :
  exists out',
    Mock.run Mock.exampleHandler (withGas Mock.exampleCall 150)
      Mock.exampleWorld = (inr out', Mock.exampleAfter) /\
    ReturnCode out' = ReturnCode Mock.exampleOutput /\
    ReturnData out' = ReturnData Mock.exampleOutput /\
    Logs out' = Logs Mock.exampleOutput /\
    GasRemaining out' = GasRemaining Mock.exampleOutput + (150 - 100).
Proof.
  apply (more_gas_is_returned Mock.core Mock.checkBasic Mock.exampleHandler
           Mock.exampleCall (g:=150) Mock.exampleWorld
           (Mock_checkBasic_withGas Mock.exampleCall) example_run).
  vm_compute. split; [discriminate | reflexivity].
Defined.

(** X12 on the example call and a cost table of 3 per byte with a base cost
    of 20: the call costs 68 and still succeeds on its 100 units of gas; on
    a base cost of 200 it would fail. *)
Lemma gas_config_swap_witness :
  gasToUse (SetNewGasConfig Mock.exampleHandler (Some Mock.dearerGas))
    Mock.exampleCall = 68 /\
  (exists out',
     Mock.run (SetNewGasConfig Mock.exampleHandler (Some Mock.dearerGas))
       Mock.exampleCall Mock.exampleWorld = (inr out', Mock.exampleAfter) /\
     ReturnData out' = ReturnData Mock.exampleOutput /\
     Logs out' = Logs Mock.exampleOutput /\
     GasRemaining out' = 32) /\
  (exists w1,
     Mock.run
       (SetNewGasConfig Mock.exampleHandler
          (Some {| GasCost.BaseOperationCost := {| StorePerByte := 3 |};
                   GasCost.BuiltInCost := {| DCTNFTCreate := 200 |} |}))
       Mock.exampleCall Mock.exampleWorld = (inl ErrNotEnoughGas, w1) /\
     unmutated Mock.exampleHandler Mock.exampleWorld w1).
Proof.
  destruct (gas_config_swap Mock.core Mock.checkBasic Mock.exampleHandler
              Mock.exampleCall Mock.dearerGas Mock.exampleWorld example_run)
    as (_ & Hcovered & _).
  destruct (gas_config_swap Mock.core Mock.checkBasic Mock.exampleHandler
              Mock.exampleCall
              {| GasCost.BaseOperationCost := {| StorePerByte := 3 |};
                 GasCost.BuiltInCost := {| DCTNFTCreate := 200 |} |}
              Mock.exampleWorld example_run)
    as (_ & _ & Hshort & _).
  split; [vm_compute; reflexivity|]. split.
  - apply Hcovered; vm_compute; discriminate.
  - apply Hshort. left. vm_compute. reflexivity.
Defined.


(** X14 on the example call with the quantity 1 written on 33 bytes: the
    maximum is 32, and the call fails. *)
Lemma quantity_length_limit_witness :
  big.SetBytes Mock.paddedOne = 1 /\
  exists err,
    Mock.run Mock.exampleHandler
      (Mock.directCall (Mock.createArgs Mock.paddedOne [x64]) 1000)
      Mock.exampleWorld = (inl err, Mock.exampleWorld) /\
    errors_Is err ErrInvalidArguments = true /\
    unmutated Mock.exampleHandler Mock.exampleWorld Mock.exampleWorld.
Proof.
  split; [vm_compute; reflexivity|].
  assert (Ha : authorize Mock.core Mock.checkBasic Mock.exampleHandler
                 (Mock.directCall (Mock.createArgs Mock.paddedOne [x64]) 1000)
                 Mock.exampleWorld
               = (inr (RefSnd, [Mock.str "u1"], 0), Mock.exampleWorld))
    by (vm_compute; reflexivity).
  assert (Hg : checkGas Mock.exampleHandler
                 (Mock.directCall (Mock.createArgs Mock.paddedOne [x64]) 1000)
               = None)
    by (vm_compute; reflexivity).
  assert (Hr : parseRoyalties
                 (Mock.directCall (Mock.createArgs Mock.paddedOne [x64]) 1000)
                 Mock.exampleWorld = (inr 100, Mock.exampleWorld))
    by (vm_compute; reflexivity).
  assert (Hq : parseQuantity Mock.core Mock.exampleHandler
                 (Mock.directCall (Mock.createArgs Mock.paddedOne [x64]) 1000)
                 RefSnd Mock.exampleWorld = (inr 1, Mock.exampleWorld))
    by (vm_compute; reflexivity).
  assert (H1 : nth_error
                 (Arguments
                    (Mock.directCall (Mock.createArgs Mock.paddedOne [x64])
                       1000)) 1 = Some Mock.paddedOne)
    by reflexivity.
  destruct (quantity_length_limit Mock.core Mock.checkBasic
              Mock.exampleHandler
              (Mock.directCall (Mock.createArgs Mock.paddedOne [x64]) 1000)
              Mock.exampleWorld Ha Hg Hr Hq H1)
    as (Hlong & _).
  apply Hlong; vm_compute; reflexivity.
Defined.

(** X15 on the example call sent to [bob], and on the example call with
    less gas than the base cost. *)
Lemma input_check_comes_first_witness :
  Mock.run Mock.exampleHandler
    {| CallerAddr := Mock.alice; RecipientAddr := Mock.bob;
       CallType := vm.DirectCall;
       Arguments := Mock.createArgs [x01] [x64];
       GasProvided := 100; ReturnCallAfterError := false |}
    Mock.exampleWorld = (inl ErrInvalidRcvAddr, Mock.exampleWorld) /\
  Mock.run Mock.exampleHandler
    (Mock.directCall (Mock.createArgs [x01] [x64]) 100)
    (mkWorld Mock.emptyStore None None [])
  = (inl ErrNilUserAccount, mkWorld Mock.emptyStore None None []) /\
  Mock.run Mock.exampleHandler
    (Mock.directCall [Mock.token; [x01]] 9) Mock.exampleWorld
  = (inl ErrNotEnoughGas, Mock.exampleWorld).
Proof.
  split; [|split].
  - apply (input_check_comes_first Mock.core Mock.checkBasic
             Mock.exampleHandler
             {| CallerAddr := Mock.alice; RecipientAddr := Mock.bob;
                CallType := vm.DirectCall;
                Arguments := Mock.createArgs [x01] [x64];
                GasProvided := 100; ReturnCallAfterError := false |}
             Mock.exampleWorld eq_refl).
    vm_compute. discriminate.
  - apply (input_check_comes_first Mock.core Mock.checkBasic
             Mock.exampleHandler
             (Mock.directCall (Mock.createArgs [x01] [x64]) 100)
             (mkWorld Mock.emptyStore None None []) eq_refl); reflexivity.
  - apply (input_check_comes_first Mock.core Mock.checkBasic
             Mock.exampleHandler (Mock.directCall [Mock.token; [x01]] 9)
             Mock.exampleWorld eq_refl).
    + reflexivity.
    + left. discriminate.
    + vm_compute. reflexivity.
Defined.

(** X16 on the example call resolved to [carol], whom the adapter does not
    know, and on an adapter that loads no user account. *)
Lemma target_must_load_witness :
  Mock.run Mock.exampleHandler
    (Mock.resolvedCall (Mock.createArgs [x01] [x64] ++ [Mock.carol]) 100)
    Mock.resolvedWorld = (inl Mock.errNotFound, Mock.resolvedWorld) /\
  Mock.run (Mock.handlerWith Mock.storageHandler Mock.adapterOther)
    Mock.resolvedExample Mock.resolvedWorld
  = (inl ErrWrongTypeAssertion, Mock.resolvedWorld).
Proof.
  split.
  - apply (target_must_load Mock.core Mock.checkBasic Mock.exampleHandler
             (Mock.resolvedCall
                (Mock.createArgs [x01] [x64] ++ [Mock.carol]) 100)
             Mock.resolvedWorld (target:=Mock.carol)
             eq_refl eq_refl eq_refl eq_refl eq_refl
             ltac:(vm_compute; discriminate)).
    reflexivity.
  - apply (target_must_load Mock.core Mock.checkBasic
             (Mock.handlerWith Mock.storageHandler Mock.adapterOther)
             Mock.resolvedExample Mock.resolvedWorld (target:=Mock.bob)
             eq_refl eq_refl eq_refl eq_refl eq_refl
             ltac:(vm_compute; discriminate)).
    reflexivity.
Defined.

(** X17 on the example call resolved to [bob], made without a sender's
    account object. *)
Lemma resolved_call_ignores_sender_witness :
  Mock.run Mock.exampleHandler Mock.resolvedExample
    (withSender None Mock.resolvedWorld)
  = (inr Mock.resolvedOutput, withSender None Mock.resolvedAfter) /\
  sndObj Mock.resolvedAfter = sndObj Mock.resolvedWorld.
Proof.
  exact (resolved_call_ignores_sender Mock.core Mock.checkBasic
           Mock.exampleHandler Mock.resolvedExample Mock.resolvedWorld
           None eq_refl resolved_run).
Defined.
